(** * PortfolioForge: the resume-to-portfolio pipeline

    A shallow embedding of the JavaScript sources of the repository
    (server.js, generate-portfolio.js, the Netlify functions) and the
    properties its specification states about them.

    Layout: the slice of the JavaScript runtime the handlers rely on
    (strings, values, property access, errors), JSON.parse, the theme
    tables, then one module per source file, then the theorems. *)

From Stdlib Require Import String Ascii NArith ZArith Bool List Lia DecimalString.
From stdpp Require Import base option list gmap.

Set Warnings "-register-all".
Local Open Scope N_scope.

(** ** Strings

    A JavaScript string is a sequence of UTF-16 code units; a code unit is
    written as its number.  Literals of the sources are written [js "..."]. *)

Abbreviation jsstring := (list N).

Definition js (s : string) : jsstring :=
  map N_of_ascii (list_ascii_of_string s).
Arguments js : simpl never.

(** The double quote, for the literals that contain one. *)
Definition dq : jsstring := [34].

Module Str.

(** [s.startsWith(p)] *)
Fixpoint startsWith (s p : jsstring) {struct p} : bool :=
  match p, s with
  | [], _ => true
  | _ :: _, [] => false
  | c :: p', d :: s' => (c =? d) && startsWith s' p'
  end.

(** [s.includes(sub)] *)
Fixpoint includes (s sub : jsstring) : bool :=
  startsWith s sub ||
  match s with
  | [] => false
  | _ :: s' => includes s' sub
  end.

(** [a === b] on strings *)
Fixpoint eqb (a b : jsstring) : bool :=
  match a, b with
  | [], [] => true
  | c :: a', d :: b' => (c =? d) && eqb a' b'
  | _, _ => false
  end.

(** WhiteSpace and LineTerminator of ECMA-262, the code units [trim]
    strips: TAB, LF, VT, FF, CR, SP, NBSP, U+1680, U+2000..U+200A,
    U+2028, U+2029, U+202F, U+205F, U+3000, U+FEFF. *)
Definition isWhiteSpace (c : N) : bool :=
  ((9 <=? c) && (c <=? 13)) || (c =? 32) || (c =? 160) || (c =? 5760)
  || ((8192 <=? c) && (c <=? 8202)) || (c =? 8232) || (c =? 8233)
  || (c =? 8239) || (c =? 8287) || (c =? 12288) || (c =? 65279).

Fixpoint trimStart (s : jsstring) : jsstring :=
  match s with
  | [] => []
  | c :: s' => if isWhiteSpace c then trimStart s' else s
  end.

Definition trimEnd (s : jsstring) : jsstring := rev (trimStart (rev s)).

(** [s.trim()] *)
Definition trim (s : jsstring) : jsstring := trimEnd (trimStart s).

(** The first alternative of [pats] that matches at the head of [s]:
    a regular expression [p1|p2|...] of literal alternatives tries them
    in order. *)
Fixpoint firstMatch (pats : list jsstring) (s : jsstring) : option jsstring :=
  match pats with
  | [] => None
  | p :: ps => if startsWith s p then Some p else firstMatch ps s
  end.

(** [s.replace(/p1|p2|.../g, '')] for non-empty literal alternatives:
    one pass from the left, every match deleted, the scan resuming after
    the match.  [skip] counts the code units of the current match that
    are still to be dropped. *)
Fixpoint removeAllFrom (pats : list jsstring) (skip : nat) (s : jsstring) : jsstring :=
  match s with
  | [] => []
  | c :: s' =>
      match skip with
      | S k => removeAllFrom pats k s'
      | O =>
          match firstMatch pats s with
          | Some p => removeAllFrom pats (Nat.pred (length p)) s'
          | None => c :: removeAllFrom pats O s'
          end
      end
  end.

Definition removeAll (pats : list jsstring) (s : jsstring) : jsstring :=
  removeAllFrom pats O s.

Fixpoint dropUntil (c : N) (s : jsstring) : jsstring :=
  match s with
  | [] => []
  | d :: s' => if d =? c then s else dropUntil c s'
  end.

(** [s.match(/\{[\s\S]*\}/)]: the leftmost match starts at the first
    opening brace and, the star being greedy and [[\s\S]] matching every
    code unit, runs to the last closing brace after it; [null] when no
    closing brace follows the first opening one. *)
Definition matchBraces (s : jsstring) : option jsstring :=
  match dropUntil 123 s with
  | [] => None
  | rest =>
      match rev (dropUntil 125 (rev rest)) with
      | [] => None
      | span => Some span
      end
  end.

(** No code unit of [s] is [c]. *)
Definition lacks (c : N) (s : jsstring) : bool :=
  forallb (fun d => negb (d =? c)) s.

(** The last code unit of [s] is [c]. *)
Fixpoint lastIs (c : N) (s : jsstring) : bool :=
  match s with
  | [] => false
  | [d] => d =? c
  | _ :: s' => lastIs c s'
  end.

(** [s.charAt(0)] *)
Definition charAt0 (s : jsstring) : jsstring :=
  match s with
  | [] => []
  | c :: _ => [c]
  end.

(** [s.replace(pat, by)] with a literal pattern: the first occurrence. *)
Fixpoint replaceFirst (pat by_ : jsstring) (s : jsstring) : jsstring :=
  if startsWith s pat then by_ ++ drop (length pat) s
  else match s with
       | [] => []
       | c :: s' => c :: replaceFirst pat by_ s'
       end.

End Str.

(** ** Values, errors and results *)

(** A number as JSON writes it: [(-1)^negative * digits * 10^exp10], kept
    exact.  The program never computes with numbers; it only asks whether
    one is zero, which [numberIsZero] answers for the double the literal
    rounds to. *)
Record number := { negative : bool; digits : N; exp10 : Z }.

(** The double nearest to the literal is [0] (or [-0]) exactly when the
    literal is zero or its magnitude is at most [2^-1075], half the
    smallest subnormal. *)
Definition numberIsZero (n : number) : bool :=
  (digits n =? 0)
  || ((exp10 n <? 0)%Z
      && (Z.of_N (digits n) * 2 ^ 1075 <=? 10 ^ (- exp10 n))%Z).

(** The values the handlers see: what JSON.parse builds, [undefined], and
    the members an object literal inherits from [Object.prototype]
    ([VBuiltin "toString"] is the function [Object.prototype.toString],
    [VBuiltin "__proto__"] the prototype object itself), and the [Date]
    objects the server stamps its records with.  An array keeps the named
    properties assigned to it next to its elements. *)
Inductive value :=
| VUndefined
| VNull
| VBool (b : bool)
| VNum (n : number)
| VStr (s : jsstring)
| VArr (elems : list value) (named : list (jsstring * value))
| VObj (props : list (jsstring * value))
| VBuiltin (name : jsstring)
| VDate (time : N).

Inductive error :=
| TypeError
| ReferenceError (ident : jsstring)
| SyntaxError
| URIError
| Error (message : jsstring)
| Rejected (message : jsstring).

Inductive result (A : Type) :=
| Ok (a : A)
| Throw (e : error).
Arguments Ok {A} a.
Arguments Throw {A} e.

Module Val.

(** ToBoolean *)
Definition truthy (v : value) : bool :=
  match v with
  | VUndefined | VNull => false
  | VBool b => b
  | VNum n => negb (numberIsZero n)
  | VStr s => match s with [] => false | _ => true end
  | VArr _ _ | VObj _ | VBuiltin _ | VDate _ => true
  end.

(** The own property [k] of an object literal or a parsed object. *)
Fixpoint own (props : list (jsstring * value)) (k : jsstring) : option value :=
  match props with
  | [] => None
  | (k', v) :: rest => if Str.eqb k' k then Some v else own rest k
  end.

(** The property names every ordinary object inherits from
    [Object.prototype]; each is a function, except [__proto__], an accessor
    that yields the prototype object. *)
Definition objectPrototypeNames : list jsstring :=
  [ js "constructor"; js "__defineGetter__"; js "__defineSetter__";
    js "hasOwnProperty"; js "__lookupGetter__"; js "__lookupSetter__";
    js "isPrototypeOf"; js "propertyIsEnumerable"; js "toString";
    js "valueOf"; js "__proto__"; js "toLocaleString" ].

Definition inherited (k : jsstring) : bool :=
  existsb (Str.eqb k) objectPrototypeNames.

(** [o[k]] for an ordinary object with own properties [props] and
    prototype [Object.prototype]. *)
Definition lookup (props : list (jsstring * value)) (k : jsstring) : value :=
  match own props k with
  | Some v => v
  | None => if inherited k then VBuiltin k else VUndefined
  end.

(** The [name] of an inherited member: a function's name is its property
    name, except that [constructor] is the function [Object]; the
    prototype object has none. *)
Definition builtinName (k : jsstring) : value :=
  if Str.eqb k (js "__proto__") then VUndefined
  else if Str.eqb k (js "constructor") then VStr (js "Object")
  else VStr k.

(** [v.k] and [v[k]].  Reading from [undefined] or [null] throws.  For a
    primitive, an array, a function or a date the result is given for the keys the
    sources read ([skills], [summary], [personalInfo], [linkedin],
    [github], [name], [profession], [resumeText], [manualData], [type],
    [portfolioData], [theme], [profilePictureUrl]): none is an index or a
    member of a built-in prototype, so only an array's named properties and
    a function's [name] can answer. *)
Definition get (v : value) (k : jsstring) : result value :=
  match v with
  | VUndefined | VNull => Throw TypeError
  | VObj props => Ok (lookup props k)
  | VArr _ named => Ok (match own named k with Some x => x | None => VUndefined end)
  | VBuiltin f => Ok (if Str.eqb k (js "name") then builtinName f else VUndefined)
  | VBool _ | VNum _ | VStr _ | VDate _ => Ok VUndefined
  end.

(** Assignment to an own data property: the value is replaced in place, or
    the property is added last. *)
Fixpoint assign (props : list (jsstring * value)) (k : jsstring) (x : value)
  : list (jsstring * value) :=
  match props with
  | [] => [(k, x)]
  | (k', v) :: rest =>
      if Str.eqb k' k then (k', x) :: rest else (k', v) :: assign rest k x
  end.

(** [v.k = x], returning the object after the assignment.  On [undefined]
    and [null] it throws; on a primitive it is ignored (the modules are not
    in strict mode).  The sources assign only keys listed at [get], and
    only to parsed data, never to a function or a date. *)
Definition set (v : value) (k : jsstring) (x : value) : result value :=
  match v with
  | VUndefined | VNull => Throw TypeError
  | VObj props => Ok (VObj (assign props k x))
  | VArr elems named => Ok (VArr elems (assign named k x))
  | VBool _ | VNum _ | VStr _ | VBuiltin _ | VDate _ => Ok v
  end.

(** ToPropertyKey, for the two kinds of value the sources use as a key. *)
Definition propertyKey (v : value) : jsstring :=
  match v with
  | VStr s => s
  | _ => js "undefined"
  end.

(** [Array.isArray(v)] *)
Definition isArray (v : value) : bool :=
  match v with
  | VArr _ _ => true
  | _ => false
  end.

End Val.

(** ** JSON.parse

    The built-in, as ECMA-404 defines the grammar: a lexer that reads the
    text one code unit at a time, and a stack automaton over its tokens.
    Both are structural, so parsing is total. *)

Module Json.

Inductive token :=
| TLBrace | TRBrace | TLBracket | TRBracket | TColon | TComma
| TString (s : jsstring)
| TNumber (n : number)
| TTrue | TFalse | TNull.

(** Where the lexer stands inside a number:
    [-] read; a leading [0] read; integer digits; [.] read; fraction
    digits; [e] read; exponent sign read; exponent digits. *)
Inductive numPhase :=
| NMinus | NZero | NInt | NDot | NFrac | NExp | NExpSign | NExpDigits.

Record numAcc := {
  nNeg : bool;       (* a leading minus *)
  nDigits : N;       (* integer and fraction digits read as one numeral *)
  nFrac : N;         (* how many of them are fraction digits *)
  nExpNeg : bool;    (* sign of the exponent *)
  nExpVal : N        (* exponent digits *)
}.

Definition numOf (a : numAcc) : number :=
  {| negative := nNeg a;
     digits := nDigits a;
     exp10 := ((if nExpNeg a then - Z.of_N (nExpVal a) else Z.of_N (nExpVal a))
               - Z.of_N (nFrac a))%Z |}.

Inductive lexState :=
| LDefault
| LString (acc : jsstring)                       (* inside a string; [acc] reversed *)
| LEscape (acc : jsstring)                       (* after a backslash *)
| LUnicode (acc : jsstring) (seen : nat) (code : N)   (* inside \uXXXX *)
| LNumber (ph : numPhase) (a : numAcc)
| LWord (rest : jsstring) (t : token).           (* inside true, false, null *)

Definition isDigit (c : N) : bool := (48 <=? c) && (c <=? 57).

Definition hexValue (c : N) : option N :=
  if (48 <=? c) && (c <=? 57) then Some (c - 48)
  else if (65 <=? c) && (c <=? 70) then Some (c - 55)
  else if (97 <=? c) && (c <=? 102) then Some (c - 87)
  else None.

(** JSON whitespace: TAB, LF, CR, SP. *)
Definition isJsonSpace (c : N) : bool :=
  (c =? 9) || (c =? 10) || (c =? 13) || (c =? 32).

Definition startNum (neg : bool) (d : N) : numAcc :=
  {| nNeg := neg; nDigits := d; nFrac := 0; nExpNeg := false; nExpVal := 0 |}.

(** A code unit read between tokens. *)
Definition stepDefault (c : N) : option (lexState * list token) :=
  if isJsonSpace c then Some (LDefault, [])
  else if c =? 123 then Some (LDefault, [TLBrace])
  else if c =? 125 then Some (LDefault, [TRBrace])
  else if c =? 91 then Some (LDefault, [TLBracket])
  else if c =? 93 then Some (LDefault, [TRBracket])
  else if c =? 58 then Some (LDefault, [TColon])
  else if c =? 44 then Some (LDefault, [TComma])
  else if c =? 34 then Some (LString [], [])
  else if c =? 45 then Some (LNumber NMinus (startNum true 0), [])
  else if c =? 48 then Some (LNumber NZero (startNum false 0), [])
  else if isDigit c then Some (LNumber NInt (startNum false (c - 48)), [])
  else if c =? 116 then Some (LWord (js "rue") TTrue, [])
  else if c =? 102 then Some (LWord (js "alse") TFalse, [])
  else if c =? 110 then Some (LWord (js "ull") TNull, [])
  else None.

Definition pushDigit (a : numAcc) (c : N) (frac : bool) : numAcc :=
  {| nNeg := nNeg a; nDigits := nDigits a * 10 + (c - 48);
     nFrac := if frac then nFrac a + 1 else nFrac a;
     nExpNeg := nExpNeg a; nExpVal := nExpVal a |}.

Definition pushExp (a : numAcc) (c : N) : numAcc :=
  {| nNeg := nNeg a; nDigits := nDigits a; nFrac := nFrac a;
     nExpNeg := nExpNeg a; nExpVal := nExpVal a * 10 + (c - 48) |}.

Definition setExpNeg (a : numAcc) : numAcc :=
  {| nNeg := nNeg a; nDigits := nDigits a; nFrac := nFrac a;
     nExpNeg := true; nExpVal := nExpVal a |}.

(** The number is complete: [c] is read again as the start of what
    follows. *)
Definition endNumber (a : numAcc) (c : N) : option (lexState * list token) :=
  match stepDefault c with
  | Some (st, toks) => Some (st, TNumber (numOf a) :: toks)
  | None => None
  end.

Definition isE (c : N) : bool := (c =? 101) || (c =? 69).

Definition stepNumber (ph : numPhase) (a : numAcc) (c : N)
  : option (lexState * list token) :=
  match ph with
  | NMinus =>
      if c =? 48 then Some (LNumber NZero a, [])
      else if isDigit c then Some (LNumber NInt (pushDigit a c false), [])
      else None
  | NZero =>
      if c =? 46 then Some (LNumber NDot a, [])
      else if isE c then Some (LNumber NExp a, [])
      else endNumber a c
  | NInt =>
      if isDigit c then Some (LNumber NInt (pushDigit a c false), [])
      else if c =? 46 then Some (LNumber NDot a, [])
      else if isE c then Some (LNumber NExp a, [])
      else endNumber a c
  | NDot =>
      if isDigit c then Some (LNumber NFrac (pushDigit a c true), []) else None
  | NFrac =>
      if isDigit c then Some (LNumber NFrac (pushDigit a c true), [])
      else if isE c then Some (LNumber NExp a, [])
      else endNumber a c
  | NExp =>
      if c =? 43 then Some (LNumber NExpSign a, [])
      else if c =? 45 then Some (LNumber NExpSign (setExpNeg a), [])
      else if isDigit c then Some (LNumber NExpDigits (pushExp a c), [])
      else None
  | NExpSign =>
      if isDigit c then Some (LNumber NExpDigits (pushExp a c), []) else None
  | NExpDigits =>
      if isDigit c then Some (LNumber NExpDigits (pushExp a c), [])
      else endNumber a c
  end.

Definition stepEscape (acc : jsstring) (c : N) : option (lexState * list token) :=
  if (c =? 34) || (c =? 92) || (c =? 47) then Some (LString (c :: acc), [])
  else if c =? 98 then Some (LString (8 :: acc), [])
  else if c =? 102 then Some (LString (12 :: acc), [])
  else if c =? 110 then Some (LString (10 :: acc), [])
  else if c =? 114 then Some (LString (13 :: acc), [])
  else if c =? 116 then Some (LString (9 :: acc), [])
  else if c =? 117 then Some (LUnicode acc 0 0, [])
  else None.

Definition step (st : lexState) (c : N) : option (lexState * list token) :=
  match st with
  | LDefault => stepDefault c
  | LString acc =>
      if c =? 34 then Some (LDefault, [TString (rev acc)])
      else if c =? 92 then Some (LEscape acc, [])
      else if c <? 32 then None
      else Some (LString (c :: acc), [])
  | LEscape acc => stepEscape acc c
  | LUnicode acc seen code =>
      match hexValue c with
      | None => None
      | Some h =>
          match seen with
          | 3%nat => Some (LString ((code * 16 + h) :: acc), [])
          | _ => Some (LUnicode acc (S seen) (code * 16 + h), [])
          end
      end
  | LNumber ph a => stepNumber ph a c
  | LWord rest t =>
      match rest with
      | [] => None
      | [d] => if c =? d then Some (LDefault, [t]) else None
      | d :: rest' => if c =? d then Some (LWord rest' t, []) else None
      end
  end.

(** The end of the text: only between tokens, or after a number that may
    end there. *)
Definition finish (st : lexState) : option (list token) :=
  match st with
  | LDefault => Some []
  | LNumber (NZero | NInt | NFrac | NExpDigits) a => Some [TNumber (numOf a)]
  | _ => None
  end.

Fixpoint lexFrom (st : lexState) (s : jsstring) : option (list token) :=
  match s with
  | [] => finish st
  | c :: s' =>
      match step st c with
      | None => None
      | Some (st', toks) =>
          match lexFrom st' s' with
          | None => None
          | Some rest => Some (toks ++ rest)
          end
      end
  end.

Definition lex (s : jsstring) : option (list token) := lexFrom LDefault s.

(** The containers that are open around the value being read. *)
Inductive frame :=
| FArr (done : list value)                               (* elements so far, reversed *)
| FObj (done : list (jsstring * value)) (key : jsstring).  (* members so far, the key awaiting its value *)

Inductive pstate :=
| SValue (stk : list frame)                               (* a value must follow *)
| SArrStart (stk : list frame)                            (* after [: a value or ] *)
| SArrNext (elems : list value) (stk : list frame)        (* after an element: , or ] *)
| SObjStart (stk : list frame)                            (* after {: a key or } *)
| SObjKey (members : list (jsstring * value)) (stk : list frame)   (* after , in an object *)
| SObjColon (members : list (jsstring * value)) (key : jsstring) (stk : list frame)
| SObjNext (members : list (jsstring * value)) (stk : list frame)  (* after a member: , or } *)
| SDone (v : value).

(** A value is complete inside the containers [stk].  A repeated key of
    an object keeps its place and takes the later value. *)
Definition complete (stk : list frame) (v : value) : pstate :=
  match stk with
  | [] => SDone v
  | FArr elems :: stk' => SArrNext (v :: elems) stk'
  | FObj members key :: stk' => SObjNext (Val.assign members key v) stk'
  end.

(** A token where a value is expected. *)
Definition startValue (stk : list frame) (t : token) : option pstate :=
  match t with
  | TString s => Some (complete stk (VStr s))
  | TNumber n => Some (complete stk (VNum n))
  | TTrue => Some (complete stk (VBool true))
  | TFalse => Some (complete stk (VBool false))
  | TNull => Some (complete stk VNull)
  | TLBracket => Some (SArrStart stk)
  | TLBrace => Some (SObjStart stk)
  | TRBrace | TRBracket | TColon | TComma => None
  end.

Definition pstep (st : pstate) (t : token) : option pstate :=
  match st with
  | SValue stk => startValue stk t
  | SArrStart stk =>
      match t with
      | TRBracket => Some (complete stk (VArr [] []))
      | _ => startValue (FArr [] :: stk) t
      end
  | SArrNext elems stk =>
      match t with
      | TComma => Some (SValue (FArr elems :: stk))
      | TRBracket => Some (complete stk (VArr (rev elems) []))
      | _ => None
      end
  | SObjStart stk =>
      match t with
      | TRBrace => Some (complete stk (VObj []))
      | TString k => Some (SObjColon [] k stk)
      | _ => None
      end
  | SObjKey members stk =>
      match t with
      | TString k => Some (SObjColon members k stk)
      | _ => None
      end
  | SObjColon members k stk =>
      match t with
      | TColon => Some (SValue (FObj members k :: stk))
      | _ => None
      end
  | SObjNext members stk =>
      match t with
      | TComma => Some (SObjKey members stk)
      | TRBrace => Some (complete stk (VObj members))
      | _ => None
      end
  | SDone _ => None
  end.

Fixpoint run (st : pstate) (ts : list token) : option value :=
  match ts with
  | [] => match st with SDone v => Some v | _ => None end
  | t :: ts' =>
      match pstep st t with
      | None => None
      | Some st' => run st' ts'
      end
  end.

(** [JSON.parse(text)]: the value, or a SyntaxError. *)
Definition parse (text : jsstring) : result value :=
  match lex text with
  | None => Throw SyntaxError
  | Some ts =>
      match run (SValue []) ts with
      | None => Throw SyntaxError
      | Some v => Ok v
      end
  end.

End Json.

(** ** Conversions that can throw *)

Module Conv.

(** ToString of a parsed value throws exactly when OrdinaryToPrimitive
    finds no callable [toString] and no [valueOf] returning a primitive:
    for an object, when an own property shadows [Object.prototype.toString]
    (a parsed value is never callable, and the inherited [valueOf] returns
    the object); for an array, whose [toString] joins its elements, when an
    element other than [null] does. *)
Fixpoint toStringThrows (v : value) : bool :=
  match v with
  | VObj props =>
      match Val.own props (js "toString") with
      | Some _ => true
      | None => false
      end
  | VArr elems _ => existsb toStringThrows elems
  | _ => false
  end.

(** A template literal or a string concatenation that interpolates [v]. *)
Definition interpolate (v : value) : result unit :=
  if toStringThrows v then Throw TypeError else Ok tt.

(** The decimal name of an index. *)
Definition indexKey (i : nat) : jsstring :=
  js (DecimalString.NilZero.string_of_uint (Nat.to_uint i)).

Fixpoint indexed {A} (f : A -> value) (i : nat) (l : list A) : list (jsstring * value) :=
  match l with
  | [] => []
  | x :: l' => (indexKey i, f x) :: indexed f (S i) l'
  end.

(** The own enumerable properties that [{...v}] copies: none for
    [undefined], [null], a boolean, a number or a function (the members of
    [Object.prototype] are not enumerable); the indices of a string or an
    array. *)
Definition spread (v : value) : list (jsstring * value) :=
  match v with
  | VObj props => props
  | VArr elems named => indexed (fun x => x) 0 elems ++ named
  | VStr s => indexed (fun c => VStr [c]) 0 s
  | _ => []
  end.

(** The object literal [{...v, k1: x1, ...}]. *)
Definition extend (base : list (jsstring * value)) (more : list (jsstring * value))
  : list (jsstring * value) :=
  fold_left (fun acc kv => Val.assign acc (fst kv) (snd kv)) more base.

End Conv.

(** ** Lexical scope

    The identifiers a block can name, innermost first.  A name that is not
    among them and is not a global of Node ([response] and [themes] are
    not) raises a ReferenceError when it is evaluated. *)

Definition resolve (scope : list jsstring) (x : jsstring) : result unit :=
  if existsb (Str.eqb x) scope then Ok tt else Throw (ReferenceError x).

(** What every CommonJS module can name. *)
Definition commonJsScope : list jsstring :=
  [js "exports"; js "require"; js "module"; js "__filename"; js "__dirname"].

(** ** Themes *)

Record Theme := {
  name : jsstring;
  background : jsstring;
  primaryColor : jsstring;
  secondaryColor : jsstring;
  card : jsstring;
  font : jsstring;
  buttonStyle : jsstring
}.

Module Themes.

Definition object (t : Theme) : value :=
  VObj [ (js "name", VStr (name t));
         (js "background", VStr (background t));
         (js "primaryColor", VStr (primaryColor t));
         (js "secondaryColor", VStr (secondaryColor t));
         (js "card", VStr (card t));
         (js "font", VStr (font t));
         (js "buttonStyle", VStr (buttonStyle t)) ].

Definition developerDark : Theme :=
  {| name := js "Developer Dark";
     background := js "bg-gray-900 text-white";
     primaryColor := js "bg-blue-500";
     secondaryColor := js "text-blue-400";
     card := js "bg-gray-800";
     font := js "font-mono";
     buttonStyle := js "bg-blue-600 hover:bg-blue-700" |}.

Definition designerLight : Theme :=
  {| name := js "Designer Light";
     background := js "bg-white text-gray-800";
     primaryColor := js "bg-pink-500";
     secondaryColor := js "text-pink-500";
     card := js "bg-gray-50";
     font := js "font-sans";
     buttonStyle := js "bg-pink-600 hover:bg-pink-700" |}.

Definition dataGreen : Theme :=
  {| name := js "Data Green";
     background := js "bg-gray-800 text-gray-100";
     primaryColor := js "bg-green-500";
     secondaryColor := js "text-green-400";
     card := js "bg-gray-700";
     font := js "font-sans";
     buttonStyle := js "bg-green-600 hover:bg-green-700" |}.

(** The [Default] entry of server.js and of the Netlify generate function. *)
Definition professionalBlue : Theme :=
  {| name := js "Professional Blue";
     background := js "bg-gray-100 text-gray-900";
     primaryColor := js "bg-indigo-600";
     secondaryColor := js "text-indigo-500";
     card := js "bg-white";
     font := js "font-sans";
     buttonStyle := js "bg-indigo-600 hover:bg-indigo-700" |}.

(** The [Default] entry of generate-portfolio.js: a darker button. *)
Definition professionalBlue' : Theme :=
  {| name := js "Professional Blue";
     background := js "bg-gray-100 text-gray-900";
     primaryColor := js "bg-indigo-600";
     secondaryColor := js "text-indigo-500";
     card := js "bg-white";
     font := js "font-sans";
     buttonStyle := js "bg-indigo-700 hover:bg-indigo-800" |}.

Definition table (dflt : Theme) : list (jsstring * value) :=
  [ (js "Software Developer", object developerDark);
    (js "Graphic Designer", object designerLight);
    (js "Data Scientist", object dataGreen);
    (js "Default", object dflt) ].

(** [themes] of server.js (lines 45-82) and of the Netlify generate
    function (lines 190-227, local to its [try] block). *)
Definition themes : list (jsstring * value) := table professionalBlue.

(** [themes] of generate-portfolio.js (lines 97-102). *)
Definition themes' : list (jsstring * value) := table professionalBlue'.



(** [tbl[profession] || tbl['Default']] *)
Definition select (tbl : list (jsstring * value)) (profession : value) : value :=
  let t := Val.lookup tbl (Val.propertyKey profession) in
  if Val.truthy t then t else Val.lookup tbl (js "Default").

End Themes.

(** ** The theme tables, file by file

    Each table as its file writes it, entry by entry and property by
    property. *)

Module ThemeTables.

(** [themes] of server.js, lines 45-82. *)
Definition server : list (jsstring * value) :=
  [ (js "Software Developer",
     VObj [ (js "name", VStr (js "Developer Dark"));
           (js "background", VStr (js "bg-gray-900 text-white"));
           (js "primaryColor", VStr (js "bg-blue-500"));
           (js "secondaryColor", VStr (js "text-blue-400"));
           (js "card", VStr (js "bg-gray-800"));
           (js "font", VStr (js "font-mono"));
           (js "buttonStyle", VStr (js "bg-blue-600 hover:bg-blue-700")) ]);
    (js "Graphic Designer",
     VObj [ (js "name", VStr (js "Designer Light"));
           (js "background", VStr (js "bg-white text-gray-800"));
           (js "primaryColor", VStr (js "bg-pink-500"));
           (js "secondaryColor", VStr (js "text-pink-500"));
           (js "card", VStr (js "bg-gray-50"));
           (js "font", VStr (js "font-sans"));
           (js "buttonStyle", VStr (js "bg-pink-600 hover:bg-pink-700")) ]);
    (js "Data Scientist",
     VObj [ (js "name", VStr (js "Data Green"));
           (js "background", VStr (js "bg-gray-800 text-gray-100"));
           (js "primaryColor", VStr (js "bg-green-500"));
           (js "secondaryColor", VStr (js "text-green-400"));
           (js "card", VStr (js "bg-gray-700"));
           (js "font", VStr (js "font-sans"));
           (js "buttonStyle", VStr (js "bg-green-600 hover:bg-green-700")) ]);
    (js "Default",
     VObj [ (js "name", VStr (js "Professional Blue"));
           (js "background", VStr (js "bg-gray-100 text-gray-900"));
           (js "primaryColor", VStr (js "bg-indigo-600"));
           (js "secondaryColor", VStr (js "text-indigo-500"));
           (js "card", VStr (js "bg-white"));
           (js "font", VStr (js "font-sans"));
           (js "buttonStyle", VStr (js "bg-indigo-600 hover:bg-indigo-700")) ]) ].

(** [themes] of the Netlify generate function (src/unnamed/part_000), lines 190-227. *)
Definition netlify : list (jsstring * value) :=
  [ (js "Software Developer",
     VObj [ (js "name", VStr (js "Developer Dark"));
           (js "background", VStr (js "bg-gray-900 text-white"));
           (js "primaryColor", VStr (js "bg-blue-500"));
           (js "secondaryColor", VStr (js "text-blue-400"));
           (js "card", VStr (js "bg-gray-800"));
           (js "font", VStr (js "font-mono"));
           (js "buttonStyle", VStr (js "bg-blue-600 hover:bg-blue-700")) ]);
    (js "Graphic Designer",
     VObj [ (js "name", VStr (js "Designer Light"));
           (js "background", VStr (js "bg-white text-gray-800"));
           (js "primaryColor", VStr (js "bg-pink-500"));
           (js "secondaryColor", VStr (js "text-pink-500"));
           (js "card", VStr (js "bg-gray-50"));
           (js "font", VStr (js "font-sans"));
           (js "buttonStyle", VStr (js "bg-pink-600 hover:bg-pink-700")) ]);
    (js "Data Scientist",
     VObj [ (js "name", VStr (js "Data Green"));
           (js "background", VStr (js "bg-gray-800 text-gray-100"));
           (js "primaryColor", VStr (js "bg-green-500"));
           (js "secondaryColor", VStr (js "text-green-400"));
           (js "card", VStr (js "bg-gray-700"));
           (js "font", VStr (js "font-sans"));
           (js "buttonStyle", VStr (js "bg-green-600 hover:bg-green-700")) ]);
    (js "Default",
     VObj [ (js "name", VStr (js "Professional Blue"));
           (js "background", VStr (js "bg-gray-100 text-gray-900"));
           (js "primaryColor", VStr (js "bg-indigo-600"));
           (js "secondaryColor", VStr (js "text-indigo-500"));
           (js "card", VStr (js "bg-white"));
           (js "font", VStr (js "font-sans"));
           (js "buttonStyle", VStr (js "bg-indigo-600 hover:bg-indigo-700")) ]) ].

(** [themes] of generate-portfolio.js, lines 97-102. *)
Definition generatePortfolio : list (jsstring * value) :=
  [ (js "Software Developer",
     VObj [ (js "name", VStr (js "Developer Dark"));
           (js "background", VStr (js "bg-gray-900 text-white"));
           (js "primaryColor", VStr (js "bg-blue-500"));
           (js "secondaryColor", VStr (js "text-blue-400"));
           (js "card", VStr (js "bg-gray-800"));
           (js "font", VStr (js "font-mono"));
           (js "buttonStyle", VStr (js "bg-blue-600 hover:bg-blue-700")) ]);
    (js "Graphic Designer",
     VObj [ (js "name", VStr (js "Designer Light"));
           (js "background", VStr (js "bg-white text-gray-800"));
           (js "primaryColor", VStr (js "bg-pink-500"));
           (js "secondaryColor", VStr (js "text-pink-500"));
           (js "card", VStr (js "bg-gray-50"));
           (js "font", VStr (js "font-sans"));
           (js "buttonStyle", VStr (js "bg-pink-600 hover:bg-pink-700")) ]);
    (js "Data Scientist",
     VObj [ (js "name", VStr (js "Data Green"));
           (js "background", VStr (js "bg-gray-800 text-gray-100"));
           (js "primaryColor", VStr (js "bg-green-500"));
           (js "secondaryColor", VStr (js "text-green-400"));
           (js "card", VStr (js "bg-gray-700"));
           (js "font", VStr (js "font-sans"));
           (js "buttonStyle", VStr (js "bg-green-600 hover:bg-green-700")) ]);
    (js "Default",
     VObj [ (js "name", VStr (js "Professional Blue"));
           (js "background", VStr (js "bg-gray-100 text-gray-900"));
           (js "primaryColor", VStr (js "bg-indigo-600"));
           (js "secondaryColor", VStr (js "text-indigo-500"));
           (js "card", VStr (js "bg-white"));
           (js "font", VStr (js "font-sans"));
           (js "buttonStyle", VStr (js "bg-indigo-700 hover:bg-indigo-800")) ]) ].

End ThemeTables.

(** ** The world the handlers run in *)

(** What the external model answers to one [generateContent] call: the text
    of the response, or a rejection (network failure, blocked response). *)
Inductive reply :=
| Text (t : jsstring)
| Fails (message : jsstring).

(** The object [portfolios] of server.js: its own properties, and its
    prototype when an assignment to [__proto__] has replaced
    [Object.prototype] by a record (whose own prototype is
    [Object.prototype]). *)
Record Store := {
  records : gmap jsstring value;
  prototype : option (list (jsstring * value))
}.

Module Store.

Definition empty : Store := {| records := ∅; prototype := None |}.

(** What the prototype chain answers for a name that is not an own
    property. *)
Definition fromPrototype (s : Store) (id : jsstring) : value :=
  match prototype s with
  | None => if Val.inherited id then VBuiltin id else VUndefined
  | Some props =>
      match Val.own props id with
      | Some v => v
      | None =>
          if Str.eqb id (js "__proto__") then VObj props
          else if Val.inherited id then VBuiltin id
          else VUndefined
      end
  end.

(** [portfolios[id]] *)
Definition get (s : Store) (id : jsstring) : value :=
  match records s !! id with
  | Some r => r
  | None => fromPrototype s id
  end.

(** Whether an assignment to [id] reaches the [__proto__] setter of
    [Object.prototype]: no own property and no data property of that name
    on the way. *)
Definition reachesSetter (s : Store) (id : jsstring) : bool :=
  Str.eqb id (js "__proto__")
  && match records s !! id with Some _ => false | None => true end
  && match prototype s with
     | Some props => match Val.own props id with Some _ => false | None => true end
     | None => true
     end.

(** [portfolios[id] = r] for an object literal [r]. *)
Definition set (s : Store) (id : jsstring) (r : value) : Store :=
  if reachesSetter s id then
    match r with
    | VObj props => {| records := records s; prototype := Some props |}
    | _ => s
    end
  else {| records := <[id := r]> (records s); prototype := prototype s |}.

End Store.

Record World := {
  modelCalls : nat;        (* generateContent calls made so far *)
  portfolios : Store;      (* server.js: the in-memory store *)
  rows : list value        (* Netlify functions: the rows inserted in the hosted table *)
}.

Definition M (A : Type) : Type := World -> result A * World.

Definition ret {A} (a : A) : M A := fun w => (Ok a, w).

Definition throw {A} (e : error) : M A := fun w => (Throw e, w).

Definition bind {A B} (c : M A) (k : A -> M B) : M B :=
  fun w =>
    match c w with
    | (Ok a, w') => k a w'
    | (Throw e, w') => (Throw e, w')
    end.

(** [try { c } catch (e) { h e }]: what [c] did to the world before it
    threw stays done. *)
Definition tryCatch {A} (c : M A) (h : error -> M A) : M A :=
  fun w =>
    match c w with
    | (Ok a, w') => (Ok a, w')
    | (Throw e, w') => h e w'
    end.

Definition lift {A} (r : result A) : M A := fun w => (r, w).

Notation "'let*' x ':=' c 'in' k" := (bind c (fun x => k))
  (at level 10, x name, c at level 100, k at level 200).
Notation "'do' c 'in' k" := (bind c (fun _ => k))
  (at level 10, c at level 100, k at level 200).

(** [await model.generateContent(...)] followed by [response.text()]: the
    next answer of the external model, counted.  The prompt is not an
    argument: the answer is an input of its own, which the program cannot
    derive from what it sends. *)
Definition callModel (generateContent : nat -> reply) : M jsstring :=
  fun w =>
    let w' := {| modelCalls := S (modelCalls w);
                 portfolios := portfolios w; rows := rows w |} in
    match generateContent (modelCalls w) with
    | Text t => (Ok t, w')
    | Fails m => (Throw (Rejected m), w')
    end.

Definition getPortfolios : M Store := fun w => (Ok (portfolios w), w).

Definition putPortfolios (s : Store) : M unit :=
  fun w => (Ok tt, {| modelCalls := modelCalls w; portfolios := s; rows := rows w |}).

(** An HTTP response. *)
Inductive body :=
| JsonOf (v : value)            (* res.json(v), JSON.stringify(v) *)
| HtmlOf (s : jsstring)         (* res.send(html) *)
| Uncaught (e : error).         (* Express's answer to an error a handler let escape *)

Record Response := { status : nat; payload : body }.

Definition errorJson (msg : jsstring) : body := JsonOf (VObj [(js "error", VStr msg)]).

(** ** server.js *)

Module Server.

(** The bindings of the module (lines 2-28, 45, 84-141, 336). *)
Definition moduleScope : list jsstring :=
  [ js "express"; js "cors"; js "multer"; js "pdfParse";
    js "GoogleGenerativeAI"; js "path"; js "uuidv4"; js "os"; js "app";
    js "port"; js "genAI"; js "upload"; js "getLocalIpAddress";
    js "localIp"; js "portfolios"; js "themes"; js "convertUsernameToUrl";
    js "parseResumeWithAI"; js "classifyProfessionAndSelectTheme";
    js "createErrorPage" ] ++ commonJsScope.

(** [convertUsernameToUrl(platform, username)], lines 84-99.  A truthy
    [username] that is not a string has no [startsWith] to call. *)
Definition convertUsernameToUrl (platform : jsstring) (username : value)
  : result jsstring :=
  if negb (Val.truthy username) then Ok []
  else
    match username with
    | VStr u =>
        if Str.startsWith u (js "http://") || Str.startsWith u (js "https://")
        then Ok u
        else if Str.eqb platform (js "linkedin")
        then Ok (js "https://linkedin.com/in/" ++ u)
        else if Str.eqb platform (js "github")
        then Ok (js "https://github.com/" ++ u)
        else Ok u
    | _ => Throw TypeError
    end.

(** Lines 124-134: the fences are deleted, the text trimmed and, when it
    does not start with a brace, replaced by the brace span if there is
    one; then JSON.parse. *)
Definition cleanJsonText (text : jsstring) : jsstring :=
  let jsonText :=
    Str.trim (Str.removeAll [js "```"] (Str.removeAll [js "```json"] text)) in
  if negb (Str.startsWith jsonText (js "{")) then
    match Str.matchBraces jsonText with
    | Some jsonMatch => jsonMatch
    | None => jsonText
    end
  else jsonText.

Definition parseModelText (text : jsstring) : result value :=
  Json.parse (cleanJsonText text).

(** [if (x.personalInfo.k) x.personalInfo.k = convertUsernameToUrl(k, x.personalInfo.k)]
    (lines 183-188, 236-241, 261-266); the object is returned as the
    assignment leaves it. *)
Definition normalizeField (k : jsstring) (x : value) : result value :=
  match Val.get x (js "personalInfo") with
  | Throw e => Throw e
  | Ok info =>
      match Val.get info k with
      | Throw e => Throw e
      | Ok v =>
          if Val.truthy v then
            match convertUsernameToUrl k v with
            | Throw e => Throw e
            | Ok url =>
                match Val.set info k (VStr url) with
                | Throw e => Throw e
                | Ok info' => Val.set x (js "personalInfo") info'
                end
            end
          else Ok x
      end
  end.

Definition normalizeSocial (x : value) : result value :=
  match normalizeField (js "linkedin") x with
  | Throw e => Throw e
  | Ok x' => normalizeField (js "github") x'
  end.

(** Lines 190 and 268: the placeholder picture, keyed by the first code
    unit of the name. *)
Definition placeholderPhoto (x : value) : result jsstring :=
  match Val.get x (js "personalInfo") with
  | Throw e => Throw e
  | Ok info =>
      match Val.get info (js "name") with
      | Throw e => Throw e
      | Ok nm =>
          if Val.truthy nm then
            match nm with
            | VStr s => Ok (js "https://placehold.co/150x150/222/fff?text=" ++ Str.charAt0 s)
            | _ => Throw TypeError
            end
          else Ok (js "https://placehold.co/150x150/222/fff?text=P")
      end
  end.

(** An uploaded file as multer keeps it in memory. *)
Record Upload := { mimetype : jsstring; buffer : jsstring }.

(** [error.message && error.message.includes('bad XRef entry')], line 217.
    The messages the engine gives its own errors are fixed texts about the
    program, none of which contains the phrase. *)
Definition mentionsBadXRef (e : error) : bool :=
  match e with
  | Error m | Rejected m => Str.includes m (js "bad XRef entry")
  | _ => false
  end.

Section Handlers.

(** The external model, pdf-parse, and [Buffer.toString('base64')]. *)
Variable generateContent : nat -> reply.
Variable pdfParse : jsstring -> result jsstring.
Variable base64 : jsstring -> jsstring.

(** [parseResumeWithAI], lines 100-140.  [response] is declared inside the
    [try] block, so the [catch] block cannot name it. *)
Definition parseResumeWithAI (resumeText : jsstring) : M value :=
  tryCatch
    (let* text := callModel generateContent in
     lift (parseModelText text))
    (fun e =>
       do lift (resolve ([js "e"; js "resumeText"; js "model"; js "prompt"] ++ moduleScope)
                        (js "response")) in
       throw (Error (js "AI model returned an invalid JSON format."))).

(** [classifyProfessionAndSelectTheme], lines 141-164.  Lines 143-144 run
    before the [try]: they read two properties of [parsedData] and
    interpolate the summary and the joined skills. *)
Definition classifyProfessionAndSelectTheme (parsedData : value) : M value :=
  let* skills := lift (Val.get parsedData (js "skills")) in
  let skillsArray := if Val.isArray skills then skills else VArr [] [] in
  let* summary := lift (Val.get parsedData (js "summary")) in
  do lift (Conv.interpolate (if Val.truthy summary then summary else VStr [])) in
  do lift (Conv.interpolate skillsArray) in
  tryCatch
    (let* text := callModel generateContent in
     let profession := Str.trim text in
     ret (Themes.select Themes.themes (VStr profession)))
    (fun error =>
       do lift (resolve ([js "error"; js "parsedData"; js "model"; js "skillsArray";
                          js "professionalSummary"; js "prompt"] ++ moduleScope)
                        (js "themes")) in
       ret (Val.lookup Themes.themes (js "Default"))).

Definition storePortfolio (id : jsstring) (r : value) : M unit :=
  let* s := getPortfolios in
  putPortfolios (Store.set s id r).

Definition photoUrlOf (placeholder : jsstring) (photo : option Upload) : jsstring :=
  match photo with
  | Some f => js "data:" ++ mimetype f ++ js ";base64," ++ base64 (buffer f)
  | None => placeholder
  end.

(** POST /api/generate-from-resume, lines 166-225.  [portfolioId] is what
    [uuidv4()] returns and [now] what [new Date()] reads. *)
Definition generateFromResume (resume photo : option Upload)
    (portfolioId : jsstring) (now : N) : M Response :=
  match resume with
  | None => ret {| status := 400; payload := errorJson (js "Resume file (PDF) is required.") |}
  | Some file =>
      tryCatch
        (let* resumeText := lift (pdfParse (buffer file)) in
         match Str.trim resumeText with
         | [] =>
             ret {| status := 400;
                    payload := errorJson (js "Could not extract text from the PDF. The file may be corrupted or scanned as an image.") |}
         | _ :: _ =>
             let* parsedData := parseResumeWithAI resumeText in
             let* selectedTheme := classifyProfessionAndSelectTheme parsedData in
             let* parsedData := lift (normalizeSocial parsedData) in
             let* placeholder := lift (placeholderPhoto parsedData) in
             let photoUrl := photoUrlOf placeholder photo in
             do storePortfolio portfolioId
                  (VObj [ (js "data", parsedData); (js "theme", selectedTheme);
                          (js "profilePictureUrl", VStr photoUrl);
                          (js "createdAt", VDate now) ]) in
             ret {| status := 200;
                    payload := JsonOf (VObj [ (js "portfolioId", VStr portfolioId);
                                            (js "portfolioData", parsedData);
                                            (js "theme", selectedTheme);
                                            (js "profilePictureUrl", VStr photoUrl) ]) |}
         end)
        (fun error =>
           if mentionsBadXRef error then
             ret {| status := 400;
                    payload := errorJson (js "The PDF file appears to be corrupted or invalid. Please try uploading a different PDF file.") |}
           else
             ret {| status := 500;
                    payload := errorJson (js "An unexpected error occurred while generating the portfolio. Please try again.") |})
  end.

(** POST /api/update-portfolio/:id, lines 227-254.  The handler has no
    [try]: an error escapes to Express. *)
Definition updatePortfolio (id : jsstring) (reqBody : value) (now : N) : M Response :=
  tryCatch
    (let* portfolioData := lift (Val.get reqBody (js "portfolioData")) in
     let* theme := lift (Val.get reqBody (js "theme")) in
     let* profilePictureUrl := lift (Val.get reqBody (js "profilePictureUrl")) in
     let* s := getPortfolios in
     if negb (Val.truthy (Store.get s id)) then
       ret {| status := 404; payload := errorJson (js "Portfolio not found") |}
     else
       let* portfolioData := lift (normalizeSocial portfolioData) in
       do storePortfolio id
            (VObj (Conv.extend (Conv.spread (Store.get s id))
                     [ (js "data", portfolioData); (js "theme", theme);
                       (js "profilePictureUrl", profilePictureUrl);
                       (js "updatedAt", VDate now) ])) in
       ret {| status := 200;
              payload := JsonOf (VObj [ (js "success", VBool true);
                                      (js "portfolioId", VStr id) ]) |})
    (fun e => ret {| status := 500; payload := Uncaught e |}).

(** POST /api/create-manual-portfolio, lines 256-296. *)
Definition createManualPortfolio (reqBody : value) (photo : option Upload)
    (portfolioId : jsstring) (now : N) : M Response :=
  tryCatch
    (let* portfolioData := lift (Val.get reqBody (js "portfolioData")) in
     let* theme := lift (Val.get reqBody (js "theme")) in
     let* portfolioData := lift (normalizeSocial portfolioData) in
     let* placeholder := lift (placeholderPhoto portfolioData) in
     let photoUrl := photoUrlOf placeholder photo in
     do storePortfolio portfolioId
          (VObj [ (js "data", portfolioData); (js "theme", theme);
                  (js "profilePictureUrl", VStr photoUrl);
                  (js "createdAt", VDate now) ]) in
     ret {| status := 200;
            payload := JsonOf (VObj [ (js "portfolioId", VStr portfolioId);
                                    (js "portfolioData", portfolioData);
                                    (js "theme", theme);
                                    (js "profilePictureUrl", VStr photoUrl) ]) |})
    (fun error =>
       ret {| status := 500;
              payload := errorJson (js "An unexpected error occurred while creating the portfolio. Please try again.") |}).

End Handlers.

End Server.

(** ** The hosted table

    [supabase.from('portfolios').insert([row])]: the table answers with an
    error message, or stores the row and answers with the row as it now
    stands in the table. *)

Definition insertRow (table : value -> jsstring + value) (row : value)
  : M (jsstring + value) :=
  fun w =>
    match table row with
    | inl msg => (Ok (inl msg), w)
    | inr stored =>
        (Ok (inr stored),
         {| modelCalls := modelCalls w; portfolios := portfolios w;
            rows := rows w ++ [row] |})
    end.

(** ** The Netlify generate function (src/unnamed/part_000) *)

Module Netlify.

(** The bindings of the module (lines 1-13, 134, 171). *)
Definition moduleScope : list jsstring :=
  [ js "createClient"; js "GoogleGenerativeAI"; js "uuidv4"; js "pdfParse";
    js "supabase"; js "genAI"; js "parseResumeWithAI";
    js "classifyProfessionAndSelectTheme" ] ++ commonJsScope.

Record Event := {
  method : value;          (* event.method *)
  eventBody : jsstring     (* event.body *)
}.

Section Handler.

Variable generateContent : nat -> reply.
Variable table : value -> jsstring + value.

(** [parseResumeWithAI], lines 134-169.  The prompt is concatenated with
    [resumeText] inside the [try]. *)
Definition parseResumeWithAI (resumeText : value) : M value :=
  tryCatch
    (do lift (Conv.interpolate resumeText) in
     let* text := callModel generateContent in
     lift (Server.parseModelText text))
    (fun e => throw (Error (js "AI model returned an invalid JSON format."))).

(** [classifyProfessionAndSelectTheme], lines 171-234.  [themes] is a
    [const] of the [try] block (line 190); the [catch] block (line 232)
    names it outside its scope. *)
Definition classifyProfessionAndSelectTheme (parsedData : value) : M value :=
  let* skills := lift (Val.get parsedData (js "skills")) in
  let skillsArray := if Val.isArray skills then skills else VArr [] [] in
  let* summary := lift (Val.get parsedData (js "summary")) in
  do lift (Conv.interpolate (if Val.truthy summary then summary else VStr [])) in
  do lift (Conv.interpolate skillsArray) in
  tryCatch
    (let* text := callModel generateContent in
     let profession := Str.trim text in
     ret (Themes.select Themes.themes (VStr profession)))
    (fun error =>
       do lift (resolve ([js "error"; js "parsedData"; js "model"; js "skillsArray";
                          js "professionalSummary"; js "prompt"] ++ moduleScope)
                        (js "themes")) in
       ret (Val.lookup Themes.themes (js "Default"))).

Definition isString (v : value) (s : jsstring) : bool :=
  match v with
  | VStr t => Str.eqb t s
  | _ => false
  end.

Definition orEmpty (v : value) : value :=
  if Val.truthy v then v else VStr [].

(** Lines 53-77 and 92-116: the row is built, inserted, and the outcome
    answered. *)
Definition save (portfolioId : jsstring) (portfolioData pictureUrl theme : value)
  : M Response :=
  let* themeName := lift (Val.get theme (js "name")) in
  let* outcome :=
    insertRow table
      (VObj [ (js "share_id", VStr portfolioId);
              (js "portfolio_data", portfolioData);
              (js "profile_picture_url", pictureUrl);
              (js "selected_theme", themeName) ]) in
  match outcome with
  | inl _ => ret {| status := 500; payload := errorJson (js "Failed to save portfolio") |}
  | inr _ =>
      ret {| status := 200;
             payload := JsonOf (VObj [ (js "portfolioId", VStr portfolioId);
                                     (js "portfolioData", portfolioData);
                                     (js "theme", theme);
                                     (js "profilePictureUrl", pictureUrl) ]) |}
  end.

(** [exports.handler], lines 15-131; [portfolioId] is what [uuidv4()]
    returns. *)
Definition handler (event : Event) (portfolioId : jsstring) : M Response :=
  tryCatch
    (if isString (method event) (js "GET") then
       ret {| status := 200;
              payload := JsonOf (VObj [ (js "status", VStr (js "OK"));
                                      (js "message", VStr (js "PortfolioForge API is running")) ]) |}
     else if negb (isString (method event) (js "POST")) then
       ret {| status := 405; payload := errorJson (js "Method not allowed") |}
     else
       let* body := lift (Json.parse (eventBody event)) in
       let* type := lift (Val.get body (js "type")) in
       let* portfolioData := lift (Val.get body (js "portfolioData")) in
       let* theme := lift (Val.get body (js "theme")) in
       let* profilePictureUrl := lift (Val.get body (js "profilePictureUrl")) in
       if isString type (js "manual") then
         save portfolioId portfolioData profilePictureUrl theme
       else if isString type (js "ai") then
         let* resumeText := lift (Val.get body (js "resumeText")) in
         let* parsedData := parseResumeWithAI (orEmpty resumeText) in
         let* selectedTheme := classifyProfessionAndSelectTheme parsedData in
         save portfolioId parsedData (orEmpty profilePictureUrl) selectedTheme
       else
         ret {| status := 400; payload := errorJson (js "Invalid request type") |})
    (fun error =>
       ret {| status := 500; payload := errorJson (js "Internal server error") |}).

End Handler.

End Netlify.

(** ** generate-portfolio.js *)

Module GeneratePortfolio.

Record Event := {
  httpMethod : value;               (* event.httpMethod *)
  contentType : option jsstring;    (* event.headers['content-type'] *)
  isBase64Encoded : bool;
  eventBody : jsstring              (* event.body *)
}.

Section Handler.

(** The external model, the table, pdf-parse applied to the bytes of the
    request body, and the message the engine attaches to an error it
    raises itself. *)
Variable generateContent : nat -> reply.
Variable table : value -> jsstring + value.
Variable pdfParse : bool -> jsstring -> result jsstring.
Variable engineMessage : error -> jsstring.

(** [error.message] *)
Definition messageOf (e : error) : jsstring :=
  match e with
  | Error m | Rejected m => m
  | _ => engineMessage e
  end.

(** Line 81: [text.replace(/```json\n|```/g, '').trim()]. *)
Definition cleanedJsonString (text : jsstring) : jsstring :=
  Str.trim (Str.removeAll [js "```json" ++ [10]; js "```"] text).

(** [generateFromResume], lines 75-90. *)
Definition generateFromResume (resumeText : value) : M value :=
  do lift (Conv.interpolate resumeText) in
  let* text := callModel generateContent in
  let* data := lift (Json.parse (cleanedJsonString text)) in
  let* label := callModel generateContent in
  lift (Val.set data (js "profession") (VStr (Str.trim label))).

(** [generateFromManual], lines 92-95. *)
Definition generateFromManual (manualData : value) : M value :=
  lift (Val.set manualData (js "profession") (VStr (js "Default"))).

Definition isString (v : value) (s : jsstring) : bool :=
  match v with
  | VStr t => Str.eqb t s
  | _ => false
  end.

(** Line 55: the row that is inserted. *)
Definition row (portfolioData theme : value) : value :=
  VObj [(js "portfolio_data", portfolioData); (js "selected_theme", theme)].

(** Lines 37-47: the request body. *)
Definition readBody (event : Event) : M value :=
  match contentType event with
  | Some ct =>
      if Str.includes ct (js "multipart/form-data") then
        let* text := lift (pdfParse (isBase64Encoded event) (eventBody event)) in
        ret (VObj [(js "resumeText", VStr text)])
      else lift (Json.parse (eventBody event))
  | None => lift (Json.parse (eventBody event))
  end.

(** [exports.handler], lines 15-73. *)
Definition handler (event : Event) : M Response :=
  tryCatch
    (if isString (httpMethod event) (js "GET") then
       ret {| status := 200; payload := JsonOf (VObj [(js "status", VStr (js "OK"))]) |}
     else if negb (isString (httpMethod event) (js "POST")) then
       ret {| status := 405; payload := errorJson (js "Method not allowed") |}
     else
       let* body := readBody event in
       let* resumeText := lift (Val.get body (js "resumeText")) in
       let* manualData := lift (Val.get body (js "manualData")) in
       let* portfolioData :=
         if Val.truthy resumeText then generateFromResume resumeText
         else generateFromManual manualData in
       let* profession := lift (Val.get portfolioData (js "profession")) in
       let theme := Themes.select Themes.themes' profession in
       let* outcome := insertRow table (row portfolioData theme) in
       match outcome with
       | inl msg => throw (Error (js "Supabase error: " ++ msg))
       | inr data =>
           ret {| status := 200;
                  payload := JsonOf (VObj [(js "portfolio", data); (js "theme", theme)]) |}
       end)
    (fun error =>
       ret {| status := 500;
              payload := errorJson (js "An internal server error occurred: " ++ messageOf error) |}).

End Handler.

End GeneratePortfolio.

(** ** The records as the renderers read them

    The two page templates interpolate fields of a stored record.  Here a
    record is typed as the data model types it: a field is a string or a
    sequence, or absent ([None], JavaScript's [undefined]). *)

Module Personal.
Record t := {
  name : option jsstring;
  email : option jsstring;
  phone : option jsstring;
  website : option jsstring;
  linkedin : option jsstring;
  github : option jsstring
}.
(** [{}] *)
Definition empty : t :=
  {| name := None; email := None; phone := None; website := None;
     linkedin := None; github := None |}.
End Personal.

Module Experience.
Record t := {
  company : option jsstring;
  role : option jsstring;
  dates : option jsstring;
  description : option (list jsstring)
}.
End Experience.

Module Project.
Record t := {
  title : option jsstring;
  description : option jsstring;
  link : option jsstring
}.
End Project.

Record Profile := {
  personalInfo : option Personal.t;
  summary : option jsstring;
  skills : option (list jsstring);
  experience : option (list Experience.t);
  projects : option (list Project.t)
}.

(** Truthiness of an optional string: present and not empty. *)
Definition present (o : option jsstring) : bool :=
  match o with
  | Some (_ :: _) => true
  | _ => false
  end.

(** [`${x}`] for an optional string. *)
Definition text (o : option jsstring) : jsstring :=
  match o with
  | Some s => s
  | None => js "undefined"
  end.

(** [`${x || d}`] for an optional string [x]. *)
Definition orElse (o : option jsstring) (d : jsstring) : jsstring :=
  if present o then text o else d.

(** [s || d] for a string [s]. *)
Definition orDefault (s d : jsstring) : jsstring :=
  match s with
  | [] => d
  | _ :: _ => s
  end.

(** [x || []] *)
Definition items {A} (o : option (list A)) : list A :=
  match o with
  | Some l => l
  | None => []
  end.

(** ** encodeURIComponent

    The built-in: a code unit of the unreserved set is kept, any other code
    point is written as the percent-escaped bytes of its UTF-8 encoding,
    and a surrogate without its pair raises a URIError. *)

Module Uri.

Definition isUnescaped (c : N) : bool :=
  ((48 <=? c) && (c <=? 57)) || ((65 <=? c) && (c <=? 90))
  || ((97 <=? c) && (c <=? 122))
  || existsb (N.eqb c) [45; 95; 46; 33; 126; 42; 39; 40; 41].

Definition hexDigit (n : N) : N := if n <? 10 then 48 + n else 55 + n.

Definition percent (b : N) : jsstring := [37; hexDigit (b / 16); hexDigit (b mod 16)].

Definition utf8 (cp : N) : list N :=
  if cp <? 128 then [cp]
  else if cp <? 2048 then [192 + cp / 64; 128 + cp mod 64]
  else if cp <? 65536 then
    [224 + cp / 4096; 128 + (cp / 64) mod 64; 128 + cp mod 64]
  else
    [240 + cp / 262144; 128 + (cp / 4096) mod 64; 128 + (cp / 64) mod 64;
     128 + cp mod 64].

Definition escape (cp : N) : jsstring := concat (map percent (utf8 cp)).

Definition isLead (c : N) : bool := (55296 <=? c) && (c <=? 56319).
Definition isTrail (c : N) : bool := (56320 <=? c) && (c <=? 57343).

Definition prepend (p : jsstring) (r : result jsstring) : result jsstring :=
  match r with
  | Ok s => Ok (p ++ s)
  | Throw e => Throw e
  end.

Fixpoint encodeURIComponent (s : jsstring) : result jsstring :=
  match s with
  | [] => Ok []
  | c :: rest =>
      if isUnescaped c then prepend [c] (encodeURIComponent rest)
      else if isTrail c then Throw URIError
      else if isLead c then
        match rest with
        | d :: rest' =>
            if isTrail d
            then prepend (escape ((c - 55296) * 1024 + (d - 56320) + 65536))
                         (encodeURIComponent rest')
            else Throw URIError
        | [] => Throw URIError
        end
      else prepend (escape c) (encodeURIComponent rest)
  end.

End Uri.

(** ** server.js: GET /portfolio/:id *)

Module Page.

Record Portfolio := {
  data : Profile;
  theme : Theme;
  profilePictureUrl : option jsstring
}.

(** [createErrorPage(title, message)], lines 336-359. *)
Definition createErrorPage (title message : jsstring) : jsstring :=
  concat
  [ js "
        <!DOCTYPE html>
        <html lang=";
    dq; js "en"; dq;
    js ">
        <head>
            <meta charset=";
    dq; js "UTF-8"; dq;
    js ">
            <meta name=";
    dq; js "viewport"; dq; js " content="; dq;
    js "width=device-width, initial-scale=1.0"; dq;
    js ">
            <title>";
    (title);
    js "</title>
            <script src=";
    dq; js "https://cdn.tailwindcss.com"; dq;
    js "></script>
            <link rel=";
    dq; js "stylesheet"; dq; js " href="; dq;
    js "https://cdnjs.cloudflare.com/ajax/libs/font-awesome/6.4.0/css/all.min.css";
    dq;
    js ">
        </head>
        <body class=";
    dq; js "bg-gray-100 flex items-center justify-center min-h-screen"; dq;
    js ">
            <div class=";
    dq; js "text-center p-8 bg-white rounded-lg shadow-lg max-w-md"; dq;
    js ">
                <i class=";
    dq; js "fas fa-exclamation-triangle text-yellow-500 text-5xl mb-4"; dq;
    js "></i>
                <h1 class=";
    dq; js "text-2xl font-bold text-gray-800 mb-2"; dq; js ">"; (title);
    js "</h1>
                <p class=";
    dq; js "text-gray-600 mb-6"; dq; js ">"; (message);
    js "</p>
                <a href=";
    dq; js "/"; dq; js " class="; dq;
    js "inline-block bg-blue-600 text-white px-6 py-2 rounded-lg hover:bg-blue-700 transition-colors";
    dq;
    js ">
                    <i class=";
    dq; js "fas fa-home mr-2"; dq;
    js "></i>Go to Homepage
                </a>
            </div>
        </body>
        </html>
    " ].

(** The template literal of lines 412-532. *)
Definition portfolioHtml (portfolioUrl imageUrl : jsstring)
    (portfolio : Portfolio) (personalInfo : Personal.t) : jsstring :=
  concat
  [ js "
            <!DOCTYPE html>
            <html lang=";
    dq; js "en"; dq;
    js ">
            <head>
                <meta charset=";
    dq; js "UTF-8"; dq;
    js " />
                <meta name=";
    dq; js "viewport"; dq; js " content="; dq;
    js "width=device-width, initial-scale=1.0"; dq;
    js " />
                <title>";
    (orElse (Personal.name personalInfo) (js "Portfolio"));
    js "</title>
                
                <!-- Open Graph / Facebook -->
                <meta property=";
    dq; js "og:type"; dq; js " content="; dq; js "website"; dq;
    js " />
                <meta property=";
    dq; js "og:url"; dq; js " content="; dq; (portfolioUrl); dq;
    js " />
                <meta property=";
    dq; js "og:title"; dq; js " content="; dq;
    (orElse (Personal.name personalInfo) (js "Portfolio")); dq;
    js " />
                <meta property=";
    dq; js "og:description"; dq; js " content="; dq;
    (orElse (summary (data portfolio)) (js "Professional portfolio")); dq;
    js " />
                <meta property=";
    dq; js "og:image"; dq; js " content="; dq; (imageUrl); dq;
    js " />
                
                <!-- Twitter -->
                <meta property=";
    dq; js "twitter:card"; dq; js " content="; dq; js "summary_large_image"; dq;
    js " />
                <meta property=";
    dq; js "twitter:url"; dq; js " content="; dq; (portfolioUrl); dq;
    js " />
                <meta property=";
    dq; js "twitter:title"; dq; js " content="; dq;
    (orElse (Personal.name personalInfo) (js "Portfolio")); dq;
    js " />
                <meta property=";
    dq; js "twitter:description"; dq; js " content="; dq;
    (orElse (summary (data portfolio)) (js "Professional portfolio")); dq;
    js " />
                <meta property=";
    dq; js "twitter:image"; dq; js " content="; dq; (imageUrl); dq;
    js " />
                
                <script src=";
    dq; js "https://cdn.tailwindcss.com"; dq;
    js "></script>
                <link href=";
    dq;
    js "https://fonts.googleapis.com/css2?family=Inter:wght@400;500;700&family=Roboto+Mono:wght@400;500&display=swap";
    dq; js " rel="; dq; js "stylesheet"; dq;
    js ">
                <link rel=";
    dq; js "stylesheet"; dq; js " href="; dq;
    js "https://cdnjs.cloudflare.com/ajax/libs/font-awesome/6.4.0/css/all.min.css";
    dq;
    js ">
                <style>
                    body { font-family: 'Inter', sans-serif; }
                    .font-mono { font-family: 'Roboto Mono', monospace; }
                    .social-link {
                        display: inline-flex;
                        align-items: center;
                        justify-content: center;
                        width: 48px;
                        height: 48px;
                        border-radius: 50%;
                        transition: all 0.3s ease;
                    }
                    .social-link:hover {
                        transform: translateY(-3px);
                    }
                </style>
            </head>
            <body class=";
    dq; (background (theme portfolio)); js " "; (font (theme portfolio));
    js " min-h-screen"; dq;
    js ">
                <div class=";
    dq; js "container mx-auto p-4 md:p-8 max-w-5xl"; dq;
    js ">
                    <header class=";
    dq;
    js "flex flex-col md:flex-row items-center text-center md:text-left gap-8 mb-12";
    dq;
    js ">
                        <img src=";
    dq; (text (profilePictureUrl portfolio)); dq; js " alt="; dq;
    js "Profile Picture"; dq; js " class="; dq;
    js "w-36 h-36 rounded-full border-4 border-opacity-50 ";
    (Str.replaceFirst (js "text-") (js "border-") (secondaryColor (theme portfolio)));
    js " object-cover shadow-lg"; dq;
    js ">
                        <div>
                            <h1 class=";
    dq; js "text-4xl md:text-5xl font-bold"; dq; js ">";
    (orElse (Personal.name personalInfo) (js "Your Name"));
    js "</h1>
                            <p class=";
    dq; js "text-xl "; (secondaryColor (theme portfolio)); js " mt-1"; dq;
    js ">
                                ";
    (if present (Personal.email personalInfo)
    then concat
         [ js "<a href="; dq; js "mailto:"; (text (Personal.email personalInfo)); dq;
           js " class="; dq; js "hover:underline"; dq; js ">";
           (text (Personal.email personalInfo)); js "</a>" ]
    else (js "your.email@example.com"));
    js "
                            </p>
                            ";
    (if present (Personal.phone personalInfo)
    then concat
         [ js "<p class="; dq; js "text-gray-400 mb-4"; dq; js "><i class="; dq;
           js "fas fa-phone mr-2"; dq; js "></i>"; (text (Personal.phone personalInfo));
           js "</p>" ]
    else []);
    js "
                            <div class=";
    dq; js "flex justify-center md:justify-start gap-4 mt-4"; dq;
    js ">
                                ";
    (if present (Personal.email personalInfo)
    then concat
         [ js "
                                    <a href=";
           dq; js "mailto:"; (text (Personal.email personalInfo)); dq; js " class="; dq;
           js "social-link "; (secondaryColor (theme portfolio));
           js " hover:text-white transition-colors"; dq; js " title="; dq; js "Email";
           dq;
           js ">
                                        <i class=";
           dq; js "fas fa-envelope text-xl"; dq;
           js "></i>
                                    </a>" ]
    else []);
    js "
                                ";
    (if present (Personal.linkedin personalInfo)
    then concat
         [ js "
                                    <a href=";
           dq; (text (Personal.linkedin personalInfo)); dq; js " target="; dq;
           js "_blank"; dq; js " class="; dq; js "social-link ";
           (secondaryColor (theme portfolio)); js " hover:text-white transition-colors";
           dq; js " title="; dq; js "LinkedIn"; dq;
           js ">
                                        <i class=";
           dq; js "fab fa-linkedin text-xl"; dq;
           js "></i>
                                    </a>" ]
    else []);
    js "
                                ";
    (if present (Personal.github personalInfo)
    then concat
         [ js "
                                    <a href=";
           dq; (text (Personal.github personalInfo)); dq; js " target="; dq;
           js "_blank"; dq; js " class="; dq; js "social-link ";
           (secondaryColor (theme portfolio)); js " hover:text-white transition-colors";
           dq; js " title="; dq; js "GitHub"; dq;
           js ">
                                        <i class=";
           dq; js "fab fa-github text-xl"; dq;
           js "></i>
                                    </a>" ]
    else []);
    js "
                                ";
    (if present (Personal.website personalInfo)
    then concat
         [ js "
                                    <a href=";
           dq; (text (Personal.website personalInfo)); dq; js " target="; dq;
           js "_blank"; dq; js " class="; dq; js "social-link ";
           (secondaryColor (theme portfolio)); js " hover:text-white transition-colors";
           dq; js " title="; dq; js "Website"; dq;
           js ">
                                        <i class=";
           dq; js "fas fa-globe text-xl"; dq;
           js "></i>
                                    </a>" ]
    else []);
    js "
                            </div>
                        </div>
                    </header>
                    <div class=";
    dq; js "grid md:grid-cols-3 gap-8"; dq;
    js ">
                        <div class=";
    dq; js "md:col-span-2 space-y-8"; dq;
    js ">
                            <section>
                                <h2 class=";
    dq; js "text-2xl font-bold border-b-2 ";
    (Str.replaceFirst (js "text-") (js "border-") (secondaryColor (theme portfolio)));
    js " pb-2 mb-4"; dq;
    js ">Professional Summary</h2>
                                <p class=";
    dq; js "text-gray-300"; dq; js ">";
    (orElse (summary (data portfolio)) (js "No summary provided."));
    js "</p>
                            </section>
                            <section>
                                 <h2 class=";
    dq; js "text-2xl font-bold border-b-2 ";
    (Str.replaceFirst (js "text-") (js "border-") (secondaryColor (theme portfolio)));
    js " pb-2 mb-4"; dq;
    js ">Work Experience</h2>
                                 ";
    (orDefault
      (concat (map (fun job =>
        concat
          [ js "
                                    <div class=";
            dq; js "mb-4"; dq;
            js ">
                                        <h4 class=";
            dq; js "text-lg font-bold"; dq; js ">";
            (orElse (Experience.role job) (js "Role")); js " at ";
            (orElse (Experience.company job) (js "Company"));
            js "</h4>
                                        <p class=";
            dq; js "text-sm "; (secondaryColor (theme portfolio)); js " mb-1"; dq;
            js ">"; (orElse (Experience.dates job) []);
            js "</p>
                                        <ul class=";
            dq; js "list-disc list-inside text-gray-300"; dq;
            js ">
                                            ";
            (concat (map (fun d =>
                concat
                  [ js "<li>"; (d); js "</li>" ])
              (items (Experience.description job))));
            js "
                                        </ul>
                                    </div>
                                 " ])
      (items (experience (data portfolio)))))
      (js "<p class=" ++ dq ++ js "text-gray-400" ++ dq ++ js ">No work experience listed.</p>"));
    js "
                            </section>
                        </div>
                        <div class=";
    dq; js "md:col-span-1 space-y-8"; dq;
    js ">
                            <section>
                                 <h2 class=";
    dq; js "text-2xl font-bold border-b-2 ";
    (Str.replaceFirst (js "text-") (js "border-") (secondaryColor (theme portfolio)));
    js " pb-2 mb-4"; dq;
    js ">Skills</h2>
                                 <div class=";
    dq; js "flex flex-wrap"; dq;
    js ">
                                    ";
    (orDefault
      (concat (map (fun skill =>
        concat
          [ js "<span class="; dq; (primaryColor (theme portfolio));
            js " text-white text-sm font-medium mr-2 mb-2 px-3 py-1 rounded-full"; dq;
            js ">"; (skill); js "</span>" ])
      (items (skills (data portfolio)))))
      (js "<p class=" ++ dq ++ js "text-gray-400" ++ dq ++ js ">No skills listed.</p>"));
    js "
                                 </div>
                            </section>
                            <section>
                                <h2 class=";
    dq; js "text-2xl font-bold border-b-2 ";
    (Str.replaceFirst (js "text-") (js "border-") (secondaryColor (theme portfolio)));
    js " pb-2 mb-4"; dq;
    js ">Projects</h2>
                                ";
    (orDefault
      (concat (map (fun proj =>
        concat
          [ js "
                                    <div class=";
            dq; (card (theme portfolio)); js " p-4 rounded-lg mb-4"; dq;
            js ">
                                        <h4 class=";
            dq; js "font-bold "; (secondaryColor (theme portfolio)); dq; js ">";
            (orElse (Project.title proj) (js "Project Title"));
            js "</h4>
                                        <p class=";
            dq; js "text-gray-300 text-sm mt-1"; dq; js ">";
            (orElse (Project.description proj) []);
            js "</p>
                                        ";
            (if present (Project.link proj)
            then concat
                 [ js "<a href="; dq; (text (Project.link proj)); dq; js " target="; dq;
                   js "_blank"; dq; js " class="; dq;
                   js "text-blue-400 hover:underline text-sm mt-2 inline-block"; dq;
                   js ">View Project &rarr;</a>" ]
            else []);
            js "
                                    </div>
                                " ])
      (items (projects (data portfolio)))))
      (js "<p class=" ++ dq ++ js "text-gray-400" ++ dq ++ js ">No projects listed.</p>"));
    js "
                            </section>
                        </div>
                    </div>
                    
                    <!-- Add a footer with the portfolio URL -->
                    <footer class=";
    dq;
    js "mt-12 pt-6 border-t border-gray-700 text-center text-gray-500 text-sm";
    dq;
    js ">
                        <p>This portfolio is hosted at: ";
    (portfolioUrl);
    js "</p>
                    </footer>
                </div>
            </body>
            </html>
        " ].

Definition placeholderImage (personalInfo : Personal.t) : result jsstring :=
  Uri.prepend (js "https://via.placeholder.com/1200x627/4F46E5/FFFFFF?text=")
    (Uri.encodeURIComponent (orElse (Personal.name personalInfo) (js "Portfolio"))).

(** Lines 381-532, the body of the [try]: the page of a stored record.
    [protocol] is [req.protocol] and [host] is [req.get('host')]. *)
Definition renderPortfolio (protocol host id : jsstring) (portfolio : Portfolio)
  : result jsstring :=
  let personalInfo :=
    match personalInfo (data portfolio) with
    | Some info => info
    | None => Personal.empty
    end in
  let imageUrl :=
    if present (profilePictureUrl portfolio) then
      if Str.startsWith (text (profilePictureUrl portfolio)) (js "data:")
      then placeholderImage personalInfo
      else Ok (protocol ++ js "://" ++ host ++ js "/api/portfolio-image/" ++ id)
    else placeholderImage personalInfo in
  let portfolioUrl := protocol ++ js "://" ++ host ++ js "/portfolio/" ++ id in
  match imageUrl with
  | Throw e => Throw e
  | Ok imageUrl => Ok (portfolioHtml portfolioUrl imageUrl portfolio personalInfo)
  end.

Definition isHex (c : N) : bool :=
  ((48 <=? c) && (c <=? 57)) || ((97 <=? c) && (c <=? 102))
  || ((65 <=? c) && (c <=? 70)).

(** Exactly [n] hexadecimal digits, and what follows them. *)
Fixpoint hexRun (n : nat) (s : jsstring) : option jsstring :=
  match n with
  | O => Some s
  | S n' =>
      match s with
      | c :: s' => if isHex c then hexRun n' s' else None
      | [] => None
      end
  end.

(** [uuidRegex.test(id)], line 368: groups of 8, 4, 4, 4 and 12
    hexadecimal digits of either case, separated by hyphens. *)
Definition isUuid (id : jsstring) : bool :=
  match hexRun 8 id with
  | Some (45 :: s1) =>
      match hexRun 4 s1 with
      | Some (45 :: s2) =>
          match hexRun 4 s2 with
          | Some (45 :: s3) =>
              match hexRun 4 s3 with
              | Some (45 :: s4) =>
                  match hexRun 12 s4 with
                  | Some [] => true
                  | _ => false
                  end
              | _ => false
              end
          | _ => false
          end
      | _ => false
      end
  | _ => false
  end.

(** GET /portfolio/:id, lines 361-539; [stored] is [portfolios[id]]. *)
Definition getPortfolio (protocol host id : jsstring) (stored : option Portfolio)
  : Response :=
  if negb (isUuid id) then
    {| status := 400;
       payload := HtmlOf (createErrorPage (js "Invalid Portfolio ID")
                          (js "The portfolio ID you provided is not valid. Please check the URL and try again.")) |}
  else
    match stored with
    | None =>
        {| status := 404;
           payload := HtmlOf (createErrorPage (js "Portfolio Not Found")
                              (js "The portfolio you're looking for doesn't exist or may have been deleted.")) |}
    | Some portfolio =>
        match renderPortfolio protocol host id portfolio with
        | Ok portfolioHtml => {| status := 200; payload := HtmlOf portfolioHtml |}
        | Throw error =>
            {| status := 500;
               payload := HtmlOf (createErrorPage (js "Server Error")
                                  (js "We encountered an error while loading this portfolio. Please try again later.")) |}
        end
    end.

End Page.

(** ** server.js: the address the server announces *)

Module Network.

(** An entry of [os.networkInterfaces()]: [family] is ['IPv4'] or
    ['IPv6'] (a number in some releases of Node). *)
Record Address := {
  family : value;
  internal : bool;
  address : jsstring
}.

(** [interface.family === 'IPv4' && !interface.internal] *)
Definition isExternalIPv4 (a : Address) : bool :=
  match family a with
  | VStr f => Str.eqb f (js "IPv4")
  | _ => false
  end && negb (internal a).

(** The inner loop of lines 18-22. *)
Fixpoint firstExternal (addresses : list Address) : option jsstring :=
  match addresses with
  | [] => None
  | a :: rest => if isExternalIPv4 a then Some (address a) else firstExternal rest
  end.

(** [getLocalIpAddress()], lines 15-25; [interfaces] holds the entries of
    [os.networkInterfaces()] in the order of [Object.keys]. *)
Fixpoint getLocalIpAddress (interfaces : list (jsstring * list Address)) : jsstring :=
  match interfaces with
  | [] => js "127.0.0.1"
  | (_, addresses) :: rest =>
      match firstExternal addresses with
      | Some a => a
      | None => getLocalIpAddress rest
      end
  end.

End Network.

(** ** server.js: GET /api/portfolio-image/:id *)

Module Image.

Inductive answer :=
| NotFound                                             (* res.status(404).send('Portfolio not found') *)
| Picture (contentType : jsstring) (bytes : jsstring)  (* the headers, then res.send(imageBuffer) *)
| Redirect (location : jsstring)                       (* res.redirect(placeholderUrl) *)
| Escapes (e : error).                                 (* an error the handler lets escape to Express *)

(** The code units the dot of a regular expression does not match. *)
Definition isLineTerminator (c : N) : bool :=
  (c =? 10) || (c =? 13) || (c =? 8232) || (c =? 8233).

(** The ways to cut [r] into a non-empty [g1], the separator and a
    non-empty [g2], scanned from the left; [acc] is what was read so far,
    reversed, and [best] the last cut found.  The last cut has the longest
    [g1]: it is the one a greedy [(.+)] settles on. *)
Fixpoint lastSplit (sep acc r : jsstring) (best : option (jsstring * jsstring))
  : option (jsstring * jsstring) :=
  match r with
  | [] => best
  | c :: r' =>
      lastSplit sep (c :: acc) r'
        (match acc, drop (length sep) r with
         | _ :: _, (_ :: _) as g2 =>
             if Str.startsWith r sep then Some (rev acc, g2) else best
         | _, _ => best
         end)
  end.

(** [s.match(/^data:(.+);base64,(.+)$/)]: the two groups.  The pattern
    has no flag, so it must cover the whole string, and no line terminator
    may occur after the prefix. *)
Definition matchDataUrl (s : jsstring) : option (jsstring * jsstring) :=
  if Str.startsWith s (js "data:") then
    let r := drop 5 s in
    if existsb isLineTerminator r then None
    else lastSplit (js ";base64,") [] r None
  else None.

(** What [res.setHeader] refuses in a header value (a TypeError): a code
    unit other than TAB, U+0020..U+007E and U+0080..U+00FF. *)
Definition invalidHeaderChar (c : N) : bool :=
  negb ((c =? 9) || ((32 <=? c) && (c <=? 126)) || ((128 <=? c) && (c <=? 255))).

Definition placeholderUrl : jsstring :=
  js "https://via.placeholder.com/1200x627/4F46E5/FFFFFF?text=Portfolio".

Section Handler.

(** [Buffer.from(text, 'base64')] *)
Variable fromBase64 : jsstring -> jsstring.

(** Lines 298-334.  A truthy [profilePictureUrl] that is not a string has
    no [startsWith] to call. *)
Definition portfolioImage (portfolios : Store) (id : jsstring) : answer :=
  let portfolio := Store.get portfolios id in
  if negb (Val.truthy portfolio) then NotFound
  else
    match Val.get portfolio (js "profilePictureUrl") with
    | Throw e => Escapes e
    | Ok profilePictureUrl =>
        if Val.truthy profilePictureUrl then
          match profilePictureUrl with
          | VStr url =>
              if Str.startsWith url (js "data:") then
                match matchDataUrl url with
                | Some (mimeType, base64Data) =>
                    if existsb invalidHeaderChar mimeType then Escapes TypeError
                    else Picture mimeType (fromBase64 base64Data)
                | None => Redirect placeholderUrl
                end
              else Redirect placeholderUrl
          | _ => Escapes TypeError
          end
        else Redirect placeholderUrl
    end.

End Handler.

End Image.

(** ** netlify/functions/get-portfolio.js *)

Module GetPortfolio.

(** A row of the hosted table. *)
Record Row := {
  share_id : option jsstring;
  portfolio_data : Profile;
  profile_picture_url : option jsstring;
  selected_theme : option jsstring
}.

Record ThemeStyles := {
  bodyClass : jsstring;
  textColor : jsstring;
  secondaryColor : jsstring;
  borderColor : jsstring;
  skillBg : jsstring;
  skillText : jsstring;
  cardBg : jsstring;
  socialBg : jsstring;
  socialHover : jsstring
}.

Definition isTheme (o : option jsstring) (s : jsstring) : bool :=
  match o with
  | Some t => Str.eqb t s
  | None => false
  end.

(** [getThemeStyles(themeName)], lines 180-231. *)
Definition getThemeStyles (themeName : option jsstring) : ThemeStyles :=
  if isTheme themeName (js "Software Developer") then
    {| bodyClass := js "bg-gray-900 text-white";
       textColor := js "text-gray-300";
       secondaryColor := js "text-blue-400";
       borderColor := js "border-blue-400";
       skillBg := js "bg-blue-500";
       skillText := js "text-white";
       cardBg := js "bg-gray-800";
       socialBg := js "bg-gray-800";
       socialHover := js "bg-gray-700" |}
  else if isTheme themeName (js "Graphic Designer") then
    {| bodyClass := js "bg-white text-gray-800";
       textColor := js "text-gray-700";
       secondaryColor := js "text-pink-500";
       borderColor := js "border-pink-500";
       skillBg := js "bg-pink-100";
       skillText := js "text-pink-800";
       cardBg := js "bg-gray-50";
       socialBg := js "bg-pink-100";
       socialHover := js "bg-pink-200" |}
  else if isTheme themeName (js "Data Scientist") then
    {| bodyClass := js "bg-gray-800 text-gray-100";
       textColor := js "text-gray-300";
       secondaryColor := js "text-green-400";
       borderColor := js "border-green-400";
       skillBg := js "bg-green-500";
       skillText := js "text-white";
       cardBg := js "bg-gray-700";
       socialBg := js "bg-gray-700";
       socialHover := js "bg-gray-600" |}
  else
    {| bodyClass := js "bg-gray-100 text-gray-900";
       textColor := js "text-gray-700";
       secondaryColor := js "text-indigo-500";
       borderColor := js "border-indigo-500";
       skillBg := js "bg-indigo-100";
       skillText := js "text-indigo-800";
       cardBg := js "bg-white";
       socialBg := js "bg-indigo-100";
       socialHover := js "bg-indigo-200" |}.

(** The template literal of lines 55-177; [envURL] is [process.env.URL]. *)
Definition template (envURL : option jsstring) (data : Row)
    (portfolio_data : Profile) (personalInfo : Personal.t)
    (themeStyles : ThemeStyles) : jsstring :=
  concat
  [ js "
    <!DOCTYPE html>
    <html lang=";
    dq; js "en"; dq;
    js ">
    <head>
        <meta charset=";
    dq; js "UTF-8"; dq;
    js " />
        <meta name=";
    dq; js "viewport"; dq; js " content="; dq;
    js "width=device-width, initial-scale=1.0"; dq;
    js " />
        <title>";
    (orElse (Personal.name personalInfo) (js "Portfolio"));
    js " | Professional Portfolio</title>
        
        <!-- Open Graph / Facebook -->
        <meta property=";
    dq; js "og:type"; dq; js " content="; dq; js "website"; dq;
    js " />
        <meta property=";
    dq; js "og:url"; dq; js " content="; dq; (text (envURL)); js "/shared/";
    (text (share_id data)); dq;
    js " />
        <meta property=";
    dq; js "og:title"; dq; js " content="; dq;
    (orElse (Personal.name personalInfo) (js "Portfolio")); dq;
    js " />
        <meta property=";
    dq; js "og:description"; dq; js " content="; dq;
    (orElse (summary portfolio_data) (js "Professional portfolio")); dq;
    js " />
        <meta property=";
    dq; js "og:image"; dq; js " content="; dq;
    (orElse (profile_picture_url data) (js "https://via.placeholder.com/1200x627/4F46E5/FFFFFF?text=Portfolio"));
    dq;
    js " />
        
        <!-- Twitter -->
        <meta property=";
    dq; js "twitter:card"; dq; js " content="; dq; js "summary_large_image"; dq;
    js " />
        <meta property=";
    dq; js "twitter:url"; dq; js " content="; dq; (text (envURL)); js "/shared/";
    (text (share_id data)); dq;
    js " />
        <meta property=";
    dq; js "twitter:title"; dq; js " content="; dq;
    (orElse (Personal.name personalInfo) (js "Portfolio")); dq;
    js " />
        <meta property=";
    dq; js "twitter:description"; dq; js " content="; dq;
    (orElse (summary portfolio_data) (js "Professional portfolio")); dq;
    js " />
        <meta property=";
    dq; js "twitter:image"; dq; js " content="; dq;
    (orElse (profile_picture_url data) (js "https://via.placeholder.com/1200x627/4F46E5/FFFFFF?text=Portfolio"));
    dq;
    js " />
        
        <script src=";
    dq; js "https://cdn.tailwindcss.com"; dq;
    js "></script>
        <link href=";
    dq;
    js "https://fonts.googleapis.com/css2?family=Inter:wght@400;500;700&family=Roboto+Mono:wght@400;500&display=swap";
    dq; js " rel="; dq; js "stylesheet"; dq;
    js ">
        <link rel=";
    dq; js "stylesheet"; dq; js " href="; dq;
    js "https://cdnjs.cloudflare.com/ajax/libs/font-awesome/6.4.0/css/all.min.css";
    dq;
    js ">
        <style>
            body { font-family: 'Inter', sans-serif; }
            .font-mono { font-family: 'Roboto Mono', monospace; }
            .social-link {
                display: inline-flex;
                align-items: center;
                justify-content: center;
                width: 48px;
                height: 48px;
                border-radius: 50%;
                transition: all 0.3s ease;
            }
            .social-link:hover {
                transform: translateY(-3px);
            }
            ";
    (js "[object Object]");
    js "
        </style>
    </head>
    <body class=";
    dq; (bodyClass themeStyles); js " min-h-screen"; dq;
    js ">
        <div class=";
    dq; js "container mx-auto p-4 md:p-8 max-w-5xl"; dq;
    js ">
            <header class=";
    dq;
    js "flex flex-col md:flex-row items-center text-center md:text-left gap-8 mb-12";
    dq;
    js ">
                <img src=";
    dq;
    (orElse (profile_picture_url data) (js "https://via.placeholder.com/150"));
    dq; js " alt="; dq; js "Profile Picture"; dq; js " class="; dq;
    js "w-36 h-36 rounded-full border-4 "; (borderColor themeStyles);
    js " object-cover shadow-lg"; dq;
    js ">
                <div>
                    <h1 class=";
    dq; js "text-4xl md:text-5xl font-bold"; dq; js ">";
    (orElse (Personal.name personalInfo) (js "Your Name"));
    js "</h1>
                    <p class=";
    dq; js "text-xl "; (secondaryColor themeStyles); js " mt-1"; dq;
    js ">
                        ";
    (if present (Personal.email personalInfo)
    then concat
         [ js "<a href="; dq; js "mailto:"; (text (Personal.email personalInfo)); dq;
           js " class="; dq; js "hover:underline"; dq; js ">";
           (text (Personal.email personalInfo)); js "</a>" ]
    else (js "your.email@example.com"));
    js "
                    </p>
                    ";
    (if present (Personal.phone personalInfo)
    then concat
         [ js "<p class="; dq; (textColor themeStyles); js " mb-4"; dq; js "><i class=";
           dq; js "fas fa-phone mr-2"; dq; js "></i>";
           (text (Personal.phone personalInfo)); js "</p>" ]
    else []);
    js "
                    <div class=";
    dq; js "flex justify-center md:justify-start gap-4 mt-4"; dq;
    js ">
                        ";
    (if present (Personal.email personalInfo)
    then concat
         [ js "
                            <a href=";
           dq; js "mailto:"; (text (Personal.email personalInfo)); dq; js " class="; dq;
           js "social-link "; (socialBg themeStyles); js " hover:";
           (socialHover themeStyles); js " transition-colors"; dq; js " title="; dq;
           js "Email"; dq;
           js ">
                                <i class=";
           dq; js "fas fa-envelope text-xl"; dq;
           js "></i>
                            </a>" ]
    else []);
    js "
                        ";
    (if present (Personal.linkedin personalInfo)
    then concat
         [ js "
                            <a href=";
           dq; (text (Personal.linkedin personalInfo)); dq; js " target="; dq;
           js "_blank"; dq; js " class="; dq; js "social-link "; (socialBg themeStyles);
           js " hover:"; (socialHover themeStyles); js " transition-colors"; dq;
           js " title="; dq; js "LinkedIn"; dq;
           js ">
                                <i class=";
           dq; js "fab fa-linkedin text-xl"; dq;
           js "></i>
                            </a>" ]
    else []);
    js "
                        ";
    (if present (Personal.github personalInfo)
    then concat
         [ js "
                            <a href=";
           dq; (text (Personal.github personalInfo)); dq; js " target="; dq;
           js "_blank"; dq; js " class="; dq; js "social-link "; (socialBg themeStyles);
           js " hover:"; (socialHover themeStyles); js " transition-colors"; dq;
           js " title="; dq; js "GitHub"; dq;
           js ">
                                <i class=";
           dq; js "fab fa-github text-xl"; dq;
           js "></i>
                            </a>" ]
    else []);
    js "
                        ";
    (if present (Personal.website personalInfo)
    then concat
         [ js "
                            <a href=";
           dq; (text (Personal.website personalInfo)); dq; js " target="; dq;
           js "_blank"; dq; js " class="; dq; js "social-link "; (socialBg themeStyles);
           js " hover:"; (socialHover themeStyles); js " transition-colors"; dq;
           js " title="; dq; js "Website"; dq;
           js ">
                                <i class=";
           dq; js "fas fa-globe text-xl"; dq;
           js "></i>
                            </a>" ]
    else []);
    js "
                    </div>
                </div>
            </header>
            <div class=";
    dq; js "grid md:grid-cols-3 gap-8"; dq;
    js ">
                <div class=";
    dq; js "md:col-span-2 space-y-8"; dq;
    js ">
                    <section>
                        <h2 class=";
    dq; js "text-2xl font-bold border-b-2 "; (borderColor themeStyles);
    js " pb-2 mb-4"; dq;
    js ">Professional Summary</h2>
                        <p class=";
    dq; (textColor themeStyles); dq; js ">";
    (orElse (summary portfolio_data) (js "No summary provided."));
    js "</p>
                    </section>
                    <section>
                         <h2 class=";
    dq; js "text-2xl font-bold border-b-2 "; (borderColor themeStyles);
    js " pb-2 mb-4"; dq;
    js ">Work Experience</h2>
                         ";
    (orDefault
      (concat (map (fun job =>
        concat
          [ js "
                            <div class=";
            dq; js "mb-4"; dq;
            js ">
                                <h4 class=";
            dq; js "text-lg font-bold"; dq; js ">";
            (orElse (Experience.role job) (js "Role")); js " at ";
            (orElse (Experience.company job) (js "Company"));
            js "</h4>
                                <p class=";
            dq; js "text-sm "; (secondaryColor themeStyles); js " mb-1"; dq; js ">";
            (orElse (Experience.dates job) []);
            js "</p>
                                <ul class=";
            dq; js "list-disc list-inside "; (textColor themeStyles); dq;
            js ">
                                    ";
            (concat (map (fun d =>
                concat
                  [ js "<li>"; (d); js "</li>" ])
              (items (Experience.description job))));
            js "
                                </ul>
                            </div>
                         " ])
      (items (experience portfolio_data))))
      (js "<p class=" ++ dq ++ js "text-gray-500" ++ dq ++ js ">No work experience listed.</p>"));
    js "
                    </section>
                </div>
                <div class=";
    dq; js "md:col-span-1 space-y-8"; dq;
    js ">
                    <section>
                         <h2 class=";
    dq; js "text-2xl font-bold border-b-2 "; (borderColor themeStyles);
    js " pb-2 mb-4"; dq;
    js ">Skills</h2>
                         <div class=";
    dq; js "flex flex-wrap"; dq;
    js ">
                            ";
    (orDefault
      (concat (map (fun skill =>
        concat
          [ js "<span class="; dq; (skillBg themeStyles); js " ";
            (skillText themeStyles);
            js " text-sm font-medium mr-2 mb-2 px-3 py-1 rounded-full"; dq; js ">";
            (skill); js "</span>" ])
      (items (skills portfolio_data))))
      (js "<p class=" ++ dq ++ js "text-gray-500" ++ dq ++ js ">No skills listed.</p>"));
    js "
                         </div>
                    </section>
                    <section>
                        <h2 class=";
    dq; js "text-2xl font-bold border-b-2 "; (borderColor themeStyles);
    js " pb-2 mb-4"; dq;
    js ">Projects</h2>
                        ";
    (orDefault
      (concat (map (fun proj =>
        concat
          [ js "
                            <div class=";
            dq; (cardBg themeStyles); js " p-4 rounded-lg mb-4 shadow"; dq;
            js ">
                                <h4 class=";
            dq; js "font-bold "; (secondaryColor themeStyles); dq; js ">";
            (orElse (Project.title proj) (js "Project Title"));
            js "</h4>
                                <p class=";
            dq; (textColor themeStyles); js " text-sm mt-1"; dq; js ">";
            (orElse (Project.description proj) []);
            js "</p>
                                ";
            (if present (Project.link proj)
            then concat
                 [ js "<a href="; dq; (text (Project.link proj)); dq; js " target="; dq;
                   js "_blank"; dq; js " class="; dq;
                   js "text-blue-400 hover:underline text-sm mt-2 inline-block"; dq;
                   js ">View Project &rarr;</a>" ]
            else []);
            js "
                            </div>
                        " ])
      (items (projects portfolio_data))))
      (js "<p class=" ++ dq ++ js "text-gray-500" ++ dq ++ js ">No projects listed.</p>"));
    js "
                    </section>
                </div>
            </div>
            
            <!-- Add a footer with the portfolio URL -->
            <footer class=";
    dq; js "mt-12 pt-6 border-t ";
    (Str.replaceFirst (js "border-") (js "border-") (borderColor themeStyles));
    js " text-center "; (textColor themeStyles); js " text-sm"; dq;
    js ">
                <p>This portfolio was created with PortfolioForge AI</p>
                <p class=";
    dq; js "mt-2"; dq; js ">Shared via: "; (text (envURL)); js "/shared/";
    (text (share_id data));
    js "</p>
            </footer>
        </div>
    </body>
    </html>
  " ].

(** [generatePortfolioHTML(data)], lines 48-178.  Reading [name] from an
    absent [personalInfo] throws. *)
Definition generatePortfolioHTML (envURL : option jsstring) (data : Row)
  : result jsstring :=
  let portfolio_data := portfolio_data data in
  let themeStyles := getThemeStyles (selected_theme data) in
  match personalInfo portfolio_data with
  | None => Throw TypeError
  | Some personalInfo =>
      Ok (template envURL data portfolio_data personalInfo themeStyles)
  end.

Definition notFoundPage : jsstring :=
  js "<!DOCTYPE html><html><head><title>Portfolio Not Found</title></head><body><h1>Portfolio Not Found</h1><p>The portfolio you are looking for does not exist or may have expired.</p></body></html>".

Definition serverErrorPage : jsstring :=
  js "<!DOCTYPE html><html><head><title>Error</title></head><body><h1>Server Error</h1><p>We encountered an error while loading this portfolio. Please try again later.</p></body></html>".

(** [exports.handler], lines 9-46.  [query] is
    [event.queryStringParameters], absent on an event that carries none;
    [select shareId] is what the query of lines 14-18 resolves to: the
    row, or an error or no data ([None]), or a rejection. *)
Definition handler (select : option jsstring -> result (option Row))
    (envURL : option jsstring) (query : option (option jsstring)) : Response :=
  match query with
  | None => {| status := 500; payload := HtmlOf serverErrorPage |}
  | Some shareId =>
      match select shareId with
      | Throw _ => {| status := 500; payload := HtmlOf serverErrorPage |}
      | Ok None => {| status := 404; payload := HtmlOf notFoundPage |}
      | Ok (Some data) =>
          match generatePortfolioHTML envURL data with
          | Ok html => {| status := 200; payload := HtmlOf html |}
          | Throw _ => {| status := 500; payload := HtmlOf serverErrorPage |}
          end
      end
  end.

End GetPortfolio.

(** ** netlify/functions/share-portfolio.js *)

Module SharePortfolio.

Section Handler.

Variable table : value -> jsstring + value.

(** [exports.handler], lines 10-52.  [envURL] is [process.env.URL] and
    [shareId] what [uuidv4()] returns.  The three keys that are
    destructured name, like those listed at [Val.get], no index and no
    member of a built-in prototype. *)
Definition handler (envURL : option jsstring) (eventBody : jsstring)
    (shareId : jsstring) : M Response :=
  tryCatch
    (let* body := lift (Json.parse eventBody) in
     let* portfolioData := lift (Val.get body (js "portfolioData")) in
     let* profilePictureUrl := lift (Val.get body (js "profilePictureUrl")) in
     let* selectedTheme := lift (Val.get body (js "selectedTheme")) in
     let* outcome :=
       insertRow table
         (VObj [ (js "share_id", VStr shareId);
                 (js "portfolio_data", portfolioData);
                 (js "profile_picture_url", profilePictureUrl);
                 (js "selected_theme", selectedTheme) ]) in
     match outcome with
     | inl _ => ret {| status := 500; payload := errorJson (js "Failed to save portfolio") |}
     | inr _ =>
         ret {| status := 200;
                payload := JsonOf (VObj [ (js "shareUrl",
                                          VStr (text envURL ++ js "/shared/" ++ shareId));
                                        (js "shareId", VStr shareId) ]) |}
     end)
    (fun error =>
       ret {| status := 500; payload := errorJson (js "Internal server error") |}).

End Handler.

End SharePortfolio.

(** ** The page routes on the records as they are stored

    The store of server.js and the hosted table hold what the requests
    and the model put there: any value JSON can build, under the keys the
    handlers write.  Here the two page routes read such a value the way
    their templates do, each interpolation converting what it finds. *)

Module Stored.

Definition andThen {A B} (r : result A) (k : A -> result B) : result B :=
  match r with
  | Ok a => k a
  | Throw e => Throw e
  end.

(** The results of a sequence of evaluations, up to the first that
    throws. *)
Fixpoint collect {A} (l : list (result A)) : result (list A) :=
  match l with
  | [] => Ok []
  | Ok a :: rest => andThen (collect rest) (fun l' => Ok (a :: l'))
  | Throw e :: _ => Throw e
  end.

(** A template literal: its texts and substitutions, evaluated from left
    to right. *)
Definition pieces (l : list (result jsstring)) : result jsstring :=
  andThen (collect l) (fun ss => Ok (concat ss)).

(** [l.join(sep)] for an array of strings. *)
Fixpoint joinWith (sep : jsstring) (l : list jsstring) : jsstring :=
  match l with
  | [] => []
  | [s] => s
  | s :: rest => s ++ sep ++ joinWith sep rest
  end.

(** The source text V8 gives a built-in function; the prototype object
    itself is shown as any plain object. *)
Definition functionText (name : jsstring) : jsstring :=
  match Val.builtinName name with
  | VStr f => js "function " ++ f ++ js "() { [native code] }"
  | _ => js "[object Object]"
  end.

(** [v.k] for the keys the two templates read.  Of them only [link] names
    a member of a built-in prototype: [String.prototype.link], a
    function. *)
Definition member (v : value) (k : jsstring) : result value :=
  match v with
  | VStr _ => Ok (if Str.eqb k (js "link") then VBuiltin (js "link") else VUndefined)
  | _ => Val.get v k
  end.

(** [v.k1.k2...] *)
Fixpoint read (v : value) (path : list jsstring) : result value :=
  match path with
  | [] => Ok v
  | k :: rest => andThen (member v k) (fun x => read x rest)
  end.

(** [x || []], then [.map]: only an array has it, and an own property of
    that name hides it. *)
Definition elements (v : value) : result (list value) :=
  if Val.truthy v then
    match v with
    | VArr elems named =>
        match Val.own named (js "map") with
        | Some _ => Throw TypeError
        | None => Ok elems
        end
    | _ => Throw TypeError
    end
  else Ok [].

(** [x.replace(a, b)]: only a string has it. *)
Definition replaced (r : result value) (a b : jsstring) : result jsstring :=
  andThen r (fun v =>
    match v with
    | VStr s => Ok (Str.replaceFirst a b s)
    | _ => Throw TypeError
    end).

(** [c ? t : d] *)
Definition whenever (r : result value) (t : result jsstring) (d : jsstring)
  : result jsstring :=
  andThen r (fun v => if Val.truthy v then t else Ok d).

(** [s || d] for a string [s] *)
Definition orDefaultOf (r : result jsstring) (d : jsstring) : result jsstring :=
  andThen r (fun s => Ok (orDefault s d)).

(** [switch (themeName)] compares with [===]: only a string can match a
    case. *)
Definition themeName (v : value) : option jsstring :=
  match v with
  | VStr s => Some s
  | _ => None
  end.

(** [undefined] or [null]: what has no members to read. *)
Definition absent (v : value) : Prop := v = VUndefined \/ v = VNull.

(** A sequence that is absent or empty, as a listing in a template finds
    it: [undefined] or another falsy value, or an array without
    elements. *)
Definition noItems (v : value) : Prop :=
  Val.truthy v = false \/ exists named, v = VArr [] named.

Section Engine.

(** Number::toString and Date.prototype.toString, which the engine
    provides. *)
Variable numberToString : number -> jsstring.
Variable dateToString : N -> jsstring.

(** ToString.  An object is shown by [Object.prototype.toString] unless
    an own [toString] hides it; nothing parsed is callable, and so the
    conversion throws.  An array joins its elements with commas,
    [undefined] and [null] giving the empty string, unless an own [join]
    hides [Array.prototype.join]. *)
Fixpoint toString (v : value) : result jsstring :=
  match v with
  | VUndefined => Ok (js "undefined")
  | VNull => Ok (js "null")
  | VBool b => Ok (if b then js "true" else js "false")
  | VNum n => Ok (numberToString n)
  | VStr s => Ok s
  | VArr elems named =>
      match Val.own named (js "toString") with
      | Some _ => Throw TypeError
      | None =>
          match Val.own named (js "join") with
          | Some _ => Ok (js "[object Array]")
          | None =>
              andThen
                (collect (map (fun x =>
                                 match x with
                                 | VUndefined | VNull => Ok []
                                 | _ => toString x
                                 end) elems))
                (fun l => Ok (joinWith (js ",") l))
          end
      end
  | VObj props =>
      match Val.own props (js "toString") with
      | Some _ => Throw TypeError
      | None => Ok (js "[object Object]")
      end
  | VBuiltin name => Ok (functionText name)
  | VDate time => Ok (dateToString time)
  end.

(** [`${x}`] *)
Definition shown (r : result value) : result jsstring := andThen r toString.

(** [`${x || d}`] *)
Definition orText (r : result value) (d : jsstring) : result jsstring :=
  andThen r (fun v => if Val.truthy v then toString v else Ok d).

(** [(x || []).map(f).join('')] *)
Definition each (r : result value) (f : value -> result jsstring) : result jsstring :=
  andThen r (fun v =>
  andThen (elements v) (fun l =>
  andThen (collect (map f l)) (fun ss => Ok (concat ss)))).

(** *** server.js: GET /portfolio/:id *)

(** The template literal of lines 412-532. *)
Definition portfolioHtml (portfolioUrl imageUrl : jsstring)
    (portfolio personalInfo : value) : result jsstring :=
  pieces
  [ Ok (js "
            <!DOCTYPE html>
            <html lang=");
    Ok dq; Ok (js "en"); Ok dq;
    Ok (js ">
            <head>
                <meta charset=");
    Ok dq; Ok (js "UTF-8"); Ok dq;
    Ok (js " />
                <meta name=");
    Ok dq; Ok (js "viewport"); Ok dq; Ok (js " content="); Ok dq;
    Ok (js "width=device-width, initial-scale=1.0"); Ok dq;
    Ok (js " />
                <title>");
    orText (read personalInfo [js "name"]) (js "Portfolio");
    Ok (js "</title>
                
                <!-- Open Graph / Facebook -->
                <meta property=");
    Ok dq; Ok (js "og:type"); Ok dq; Ok (js " content="); Ok dq;
    Ok (js "website"); Ok dq;
    Ok (js " />
                <meta property=");
    Ok dq; Ok (js "og:url"); Ok dq; Ok (js " content="); Ok dq;
    Ok (portfolioUrl); Ok dq;
    Ok (js " />
                <meta property=");
    Ok dq; Ok (js "og:title"); Ok dq; Ok (js " content="); Ok dq;
    orText (read personalInfo [js "name"]) (js "Portfolio"); Ok dq;
    Ok (js " />
                <meta property=");
    Ok dq; Ok (js "og:description"); Ok dq; Ok (js " content="); Ok dq;
    orText (read portfolio [js "data"; js "summary"]) (js "Professional portfolio");
    Ok dq;
    Ok (js " />
                <meta property=");
    Ok dq; Ok (js "og:image"); Ok dq; Ok (js " content="); Ok dq; Ok (imageUrl);
    Ok dq;
    Ok (js " />
                
                <!-- Twitter -->
                <meta property=");
    Ok dq; Ok (js "twitter:card"); Ok dq; Ok (js " content="); Ok dq;
    Ok (js "summary_large_image"); Ok dq;
    Ok (js " />
                <meta property=");
    Ok dq; Ok (js "twitter:url"); Ok dq; Ok (js " content="); Ok dq;
    Ok (portfolioUrl); Ok dq;
    Ok (js " />
                <meta property=");
    Ok dq; Ok (js "twitter:title"); Ok dq; Ok (js " content="); Ok dq;
    orText (read personalInfo [js "name"]) (js "Portfolio"); Ok dq;
    Ok (js " />
                <meta property=");
    Ok dq; Ok (js "twitter:description"); Ok dq; Ok (js " content="); Ok dq;
    orText (read portfolio [js "data"; js "summary"]) (js "Professional portfolio");
    Ok dq;
    Ok (js " />
                <meta property=");
    Ok dq; Ok (js "twitter:image"); Ok dq; Ok (js " content="); Ok dq;
    Ok (imageUrl); Ok dq;
    Ok (js " />
                
                <script src=");
    Ok dq; Ok (js "https://cdn.tailwindcss.com"); Ok dq;
    Ok (js "></script>
                <link href=");
    Ok dq;
    Ok (js "https://fonts.googleapis.com/css2?family=Inter:wght@400;500;700&family=Roboto+Mono:wght@400;500&display=swap");
    Ok dq; Ok (js " rel="); Ok dq; Ok (js "stylesheet"); Ok dq;
    Ok (js ">
                <link rel=");
    Ok dq; Ok (js "stylesheet"); Ok dq; Ok (js " href="); Ok dq;
    Ok (js "https://cdnjs.cloudflare.com/ajax/libs/font-awesome/6.4.0/css/all.min.css");
    Ok dq;
    Ok (js ">
                <style>
                    body { font-family: 'Inter', sans-serif; }
                    .font-mono { font-family: 'Roboto Mono', monospace; }
                    .social-link {
                        display: inline-flex;
                        align-items: center;
                        justify-content: center;
                        width: 48px;
                        height: 48px;
                        border-radius: 50%;
                        transition: all 0.3s ease;
                    }
                    .social-link:hover {
                        transform: translateY(-3px);
                    }
                </style>
            </head>
            <body class=");
    Ok dq; shown (read portfolio [js "theme"; js "background"]); Ok (js " ");
    shown (read portfolio [js "theme"; js "font"]); Ok (js " min-h-screen");
    Ok dq;
    Ok (js ">
                <div class=");
    Ok dq; Ok (js "container mx-auto p-4 md:p-8 max-w-5xl"); Ok dq;
    Ok (js ">
                    <header class=");
    Ok dq;
    Ok (js "flex flex-col md:flex-row items-center text-center md:text-left gap-8 mb-12");
    Ok dq;
    Ok (js ">
                        <img src=");
    Ok dq; shown (read portfolio [js "profilePictureUrl"]); Ok dq;
    Ok (js " alt="); Ok dq; Ok (js "Profile Picture"); Ok dq; Ok (js " class=");
    Ok dq; Ok (js "w-36 h-36 rounded-full border-4 border-opacity-50 ");
    replaced (read portfolio [js "theme"; js "secondaryColor"]) (js "text-") (js "border-");
    Ok (js " object-cover shadow-lg"); Ok dq;
    Ok (js ">
                        <div>
                            <h1 class=");
    Ok dq; Ok (js "text-4xl md:text-5xl font-bold"); Ok dq; Ok (js ">");
    orText (read personalInfo [js "name"]) (js "Your Name");
    Ok (js "</h1>
                            <p class=");
    Ok dq; Ok (js "text-xl ");
    shown (read portfolio [js "theme"; js "secondaryColor"]); Ok (js " mt-1");
    Ok dq;
    Ok (js ">
                                ");
    whenever (read personalInfo [js "email"])
      (pieces
         [ Ok (js "<a href="); Ok dq; Ok (js "mailto:");
           shown (read personalInfo [js "email"]); Ok dq; Ok (js " class="); Ok dq;
           Ok (js "hover:underline"); Ok dq; Ok (js ">");
           shown (read personalInfo [js "email"]); Ok (js "</a>") ])
      (js "your.email@example.com");
    Ok (js "
                            </p>
                            ");
    whenever (read personalInfo [js "phone"])
      (pieces
         [ Ok (js "<p class="); Ok dq; Ok (js "text-gray-400 mb-4"); Ok dq;
           Ok (js "><i class="); Ok dq; Ok (js "fas fa-phone mr-2"); Ok dq;
           Ok (js "></i>"); shown (read personalInfo [js "phone"]); Ok (js "</p>") ])
      [];
    Ok (js "
                            <div class=");
    Ok dq; Ok (js "flex justify-center md:justify-start gap-4 mt-4"); Ok dq;
    Ok (js ">
                                ");
    whenever (read personalInfo [js "email"])
      (pieces
         [ Ok (js "
                                    <a href=");
           Ok dq; Ok (js "mailto:"); shown (read personalInfo [js "email"]); Ok dq;
           Ok (js " class="); Ok dq; Ok (js "social-link ");
           shown (read portfolio [js "theme"; js "secondaryColor"]);
           Ok (js " hover:text-white transition-colors"); Ok dq; Ok (js " title=");
           Ok dq; Ok (js "Email"); Ok dq;
           Ok (js ">
                                        <i class=");
           Ok dq; Ok (js "fas fa-envelope text-xl"); Ok dq;
           Ok (js "></i>
                                    </a>") ])
      [];
    Ok (js "
                                ");
    whenever (read personalInfo [js "linkedin"])
      (pieces
         [ Ok (js "
                                    <a href=");
           Ok dq; shown (read personalInfo [js "linkedin"]); Ok dq; Ok (js " target=");
           Ok dq; Ok (js "_blank"); Ok dq; Ok (js " class="); Ok dq;
           Ok (js "social-link ");
           shown (read portfolio [js "theme"; js "secondaryColor"]);
           Ok (js " hover:text-white transition-colors"); Ok dq; Ok (js " title=");
           Ok dq; Ok (js "LinkedIn"); Ok dq;
           Ok (js ">
                                        <i class=");
           Ok dq; Ok (js "fab fa-linkedin text-xl"); Ok dq;
           Ok (js "></i>
                                    </a>") ])
      [];
    Ok (js "
                                ");
    whenever (read personalInfo [js "github"])
      (pieces
         [ Ok (js "
                                    <a href=");
           Ok dq; shown (read personalInfo [js "github"]); Ok dq; Ok (js " target=");
           Ok dq; Ok (js "_blank"); Ok dq; Ok (js " class="); Ok dq;
           Ok (js "social-link ");
           shown (read portfolio [js "theme"; js "secondaryColor"]);
           Ok (js " hover:text-white transition-colors"); Ok dq; Ok (js " title=");
           Ok dq; Ok (js "GitHub"); Ok dq;
           Ok (js ">
                                        <i class=");
           Ok dq; Ok (js "fab fa-github text-xl"); Ok dq;
           Ok (js "></i>
                                    </a>") ])
      [];
    Ok (js "
                                ");
    whenever (read personalInfo [js "website"])
      (pieces
         [ Ok (js "
                                    <a href=");
           Ok dq; shown (read personalInfo [js "website"]); Ok dq; Ok (js " target=");
           Ok dq; Ok (js "_blank"); Ok dq; Ok (js " class="); Ok dq;
           Ok (js "social-link ");
           shown (read portfolio [js "theme"; js "secondaryColor"]);
           Ok (js " hover:text-white transition-colors"); Ok dq; Ok (js " title=");
           Ok dq; Ok (js "Website"); Ok dq;
           Ok (js ">
                                        <i class=");
           Ok dq; Ok (js "fas fa-globe text-xl"); Ok dq;
           Ok (js "></i>
                                    </a>") ])
      [];
    Ok (js "
                            </div>
                        </div>
                    </header>
                    <div class=");
    Ok dq; Ok (js "grid md:grid-cols-3 gap-8"); Ok dq;
    Ok (js ">
                        <div class=");
    Ok dq; Ok (js "md:col-span-2 space-y-8"); Ok dq;
    Ok (js ">
                            <section>
                                <h2 class=");
    Ok dq; Ok (js "text-2xl font-bold border-b-2 ");
    replaced (read portfolio [js "theme"; js "secondaryColor"]) (js "text-") (js "border-");
    Ok (js " pb-2 mb-4"); Ok dq;
    Ok (js ">Professional Summary</h2>
                                <p class=");
    Ok dq; Ok (js "text-gray-300"); Ok dq; Ok (js ">");
    orText (read portfolio [js "data"; js "summary"]) (js "No summary provided.");
    Ok (js "</p>
                            </section>
                            <section>
                                 <h2 class=");
    Ok dq; Ok (js "text-2xl font-bold border-b-2 ");
    replaced (read portfolio [js "theme"; js "secondaryColor"]) (js "text-") (js "border-");
    Ok (js " pb-2 mb-4"); Ok dq;
    Ok (js ">Work Experience</h2>
                                 ");
    orDefaultOf
      (each (read portfolio [js "data"; js "experience"])
      (fun job =>
        pieces
          [ Ok (js "
                                    <div class=");
            Ok dq; Ok (js "mb-4"); Ok dq;
            Ok (js ">
                                        <h4 class=");
            Ok dq; Ok (js "text-lg font-bold"); Ok dq; Ok (js ">");
            orText (read job [js "role"]) (js "Role"); Ok (js " at ");
            orText (read job [js "company"]) (js "Company");
            Ok (js "</h4>
                                        <p class=");
            Ok dq; Ok (js "text-sm ");
            shown (read portfolio [js "theme"; js "secondaryColor"]); Ok (js " mb-1");
            Ok dq; Ok (js ">"); orText (read job [js "dates"]) [];
            Ok (js "</p>
                                        <ul class=");
            Ok dq; Ok (js "list-disc list-inside text-gray-300"); Ok dq;
            Ok (js ">
                                            ");
            each (read job [js "description"])
              (fun d =>
                pieces
                  [ Ok (js "<li>"); shown (Ok d); Ok (js "</li>") ]);
            Ok (js "
                                        </ul>
                                    </div>
                                 ") ]))
      (js "<p class=" ++ dq ++ js "text-gray-400" ++ dq ++ js ">No work experience listed.</p>");
    Ok (js "
                            </section>
                        </div>
                        <div class=");
    Ok dq; Ok (js "md:col-span-1 space-y-8"); Ok dq;
    Ok (js ">
                            <section>
                                 <h2 class=");
    Ok dq; Ok (js "text-2xl font-bold border-b-2 ");
    replaced (read portfolio [js "theme"; js "secondaryColor"]) (js "text-") (js "border-");
    Ok (js " pb-2 mb-4"); Ok dq;
    Ok (js ">Skills</h2>
                                 <div class=");
    Ok dq; Ok (js "flex flex-wrap"); Ok dq;
    Ok (js ">
                                    ");
    orDefaultOf
      (each (read portfolio [js "data"; js "skills"])
      (fun skill =>
        pieces
          [ Ok (js "<span class="); Ok dq;
            shown (read portfolio [js "theme"; js "primaryColor"]);
            Ok (js " text-white text-sm font-medium mr-2 mb-2 px-3 py-1 rounded-full");
            Ok dq; Ok (js ">"); shown (Ok skill); Ok (js "</span>") ]))
      (js "<p class=" ++ dq ++ js "text-gray-400" ++ dq ++ js ">No skills listed.</p>");
    Ok (js "
                                 </div>
                            </section>
                            <section>
                                <h2 class=");
    Ok dq; Ok (js "text-2xl font-bold border-b-2 ");
    replaced (read portfolio [js "theme"; js "secondaryColor"]) (js "text-") (js "border-");
    Ok (js " pb-2 mb-4"); Ok dq;
    Ok (js ">Projects</h2>
                                ");
    orDefaultOf
      (each (read portfolio [js "data"; js "projects"])
      (fun proj =>
        pieces
          [ Ok (js "
                                    <div class=");
            Ok dq; shown (read portfolio [js "theme"; js "card"]);
            Ok (js " p-4 rounded-lg mb-4"); Ok dq;
            Ok (js ">
                                        <h4 class=");
            Ok dq; Ok (js "font-bold ");
            shown (read portfolio [js "theme"; js "secondaryColor"]); Ok dq; Ok (js ">");
            orText (read proj [js "title"]) (js "Project Title");
            Ok (js "</h4>
                                        <p class=");
            Ok dq; Ok (js "text-gray-300 text-sm mt-1"); Ok dq; Ok (js ">");
            orText (read proj [js "description"]) [];
            Ok (js "</p>
                                        ");
            whenever (read proj [js "link"])
              (pieces
                 [ Ok (js "<a href="); Ok dq; shown (read proj [js "link"]); Ok dq;
                   Ok (js " target="); Ok dq; Ok (js "_blank"); Ok dq; Ok (js " class="); Ok dq;
                   Ok (js "text-blue-400 hover:underline text-sm mt-2 inline-block"); Ok dq;
                   Ok (js ">View Project &rarr;</a>") ])
              [];
            Ok (js "
                                    </div>
                                ") ]))
      (js "<p class=" ++ dq ++ js "text-gray-400" ++ dq ++ js ">No projects listed.</p>");
    Ok (js "
                            </section>
                        </div>
                    </div>
                    
                    <!-- Add a footer with the portfolio URL -->
                    <footer class=");
    Ok dq;
    Ok (js "mt-12 pt-6 border-t border-gray-700 text-center text-gray-500 text-sm");
    Ok dq;
    Ok (js ">
                        <p>This portfolio is hosted at: ");
    Ok (portfolioUrl);
    Ok (js "</p>
                    </footer>
                </div>
            </body>
            </html>
        ") ].

(** [encodeURIComponent(personalInfo.name || 'Portfolio')] in the address
    of lines 398 and 405. *)
Definition placeholderImage (personalInfo : value) : result jsstring :=
  andThen (orText (read personalInfo [js "name"]) (js "Portfolio")) (fun name =>
  Uri.prepend (js "https://via.placeholder.com/1200x627/4F46E5/FFFFFF?text=")
    (Uri.encodeURIComponent name)).

(** Lines 381-532, the body of the [try].  A truthy [profilePictureUrl]
    that is not a string has no [startsWith] to call. *)
Definition renderPortfolio (protocol host id : jsstring) (portfolio : value)
  : result jsstring :=
  andThen (read portfolio [js "data"; js "personalInfo"]) (fun info =>
  let personalInfo := if Val.truthy info then info else VObj [] in
  andThen (member portfolio (js "profilePictureUrl")) (fun profilePictureUrl =>
  andThen
    (if Val.truthy profilePictureUrl then
       match profilePictureUrl with
       | VStr url =>
           if Str.startsWith url (js "data:") then placeholderImage personalInfo
           else Ok (protocol ++ js "://" ++ host ++ js "/api/portfolio-image/" ++ id)
       | _ => Throw TypeError
       end
     else placeholderImage personalInfo) (fun imageUrl =>
  let portfolioUrl := protocol ++ js "://" ++ host ++ js "/portfolio/" ++ id in
  portfolioHtml portfolioUrl imageUrl portfolio personalInfo))).

(** GET /portfolio/:id, lines 361-539. *)
Definition getPortfolio (protocol host id : jsstring) (portfolios : Store) : Response :=
  if negb (Page.isUuid id) then
    {| status := 400;
       payload := HtmlOf (Page.createErrorPage (js "Invalid Portfolio ID")
                          (js "The portfolio ID you provided is not valid. Please check the URL and try again.")) |}
  else
    let portfolio := Store.get portfolios id in
    if negb (Val.truthy portfolio) then
      {| status := 404;
         payload := HtmlOf (Page.createErrorPage (js "Portfolio Not Found")
                            (js "The portfolio you're looking for doesn't exist or may have been deleted.")) |}
    else
      match renderPortfolio protocol host id portfolio with
      | Ok portfolioHtml => {| status := 200; payload := HtmlOf portfolioHtml |}
      | Throw error =>
          {| status := 500;
             payload := HtmlOf (Page.createErrorPage (js "Server Error")
                                (js "We encountered an error while loading this portfolio. Please try again later.")) |}
      end.

(** *** netlify/functions/get-portfolio.js *)

(** The template literal of lines 55-177. *)
Definition template (envURL : option jsstring)
    (data personalInfo summary skills experience projects profile_picture_url : value)
    (themeStyles : GetPortfolio.ThemeStyles) : result jsstring :=
  pieces
  [ Ok (js "
    <!DOCTYPE html>
    <html lang=");
    Ok dq; Ok (js "en"); Ok dq;
    Ok (js ">
    <head>
        <meta charset=");
    Ok dq; Ok (js "UTF-8"); Ok dq;
    Ok (js " />
        <meta name=");
    Ok dq; Ok (js "viewport"); Ok dq; Ok (js " content="); Ok dq;
    Ok (js "width=device-width, initial-scale=1.0"); Ok dq;
    Ok (js " />
        <title>");
    orText (read personalInfo [js "name"]) (js "Portfolio");
    Ok (js " | Professional Portfolio</title>
        
        <!-- Open Graph / Facebook -->
        <meta property=");
    Ok dq; Ok (js "og:type"); Ok dq; Ok (js " content="); Ok dq;
    Ok (js "website"); Ok dq;
    Ok (js " />
        <meta property=");
    Ok dq; Ok (js "og:url"); Ok dq; Ok (js " content="); Ok dq; Ok (text envURL);
    Ok (js "/shared/"); shown (read data [js "share_id"]); Ok dq;
    Ok (js " />
        <meta property=");
    Ok dq; Ok (js "og:title"); Ok dq; Ok (js " content="); Ok dq;
    orText (read personalInfo [js "name"]) (js "Portfolio"); Ok dq;
    Ok (js " />
        <meta property=");
    Ok dq; Ok (js "og:description"); Ok dq; Ok (js " content="); Ok dq;
    orText (Ok summary) (js "Professional portfolio"); Ok dq;
    Ok (js " />
        <meta property=");
    Ok dq; Ok (js "og:image"); Ok dq; Ok (js " content="); Ok dq;
    orText (Ok profile_picture_url) (js "https://via.placeholder.com/1200x627/4F46E5/FFFFFF?text=Portfolio");
    Ok dq;
    Ok (js " />
        
        <!-- Twitter -->
        <meta property=");
    Ok dq; Ok (js "twitter:card"); Ok dq; Ok (js " content="); Ok dq;
    Ok (js "summary_large_image"); Ok dq;
    Ok (js " />
        <meta property=");
    Ok dq; Ok (js "twitter:url"); Ok dq; Ok (js " content="); Ok dq;
    Ok (text envURL); Ok (js "/shared/"); shown (read data [js "share_id"]);
    Ok dq;
    Ok (js " />
        <meta property=");
    Ok dq; Ok (js "twitter:title"); Ok dq; Ok (js " content="); Ok dq;
    orText (read personalInfo [js "name"]) (js "Portfolio"); Ok dq;
    Ok (js " />
        <meta property=");
    Ok dq; Ok (js "twitter:description"); Ok dq; Ok (js " content="); Ok dq;
    orText (Ok summary) (js "Professional portfolio"); Ok dq;
    Ok (js " />
        <meta property=");
    Ok dq; Ok (js "twitter:image"); Ok dq; Ok (js " content="); Ok dq;
    orText (Ok profile_picture_url) (js "https://via.placeholder.com/1200x627/4F46E5/FFFFFF?text=Portfolio");
    Ok dq;
    Ok (js " />
        
        <script src=");
    Ok dq; Ok (js "https://cdn.tailwindcss.com"); Ok dq;
    Ok (js "></script>
        <link href=");
    Ok dq;
    Ok (js "https://fonts.googleapis.com/css2?family=Inter:wght@400;500;700&family=Roboto+Mono:wght@400;500&display=swap");
    Ok dq; Ok (js " rel="); Ok dq; Ok (js "stylesheet"); Ok dq;
    Ok (js ">
        <link rel=");
    Ok dq; Ok (js "stylesheet"); Ok dq; Ok (js " href="); Ok dq;
    Ok (js "https://cdnjs.cloudflare.com/ajax/libs/font-awesome/6.4.0/css/all.min.css");
    Ok dq;
    Ok (js ">
        <style>
            body { font-family: 'Inter', sans-serif; }
            .font-mono { font-family: 'Roboto Mono', monospace; }
            .social-link {
                display: inline-flex;
                align-items: center;
                justify-content: center;
                width: 48px;
                height: 48px;
                border-radius: 50%;
                transition: all 0.3s ease;
            }
            .social-link:hover {
                transform: translateY(-3px);
            }
            ");
    Ok (js "[object Object]");
    Ok (js "
        </style>
    </head>
    <body class=");
    Ok dq; Ok (GetPortfolio.bodyClass themeStyles); Ok (js " min-h-screen");
    Ok dq;
    Ok (js ">
        <div class=");
    Ok dq; Ok (js "container mx-auto p-4 md:p-8 max-w-5xl"); Ok dq;
    Ok (js ">
            <header class=");
    Ok dq;
    Ok (js "flex flex-col md:flex-row items-center text-center md:text-left gap-8 mb-12");
    Ok dq;
    Ok (js ">
                <img src=");
    Ok dq;
    orText (Ok profile_picture_url) (js "https://via.placeholder.com/150");
    Ok dq; Ok (js " alt="); Ok dq; Ok (js "Profile Picture"); Ok dq;
    Ok (js " class="); Ok dq; Ok (js "w-36 h-36 rounded-full border-4 ");
    Ok (GetPortfolio.borderColor themeStyles); Ok (js " object-cover shadow-lg");
    Ok dq;
    Ok (js ">
                <div>
                    <h1 class=");
    Ok dq; Ok (js "text-4xl md:text-5xl font-bold"); Ok dq; Ok (js ">");
    orText (read personalInfo [js "name"]) (js "Your Name");
    Ok (js "</h1>
                    <p class=");
    Ok dq; Ok (js "text-xl "); Ok (GetPortfolio.secondaryColor themeStyles);
    Ok (js " mt-1"); Ok dq;
    Ok (js ">
                        ");
    whenever (read personalInfo [js "email"])
      (pieces
         [ Ok (js "<a href="); Ok dq; Ok (js "mailto:");
           shown (read personalInfo [js "email"]); Ok dq; Ok (js " class="); Ok dq;
           Ok (js "hover:underline"); Ok dq; Ok (js ">");
           shown (read personalInfo [js "email"]); Ok (js "</a>") ])
      (js "your.email@example.com");
    Ok (js "
                    </p>
                    ");
    whenever (read personalInfo [js "phone"])
      (pieces
         [ Ok (js "<p class="); Ok dq; Ok (GetPortfolio.textColor themeStyles);
           Ok (js " mb-4"); Ok dq; Ok (js "><i class="); Ok dq;
           Ok (js "fas fa-phone mr-2"); Ok dq; Ok (js "></i>");
           shown (read personalInfo [js "phone"]); Ok (js "</p>") ])
      [];
    Ok (js "
                    <div class=");
    Ok dq; Ok (js "flex justify-center md:justify-start gap-4 mt-4"); Ok dq;
    Ok (js ">
                        ");
    whenever (read personalInfo [js "email"])
      (pieces
         [ Ok (js "
                            <a href=");
           Ok dq; Ok (js "mailto:"); shown (read personalInfo [js "email"]); Ok dq;
           Ok (js " class="); Ok dq; Ok (js "social-link ");
           Ok (GetPortfolio.socialBg themeStyles); Ok (js " hover:");
           Ok (GetPortfolio.socialHover themeStyles); Ok (js " transition-colors");
           Ok dq; Ok (js " title="); Ok dq; Ok (js "Email"); Ok dq;
           Ok (js ">
                                <i class=");
           Ok dq; Ok (js "fas fa-envelope text-xl"); Ok dq;
           Ok (js "></i>
                            </a>") ])
      [];
    Ok (js "
                        ");
    whenever (read personalInfo [js "linkedin"])
      (pieces
         [ Ok (js "
                            <a href=");
           Ok dq; shown (read personalInfo [js "linkedin"]); Ok dq; Ok (js " target=");
           Ok dq; Ok (js "_blank"); Ok dq; Ok (js " class="); Ok dq;
           Ok (js "social-link "); Ok (GetPortfolio.socialBg themeStyles);
           Ok (js " hover:"); Ok (GetPortfolio.socialHover themeStyles);
           Ok (js " transition-colors"); Ok dq; Ok (js " title="); Ok dq;
           Ok (js "LinkedIn"); Ok dq;
           Ok (js ">
                                <i class=");
           Ok dq; Ok (js "fab fa-linkedin text-xl"); Ok dq;
           Ok (js "></i>
                            </a>") ])
      [];
    Ok (js "
                        ");
    whenever (read personalInfo [js "github"])
      (pieces
         [ Ok (js "
                            <a href=");
           Ok dq; shown (read personalInfo [js "github"]); Ok dq; Ok (js " target=");
           Ok dq; Ok (js "_blank"); Ok dq; Ok (js " class="); Ok dq;
           Ok (js "social-link "); Ok (GetPortfolio.socialBg themeStyles);
           Ok (js " hover:"); Ok (GetPortfolio.socialHover themeStyles);
           Ok (js " transition-colors"); Ok dq; Ok (js " title="); Ok dq;
           Ok (js "GitHub"); Ok dq;
           Ok (js ">
                                <i class=");
           Ok dq; Ok (js "fab fa-github text-xl"); Ok dq;
           Ok (js "></i>
                            </a>") ])
      [];
    Ok (js "
                        ");
    whenever (read personalInfo [js "website"])
      (pieces
         [ Ok (js "
                            <a href=");
           Ok dq; shown (read personalInfo [js "website"]); Ok dq; Ok (js " target=");
           Ok dq; Ok (js "_blank"); Ok dq; Ok (js " class="); Ok dq;
           Ok (js "social-link "); Ok (GetPortfolio.socialBg themeStyles);
           Ok (js " hover:"); Ok (GetPortfolio.socialHover themeStyles);
           Ok (js " transition-colors"); Ok dq; Ok (js " title="); Ok dq;
           Ok (js "Website"); Ok dq;
           Ok (js ">
                                <i class=");
           Ok dq; Ok (js "fas fa-globe text-xl"); Ok dq;
           Ok (js "></i>
                            </a>") ])
      [];
    Ok (js "
                    </div>
                </div>
            </header>
            <div class=");
    Ok dq; Ok (js "grid md:grid-cols-3 gap-8"); Ok dq;
    Ok (js ">
                <div class=");
    Ok dq; Ok (js "md:col-span-2 space-y-8"); Ok dq;
    Ok (js ">
                    <section>
                        <h2 class=");
    Ok dq; Ok (js "text-2xl font-bold border-b-2 ");
    Ok (GetPortfolio.borderColor themeStyles); Ok (js " pb-2 mb-4"); Ok dq;
    Ok (js ">Professional Summary</h2>
                        <p class=");
    Ok dq; Ok (GetPortfolio.textColor themeStyles); Ok dq; Ok (js ">");
    orText (Ok summary) (js "No summary provided.");
    Ok (js "</p>
                    </section>
                    <section>
                         <h2 class=");
    Ok dq; Ok (js "text-2xl font-bold border-b-2 ");
    Ok (GetPortfolio.borderColor themeStyles); Ok (js " pb-2 mb-4"); Ok dq;
    Ok (js ">Work Experience</h2>
                         ");
    orDefaultOf
      (each (Ok experience)
      (fun job =>
        pieces
          [ Ok (js "
                            <div class=");
            Ok dq; Ok (js "mb-4"); Ok dq;
            Ok (js ">
                                <h4 class=");
            Ok dq; Ok (js "text-lg font-bold"); Ok dq; Ok (js ">");
            orText (read job [js "role"]) (js "Role"); Ok (js " at ");
            orText (read job [js "company"]) (js "Company");
            Ok (js "</h4>
                                <p class=");
            Ok dq; Ok (js "text-sm "); Ok (GetPortfolio.secondaryColor themeStyles);
            Ok (js " mb-1"); Ok dq; Ok (js ">"); orText (read job [js "dates"]) [];
            Ok (js "</p>
                                <ul class=");
            Ok dq; Ok (js "list-disc list-inside ");
            Ok (GetPortfolio.textColor themeStyles); Ok dq;
            Ok (js ">
                                    ");
            each (read job [js "description"])
              (fun d =>
                pieces
                  [ Ok (js "<li>"); shown (Ok d); Ok (js "</li>") ]);
            Ok (js "
                                </ul>
                            </div>
                         ") ]))
      (js "<p class=" ++ dq ++ js "text-gray-500" ++ dq ++ js ">No work experience listed.</p>");
    Ok (js "
                    </section>
                </div>
                <div class=");
    Ok dq; Ok (js "md:col-span-1 space-y-8"); Ok dq;
    Ok (js ">
                    <section>
                         <h2 class=");
    Ok dq; Ok (js "text-2xl font-bold border-b-2 ");
    Ok (GetPortfolio.borderColor themeStyles); Ok (js " pb-2 mb-4"); Ok dq;
    Ok (js ">Skills</h2>
                         <div class=");
    Ok dq; Ok (js "flex flex-wrap"); Ok dq;
    Ok (js ">
                            ");
    orDefaultOf
      (each (Ok skills)
      (fun skill =>
        pieces
          [ Ok (js "<span class="); Ok dq; Ok (GetPortfolio.skillBg themeStyles);
            Ok (js " "); Ok (GetPortfolio.skillText themeStyles);
            Ok (js " text-sm font-medium mr-2 mb-2 px-3 py-1 rounded-full"); Ok dq;
            Ok (js ">"); shown (Ok skill); Ok (js "</span>") ]))
      (js "<p class=" ++ dq ++ js "text-gray-500" ++ dq ++ js ">No skills listed.</p>");
    Ok (js "
                         </div>
                    </section>
                    <section>
                        <h2 class=");
    Ok dq; Ok (js "text-2xl font-bold border-b-2 ");
    Ok (GetPortfolio.borderColor themeStyles); Ok (js " pb-2 mb-4"); Ok dq;
    Ok (js ">Projects</h2>
                        ");
    orDefaultOf
      (each (Ok projects)
      (fun proj =>
        pieces
          [ Ok (js "
                            <div class=");
            Ok dq; Ok (GetPortfolio.cardBg themeStyles);
            Ok (js " p-4 rounded-lg mb-4 shadow"); Ok dq;
            Ok (js ">
                                <h4 class=");
            Ok dq; Ok (js "font-bold "); Ok (GetPortfolio.secondaryColor themeStyles);
            Ok dq; Ok (js ">"); orText (read proj [js "title"]) (js "Project Title");
            Ok (js "</h4>
                                <p class=");
            Ok dq; Ok (GetPortfolio.textColor themeStyles); Ok (js " text-sm mt-1");
            Ok dq; Ok (js ">"); orText (read proj [js "description"]) [];
            Ok (js "</p>
                                ");
            whenever (read proj [js "link"])
              (pieces
                 [ Ok (js "<a href="); Ok dq; shown (read proj [js "link"]); Ok dq;
                   Ok (js " target="); Ok dq; Ok (js "_blank"); Ok dq; Ok (js " class="); Ok dq;
                   Ok (js "text-blue-400 hover:underline text-sm mt-2 inline-block"); Ok dq;
                   Ok (js ">View Project &rarr;</a>") ])
              [];
            Ok (js "
                            </div>
                        ") ]))
      (js "<p class=" ++ dq ++ js "text-gray-500" ++ dq ++ js ">No projects listed.</p>");
    Ok (js "
                    </section>
                </div>
            </div>
            
            <!-- Add a footer with the portfolio URL -->
            <footer class=");
    Ok dq; Ok (js "mt-12 pt-6 border-t ");
    Ok (Str.replaceFirst (js "border-") (js "border-") (GetPortfolio.borderColor themeStyles));
    Ok (js " text-center "); Ok (GetPortfolio.textColor themeStyles);
    Ok (js " text-sm"); Ok dq;
    Ok (js ">
                <p>This portfolio was created with PortfolioForge AI</p>
                <p class=");
    Ok dq; Ok (js "mt-2"); Ok dq; Ok (js ">Shared via: "); Ok (text envURL);
    Ok (js "/shared/"); shown (read data [js "share_id"]);
    Ok (js "</p>
            </footer>
        </div>
    </body>
    </html>
  ") ].

(** [generatePortfolioHTML(data)], lines 48-178.  The second
    destructuring throws when [portfolio_data] is [undefined] or [null],
    the template when [personalInfo] is. *)
Definition generatePortfolioHTML (envURL : option jsstring) (data : value)
  : result jsstring :=
  andThen (member data (js "portfolio_data")) (fun portfolio_data =>
  andThen (member data (js "profile_picture_url")) (fun profile_picture_url =>
  andThen (member data (js "selected_theme")) (fun selected_theme =>
  andThen (member portfolio_data (js "personalInfo")) (fun personalInfo =>
  andThen (member portfolio_data (js "summary")) (fun summary =>
  andThen (member portfolio_data (js "skills")) (fun skills =>
  andThen (member portfolio_data (js "experience")) (fun experience =>
  andThen (member portfolio_data (js "projects")) (fun projects =>
  let themeStyles := GetPortfolio.getThemeStyles (themeName selected_theme) in
  template envURL data personalInfo summary skills experience projects
    profile_picture_url themeStyles)))))))).

(** [exports.handler], lines 9-46.  [query] is
    [event.queryStringParameters], absent on an event that carries none;
    [select shareId] is what the query of lines 14-18 resolves to, the
    pair of [data] and [error], or a rejection. *)
Definition handler (select : option jsstring -> result (value * value))
    (envURL : option jsstring) (query : option (option jsstring)) : Response :=
  match query with
  | None => {| status := 500; payload := HtmlOf GetPortfolio.serverErrorPage |}
  | Some shareId =>
      match select shareId with
      | Throw _ => {| status := 500; payload := HtmlOf GetPortfolio.serverErrorPage |}
      | Ok (data, error) =>
          if Val.truthy error || negb (Val.truthy data) then
            {| status := 404; payload := HtmlOf GetPortfolio.notFoundPage |}
          else
            match generatePortfolioHTML envURL data with
            | Ok html => {| status := 200; payload := HtmlOf html |}
            | Throw _ => {| status := 500; payload := HtmlOf GetPortfolio.serverErrorPage |}
            end
      end
  end.

End Engine.

End Stored.

(** ** The typed records as stored values

    A record typed as the data model types it, written as the value the
    store or the table holds for it: a field that is absent is
    [undefined]. *)

Module AsValue.

Definition ofText (o : option jsstring) : value :=
  match o with
  | Some s => VStr s
  | None => VUndefined
  end.

Definition ofSequence {A} (f : A -> value) (o : option (list A)) : value :=
  match o with
  | Some l => VArr (map f l) []
  | None => VUndefined
  end.

Definition ofPersonal (p : Personal.t) : value :=
  VObj [ (js "name", ofText (Personal.name p));
         (js "email", ofText (Personal.email p));
         (js "phone", ofText (Personal.phone p));
         (js "website", ofText (Personal.website p));
         (js "linkedin", ofText (Personal.linkedin p));
         (js "github", ofText (Personal.github p)) ].

Definition ofExperience (j : Experience.t) : value :=
  VObj [ (js "company", ofText (Experience.company j));
         (js "role", ofText (Experience.role j));
         (js "dates", ofText (Experience.dates j));
         (js "description", ofSequence VStr (Experience.description j)) ].

Definition ofProject (p : Project.t) : value :=
  VObj [ (js "title", ofText (Project.title p));
         (js "description", ofText (Project.description p));
         (js "link", ofText (Project.link p)) ].

Definition ofProfile (d : Profile) : value :=
  VObj [ (js "personalInfo",
          match personalInfo d with
          | Some info => ofPersonal info
          | None => VUndefined
          end);
         (js "summary", ofText (summary d));
         (js "skills", ofSequence VStr (skills d));
         (js "experience", ofSequence ofExperience (experience d));
         (js "projects", ofSequence ofProject (projects d)) ].

Definition ofPortfolio (p : Page.Portfolio) : value :=
  VObj [ (js "data", ofProfile (Page.data p));
         (js "theme", Themes.object (Page.theme p));
         (js "profilePictureUrl", ofText (Page.profilePictureUrl p)) ].

Definition ofRow (r : GetPortfolio.Row) : value :=
  VObj [ (js "share_id", ofText (GetPortfolio.share_id r));
         (js "portfolio_data", ofProfile (GetPortfolio.portfolio_data r));
         (js "profile_picture_url", ofText (GetPortfolio.profile_picture_url r));
         (js "selected_theme", ofText (GetPortfolio.selected_theme r)) ].

(** What the six reads of [personalInfo] find, for the typed record
    [info]. *)
Definition readsPersonal (v : value) (info : Personal.t) : Prop :=
  Stored.read v [js "name"] = Ok (ofText (Personal.name info))
  /\ Stored.read v [js "email"] = Ok (ofText (Personal.email info))
  /\ Stored.read v [js "phone"] = Ok (ofText (Personal.phone info))
  /\ Stored.read v [js "website"] = Ok (ofText (Personal.website info))
  /\ Stored.read v [js "linkedin"] = Ok (ofText (Personal.linkedin info))
  /\ Stored.read v [js "github"] = Ok (ofText (Personal.github info)).

End AsValue.

(** ** Concrete surroundings

    Instances of the external parties, for the examples. *)

Module Scenario.

(** A quoted JSON string. *)
Definition q (s : string) : jsstring := dq ++ js s ++ dq.

(** The model answers the successive calls with [l], then fails. *)
Definition replies (l : list reply) : nat -> reply :=
  fun n => nth n l (Fails (js "fetch failed")).

(** A table that stores every row and answers with the row. *)
Definition accepting : value -> jsstring + value := fun row => inr row.

(** pdf-parse on a file whose text layer is [t]. *)
Definition pdfWithText (t : jsstring) : jsstring -> result jsstring := fun _ => Ok t.

Definition pdfWithText' (t : jsstring) : bool -> jsstring -> result jsstring :=
  fun _ _ => Ok t.

Definition base64 : jsstring -> jsstring := fun _ => js "AAAA".

Definition engineMessage : error -> jsstring := fun _ => js "(engine message)".

(** A fresh process. *)
Definition start : World :=
  {| modelCalls := 0; portfolios := Store.empty; rows := [] |}.


(** A POST to generate-portfolio.js that uploads a file. *)
Definition postFile (bytes : jsstring) : GeneratePortfolio.Event :=
  {| GeneratePortfolio.httpMethod := VStr (js "POST");
     GeneratePortfolio.contentType := Some (js "multipart/form-data; boundary=x");
     GeneratePortfolio.isBase64Encoded := true;
     GeneratePortfolio.eventBody := bytes |}.

(** A profile with a name and nothing else. *)
Definition nameOnly : Profile :=
  {| personalInfo :=
       Some {| Personal.name := Some (js "Ada"); Personal.email := None;
               Personal.phone := None; Personal.website := None;
               Personal.linkedin := None; Personal.github := None |};
     summary := None; skills := None; experience := None; projects := None |}.

Definition storedNameOnly : Page.Portfolio :=
  {| Page.data := nameOnly; Page.theme := Themes.professionalBlue;
     Page.profilePictureUrl := Some (js "https://placehold.co/150x150/222/fff?text=A") |}.

Definition rowNameOnly : GetPortfolio.Row :=
  {| GetPortfolio.share_id := Some (js "0b0e7a2c-4f7e-4c1b-9a59-2f1d3c5e7a90");
     GetPortfolio.portfolio_data := nameOnly;
     GetPortfolio.profile_picture_url := None;
     GetPortfolio.selected_theme := Some (js "Professional Blue") |}.

(** An engine, for examples that show no number and no date. *)
Definition showNumber : number -> jsstring := fun _ => js "0".

Definition showDate : N -> jsstring := fun _ => js "Thu Jan 01 1970".

End Scenario.

(** * Properties *)

(** ** Strings *)

Lemma eqb_refl (a : jsstring) : Str.eqb a a = true.
Proof.
  induction a as [|c a IH]; simpl; [reflexivity|].
  now rewrite N.eqb_refl, IH.
Qed.

Lemma eqb_eq (a b : jsstring) : Str.eqb a b = true <-> a = b.
Proof.
  split; [|intros ->; apply eqb_refl].
  revert b; induction a as [|c a IH]; intros [|d b]; simpl; try discriminate; auto.
  intros H. apply andb_true_iff in H as [Hc Hab].
  apply N.eqb_eq in Hc. apply IH in Hab. congruence.
Qed.

Lemma eqb_neq (a b : jsstring) : Str.eqb a b = false <-> a <> b.
Proof.
  split.
  - intros H E. apply eqb_eq in E. congruence.
  - intros H. destruct (Str.eqb a b) eqn:E; [|reflexivity].
    apply eqb_eq in E. contradiction.
Qed.

Lemma startsWith_app (p s : jsstring) : Str.startsWith (p ++ s) p = true.
Proof.
  induction p as [|c p IH]; simpl; [reflexivity|].
  now rewrite N.eqb_refl, IH.
Qed.

Lemma startsWith_weaken (s t p : jsstring) :
  Str.startsWith s p = true -> Str.startsWith (s ++ t) p = true.
Proof.
  revert s; induction p as [|c p IH]; intros [|d s]; simpl; try discriminate; auto.
  intros H. apply andb_true_iff in H as [Hc Hp].
  now rewrite Hc, (IH _ Hp).
Qed.

Lemma includes_app_l (s t sub : jsstring) :
  Str.includes s sub = true -> Str.includes (s ++ t) sub = true.
Proof.
  induction s as [|c s IH]; simpl.
  - rewrite orb_false_r. intros H.
    destruct sub; [destruct t; reflexivity | discriminate].
  - intros H. apply orb_true_iff in H as [H|H].
    + change (c :: s ++ t) with ((c :: s) ++ t).
      now rewrite (startsWith_weaken _ t _ H).
    + rewrite (IH H). apply orb_true_r.
Qed.

Lemma includes_app_r (s t sub : jsstring) :
  Str.includes t sub = true -> Str.includes (s ++ t) sub = true.
Proof.
  intros H. induction s as [|c s IH]; simpl; [exact H|].
  rewrite IH. apply orb_true_r.
Qed.

Lemma includes_concat_here (x : jsstring) (l : list jsstring) (sub : jsstring) :
  Str.includes x sub = true -> Str.includes (concat (x :: l)) sub = true.
Proof. intros H. simpl. now apply includes_app_l. Qed.

Lemma includes_concat_later (x : jsstring) (l : list jsstring) (sub : jsstring) :
  Str.includes (concat l) sub = true -> Str.includes (concat (x :: l)) sub = true.
Proof. intros H. simpl. now apply includes_app_r. Qed.

Lemma trimStart_app_nonspace (s : jsstring) (c : N) (t : jsstring) :
  forallb Str.isWhiteSpace s = true -> Str.isWhiteSpace c = false ->
  Str.trimStart (s ++ c :: t) = c :: t.
Proof.
  intros Hs Hc. induction s as [|d s IH]; simpl in *.
  - now rewrite Hc.
  - apply andb_true_iff in Hs as [Hd Hs]. rewrite Hd. auto.
Qed.

Lemma trimEnd_app_nonspace (t : jsstring) (c : N) (s : jsstring) :
  forallb Str.isWhiteSpace s = true -> Str.isWhiteSpace c = false ->
  Str.trimEnd (t ++ c :: s) = t ++ [c].
Proof.
  intros Hs Hc. unfold Str.trimEnd.
  rewrite rev_app_distr. simpl. rewrite <- app_assoc. simpl.
  rewrite trimStart_app_nonspace; auto.
  - simpl. now rewrite rev_involutive.
  - rewrite forallb_forall in *. intros x Hx. apply Hs. now apply in_rev.
Qed.

Lemma trim_empty_iff_blank (s : jsstring) :
  Str.trim s = [] <-> forallb Str.isWhiteSpace s = true.
Proof.
  unfold Str.trim, Str.trimEnd. split.
  - intros H. induction s as [|c s IH]; [reflexivity|].
    simpl in *. destruct (Str.isWhiteSpace c) eqn:Hc; [auto|].
    exfalso. destruct (rev (c :: s)) eqn:Hr.
    + apply (f_equal (@rev N)) in Hr. rewrite rev_involutive in Hr. discriminate.
    + assert (Hin : In c (n :: l)) by (rewrite <- Hr; apply -> in_rev; now left).
      clear Hr. revert H Hin. generalize (n :: l). intros l0.
      induction l0 as [|d l0 IHl]; simpl; [tauto|].
      destruct (Str.isWhiteSpace d) eqn:Hd.
      * intros H [->|Hin]; [congruence|auto].
      * intros H _. apply (f_equal (@length N)) in H.
        rewrite length_rev in H. discriminate.
  - intros H. induction s as [|c s IH]; [reflexivity|].
    simpl in *. apply andb_true_iff in H as [Hc Hs]. rewrite Hc. auto.
Qed.

(** ** JSON.parse, by example *)

Example parse_object :
  Json.parse (js "{" ++ Scenario.q "skills" ++ js ": [" ++ Scenario.q "Go" ++ js ", null, -1.5e2], "
              ++ Scenario.q "skills" ++ js ": []}")
  = Ok (VObj [(js "skills", VArr [] [])]).
Proof. vm_compute. reflexivity. Qed.

Example parse_escapes :
  Json.parse (dq ++ js "a\u0041\n" ++ dq) = Ok (VStr [97; 65; 10]).
Proof. vm_compute. reflexivity. Qed.

Example parse_rejects :
  Json.parse (js "[1,]") = Throw SyntaxError
  /\ Json.parse (js "01") = Throw SyntaxError
  /\ Json.parse (js "{} x") = Throw SyntaxError
  /\ Json.parse [] = Throw SyntaxError
  /\ Json.parse (js "{name: 1}") = Throw SyntaxError.
Proof. repeat split; vm_compute; reflexivity. Qed.

(** ** The Username Normalizer *)

Lemma convert_string_total (platform u : jsstring) :
  exists url, Server.convertUsernameToUrl platform (VStr u) = Ok url.
Proof.
  unfold Server.convertUsernameToUrl. simpl.
  destruct u; simpl; [eauto|].
  repeat match goal with |- context [if ?b then _ else _] => destruct b end; eauto.
Qed.

Lemma convert_string (platform s : jsstring) :
  s <> [] ->
  Server.convertUsernameToUrl platform (VStr s)
  = Ok (if Str.startsWith s (js "http://") || Str.startsWith s (js "https://")
        then s
        else if Str.eqb platform (js "linkedin")
        then js "https://linkedin.com/in/" ++ s
        else if Str.eqb platform (js "github")
        then js "https://github.com/" ++ s
        else s).
Proof.
  intros H. destruct s as [|c s]; [contradiction|].
  unfold Server.convertUsernameToUrl.
  change (negb (Val.truthy (VStr (c :: s)))) with false. cbv iota.
  repeat match goal with |- context [if ?b then _ else _] => destruct b end;
    reflexivity.
Qed.

(** C7.  The Username Normalizer is idempotent: whatever it returns, for
    any platform tag and any value, it returns again when given that
    result; it does return on every string; and
    [convertUsernameToUrl("github", "octocat")] is
    ["https://github.com/octocat"], which it leaves unchanged. *)
Theorem convertUsernameToUrl_idempotent :
  (forall (platform : jsstring) (username : value) (url : jsstring),
      Server.convertUsernameToUrl platform username = Ok url ->
      Server.convertUsernameToUrl platform (VStr url) = Ok url)
  /\ (forall platform u : jsstring,
         exists url, Server.convertUsernameToUrl platform (VStr u) = Ok url)
  /\ Server.convertUsernameToUrl (js "github") (VStr (js "octocat"))
     = Ok (js "https://github.com/octocat")
  /\ Server.convertUsernameToUrl (js "github") (VStr (js "https://github.com/octocat"))
     = Ok (js "https://github.com/octocat").
Proof.
  split; [|split; [apply convert_string_total | split; reflexivity]].
  intros platform username url.
  destruct username as [| |b|n|s|? ?|?|?|?];
    try (intros [= <-]; reflexivity); try discriminate.
  - unfold Server.convertUsernameToUrl. destruct (Val.truthy (VBool b)); simpl;
      [discriminate | intros [= <-]; reflexivity].
  - unfold Server.convertUsernameToUrl. destruct (Val.truthy (VNum n)); simpl;
      [discriminate | intros [= <-]; reflexivity].
  - destruct s as [|c u]; [intros [= <-]; reflexivity|].
    rewrite convert_string by discriminate.
    destruct (Str.startsWith (c :: u) (js "http://")
              || Str.startsWith (c :: u) (js "https://")) eqn:Hp.
    + intros [= <-]. rewrite convert_string by discriminate. now rewrite Hp.
    + destruct (Str.eqb platform (js "linkedin")) eqn:Hl;
        [intros [= <-]; reflexivity|].
      destruct (Str.eqb platform (js "github")) eqn:Hg;
        [intros [= <-]; reflexivity|].
      intros [= <-]. rewrite convert_string by discriminate.
      now rewrite Hp, Hl, Hg.
Qed.

Lemma convertUsernameToUrl_idempotent_witness :
  Server.convertUsernameToUrl (js "github") (VStr (js "octocat"))
  = Ok (js "https://github.com/octocat")
  /\ Server.convertUsernameToUrl (js "github") (VStr (js "https://github.com/octocat"))
     = Ok (js "https://github.com/octocat").
Proof.
  split; [reflexivity|].
  apply (proj1 convertUsernameToUrl_idempotent (js "github") (VStr (js "octocat"))).
  reflexivity.
Defined.

(** C8, as stated, fails.  The normalizer has a failure mode: a truthy
    value that is not a string (a number, [true]) has no [startsWith], so
    the call raises a TypeError; the routes pass it whatever the request
    or the model put in [linkedin] and [github], and a manual request
    whose LinkedIn field is the number 5 is answered 500 and stores
    nothing. *)
Lemma convertUsernameToUrl_claim_fails :
  Server.convertUsernameToUrl (js "github")
    (VNum {| negative := false; digits := 5; exp10 := 0 |}) = Throw TypeError
  /\ Server.convertUsernameToUrl (js "linkedin") (VBool true) = Throw TypeError
  /\ Server.createManualPortfolio Scenario.base64
       (VObj [ (js "portfolioData",
                VObj [(js "personalInfo",
                       VObj [(js "linkedin",
                              VNum {| negative := false; digits := 5; exp10 := 0 |})])]);
               (js "theme", Themes.object Themes.dataGreen) ])
       None (js "id") 7 Scenario.start
     = (Ok {| status := 500;
              payload := errorJson (js "An unexpected error occurred while creating the portfolio. Please try again.") |},
        Scenario.start).
Proof. repeat split; vm_compute; reflexivity. Qed.

(** C8, amended.  For the platform tags [linkedin] and [github] the
    normalizer returns a string that starts with [http://] or [https://]
    unchanged and otherwise appends it to the platform's profile URL
    prefix.  It returns on every string, and the empty string for every
    falsy value (the empty string, [undefined], [null], [false], zero);
    on every other value, a truthy one that is not a string, it raises a
    TypeError. *)
Theorem convertUsernameToUrl_spec (u : jsstring) :
  (Str.startsWith u (js "http://") = true \/ Str.startsWith u (js "https://") = true ->
   Server.convertUsernameToUrl (js "linkedin") (VStr u) = Ok u
   /\ Server.convertUsernameToUrl (js "github") (VStr u) = Ok u)
  /\ (u <> [] ->
      Str.startsWith u (js "http://") = false ->
      Str.startsWith u (js "https://") = false ->
      Server.convertUsernameToUrl (js "linkedin") (VStr u)
      = Ok (js "https://linkedin.com/in/" ++ u)
      /\ Server.convertUsernameToUrl (js "github") (VStr u)
         = Ok (js "https://github.com/" ++ u))
  /\ (forall platform : jsstring,
         (exists url, Server.convertUsernameToUrl platform (VStr u) = Ok url)
         /\ Server.convertUsernameToUrl platform (VStr []) = Ok []
         /\ Server.convertUsernameToUrl platform VUndefined = Ok []
         /\ Server.convertUsernameToUrl platform VNull = Ok [])
  /\ (forall (platform : jsstring) (v : value),
         Val.truthy v = false -> Server.convertUsernameToUrl platform v = Ok [])
  /\ (forall (platform : jsstring) (v : value),
         Val.truthy v = true -> (forall s, v <> VStr s) ->
         Server.convertUsernameToUrl platform v = Throw TypeError).
Proof.
  split; [|split; [|split; [|split]]].
  - intros H.
    assert (Hu : u <> []) by (destruct u; [destruct H; discriminate | discriminate]).
    assert (Hp : Str.startsWith u (js "http://") || Str.startsWith u (js "https://") = true)
      by (apply orb_true_iff; exact H).
    split; rewrite convert_string by exact Hu; now rewrite Hp.
  - intros Hne H1 H2.
    split; rewrite convert_string by exact Hne; now rewrite H1, H2.
  - intros platform. split; [apply convert_string_total | repeat split].
  - intros platform v Hv. unfold Server.convertUsernameToUrl. now rewrite Hv.
  - intros platform v Hv Hs. unfold Server.convertUsernameToUrl. rewrite Hv. cbn [negb].
    destruct v; try reflexivity. now destruct (Hs s).
Qed.

Lemma convertUsernameToUrl_spec_witness :
  Server.convertUsernameToUrl (js "linkedin") (VStr (js "http://x.org/me"))
  = Ok (js "http://x.org/me")
  /\ Server.convertUsernameToUrl (js "linkedin") (VStr (js "johndoe"))
     = Ok (js "https://linkedin.com/in/johndoe")
  /\ Server.convertUsernameToUrl (js "linkedin") (VBool false) = Ok []
  /\ Server.convertUsernameToUrl (js "linkedin") (VObj []) = Throw TypeError.
Proof.
  split; [|split; [|split]].
  - apply (proj1 (convertUsernameToUrl_spec (js "http://x.org/me"))).
    left. reflexivity.
  - apply (proj1 (proj2 (convertUsernameToUrl_spec (js "johndoe")))).
    + discriminate.
    + reflexivity.
    + reflexivity.
  - apply (proj1 (proj2 (proj2 (proj2 (convertUsernameToUrl_spec [])))) (js "linkedin")).
    reflexivity.
  - apply (proj2 (proj2 (proj2 (proj2 (convertUsernameToUrl_spec [])))) (js "linkedin")).
    + reflexivity.
    + discriminate.
Defined.

(** ** Stepping through a handler

    [crunch] splits on every test and every external answer a handler
    meets, innermost first. *)

Ltac inner_destruct :=
  match goal with
  | |- context [match ?x with _ => _ end] =>
      lazymatch x with
      | context [match _ with _ => _ end] => fail
      | _ => destruct x eqn:?
      end
  end.

Ltac crunch :=
  repeat (cbn beta iota zeta delta [fst snd] in *;
          first [ inner_destruct
                | match goal with
                  | H : (_, _) = (_, _) |- _ => inversion H; subst; clear H
                  end ]).

(** ** Theme lookup *)

Lemma eqb_sym (a b : jsstring) : Str.eqb a b = Str.eqb b a.
Proof.
  destruct (Str.eqb b a) eqn:E.
  - apply eqb_eq in E. subst. apply eqb_refl.
  - apply eqb_neq. apply eqb_neq in E. congruence.
Qed.


(** Reading back the property an assignment wrote: the value assigned, or
    [undefined] when the target is a primitive and the assignment was
    ignored. *)
Lemma own_assign (props : list (jsstring * value)) (k : jsstring) (x : value) :
  Val.own (Val.assign props k x) k = Some x.
Proof.
  induction props as [|[k' v] props IH]; simpl.
  - now rewrite eqb_refl.
  - destruct (Str.eqb k' k) eqn:E; simpl; now rewrite E.
Qed.






(** ** The resume extractor *)

(** The Netlify extractor does what its [catch] block says: any failure
    inside the [try] becomes the one error, after a single call to the
    model. *)
Lemma netlify_extractor_malformed gen resumeText w text e :
  Conv.interpolate resumeText = Ok tt ->
  gen (modelCalls w) = Text text ->
  Server.parseModelText text = Throw e ->
  Netlify.parseResumeWithAI gen resumeText w
  = (Throw (Error (js "AI model returned an invalid JSON format.")),
     {| modelCalls := S (modelCalls w); portfolios := portfolios w; rows := rows w |}).
Proof.
  intros Hi Hg Hp.
  unfold Netlify.parseResumeWithAI, tryCatch, bind, lift, throw, callModel.
  now rewrite Hi, Hg, Hp.
Qed.

(** What leaves [parseResumeWithAI] of server.js when the [try] block
    throws after the model has answered. *)
Lemma server_extractor_catch gen resumeText w text e :
  gen (modelCalls w) = Text text ->
  Server.parseModelText text = Throw e ->
  Server.parseResumeWithAI gen resumeText w
  = (Throw (ReferenceError (js "response")),
     {| modelCalls := S (modelCalls w); portfolios := portfolios w; rows := rows w |}).
Proof.
  intros Hg Hp.
  unfold Server.parseResumeWithAI, tryCatch, bind, lift, throw, callModel.
  now rewrite Hg, Hp.
Qed.

(** C3, on server.js.  When the text of the model's response does not
    parse, [parseResumeWithAI] of server.js does not fail with the error
    "AI model returned an invalid JSON format.": its [catch] block first
    logs [response.text()], and [response], a [const] of the [try] block,
    is out of scope there, so a ReferenceError is what leaves the function.
    The model has been called once. *)
Theorem server_extractor_throws_ReferenceError gen resumeText w text e :
  gen (modelCalls w) = Text text ->
  Server.parseModelText text = Throw e ->
  fst (Server.parseResumeWithAI gen resumeText w) = Throw (ReferenceError (js "response"))
  /\ fst (Server.parseResumeWithAI gen resumeText w)
     <> Throw (Error (js "AI model returned an invalid JSON format."))
  /\ modelCalls (snd (Server.parseResumeWithAI gen resumeText w)) = S (modelCalls w).
Proof.
  intros Hg Hp. rewrite (server_extractor_catch _ _ _ _ _ Hg Hp).
  repeat split. discriminate.
Qed.

Lemma server_extractor_throws_ReferenceError_witness :
  fst (Server.parseResumeWithAI (Scenario.replies [Text (js "I cannot help with that.")])
         (js "cv") Scenario.start)
  = Throw (ReferenceError (js "response")).
Proof.
  apply (server_extractor_throws_ReferenceError
           (Scenario.replies [Text (js "I cannot help with that.")])
           (js "cv") Scenario.start (js "I cannot help with that.") SyntaxError);
    reflexivity.
Defined.

(** The request is aborted all the same: the handler of server.js answers
    500 and stores nothing. *)
Lemma server_handler_aborts_on_malformed gen pdf b64 file photo id now w text resumeText e :
  pdf (Server.buffer file) = Ok resumeText ->
  Str.trim resumeText <> [] ->
  gen (modelCalls w) = Text text ->
  Server.parseModelText text = Throw e ->
  Server.generateFromResume gen pdf b64 (Some file) photo id now w
  = (Ok {| status := 500;
           payload := errorJson (js "An unexpected error occurred while generating the portfolio. Please try again.") |},
     {| modelCalls := S (modelCalls w); portfolios := portfolios w; rows := rows w |}).
Proof.
  intros Hpdf Ht Hg Hp.
  unfold Server.generateFromResume, tryCatch, bind. unfold lift at 1. rewrite Hpdf.
  destruct (Str.trim resumeText) eqn:E; [contradiction|].
  unfold bind. rewrite (server_extractor_catch _ _ _ _ _ Hg Hp).
  reflexivity.
Qed.

(** ** The profession classifier *)

(** server.js swallows a failed model call: once the prompt is built, the
    classifier returns the Default theme. *)
Lemma server_classifier_swallows gen parsedData w m skills summary :
  Val.get parsedData (js "skills") = Ok skills ->
  Val.get parsedData (js "summary") = Ok summary ->
  Conv.toStringThrows summary = false ->
  Conv.toStringThrows skills = false ->
  gen (modelCalls w) = Fails m ->
  fst (Server.classifyProfessionAndSelectTheme gen parsedData w)
  = Ok (Themes.object Themes.professionalBlue).
Proof.
  intros Hsk Hsu Hts Htk Hg.
  unfold Server.classifyProfessionAndSelectTheme, tryCatch, bind, lift, ret, callModel,
    Conv.interpolate.
  rewrite Hsk, Hsu, Hg.
  assert (H1 : Conv.toStringThrows (if Val.truthy summary then summary else VStr []) = false)
    by (destruct (Val.truthy summary); [exact Hts | reflexivity]).
  assert (H2 : Conv.toStringThrows (if Val.isArray skills then skills else VArr [] []) = false)
    by (destruct (Val.isArray skills); [exact Htk | reflexivity]).
  now rewrite H1, H2.
Qed.

(** C2, on the Netlify generate function.  When the call to the model
    fails, the classifier does not return the Default theme: its [catch]
    block names [themes], a [const] of the [try] block, outside its scope,
    and the ReferenceError leaves the function (or a TypeError did, while
    the prompt was built). *)
Theorem netlify_classifier_failure_escapes gen parsedData w m :
  gen (modelCalls w) = Fails m ->
  exists e,
    fst (Netlify.classifyProfessionAndSelectTheme gen parsedData w) = Throw e
    /\ (e = TypeError \/ e = ReferenceError (js "themes")).
Proof.
  intros Hg.
  unfold Netlify.classifyProfessionAndSelectTheme, tryCatch, bind, lift, ret, callModel,
    Conv.interpolate.
  destruct (Val.get parsedData (js "skills")) as [skills|e1] eqn:Hsk.
  2:{ destruct parsedData; try discriminate; inversion Hsk; subst; eauto. }
  destruct (Val.get parsedData (js "summary")) as [summary|e2] eqn:Hsu.
  2:{ destruct parsedData; try discriminate; inversion Hsu; subst; eauto. }
  destruct (Conv.toStringThrows (if Val.truthy summary then summary else VStr []));
    [eauto|].
  destruct (Conv.toStringThrows (if Val.isArray skills then skills else VArr [] []));
    [eauto|].
  rewrite Hg. cbn. eauto.
Qed.

Lemma netlify_classifier_failure_escapes_witness :
  exists e,
    fst (Netlify.classifyProfessionAndSelectTheme (Scenario.replies []) (VObj [])
           Scenario.start) = Throw e
    /\ (e = TypeError \/ e = ReferenceError (js "themes")).
Proof.
  apply (netlify_classifier_failure_escapes (Scenario.replies []) (VObj [])
           Scenario.start (js "fetch failed")).
  reflexivity.
Defined.

(** The same request through the handler: the extraction succeeds, the
    classification call fails, the function answers 500 and no row is
    written. *)
Lemma netlify_handler_fails_on_classifier_failure :
  Netlify.handler (Scenario.replies [Text (js "{}")]) Scenario.accepting
    {| Netlify.method := VStr (js "POST");
       Netlify.eventBody :=
         js "{" ++ Scenario.q "type" ++ js ":" ++ Scenario.q "ai" ++ js ","
         ++ Scenario.q "resumeText" ++ js ":" ++ Scenario.q "cv" ++ js "}" |}
    (js "id") Scenario.start
  = (Ok {| status := 500; payload := errorJson (js "Internal server error") |},
     {| modelCalls := 2; portfolios := Store.empty; rows := [] |}).
Proof. vm_compute. reflexivity. Qed.

(** ** Parsing the model's response *)

Lemma firstMatch_plain (pats : list jsstring) (c : N) (s : jsstring) :
  Forall (fun p => exists p', p = 96 :: p') pats ->
  (c =? 96) = false ->
  Str.firstMatch pats (c :: s) = None.
Proof.
  intros Hp Hc. induction Hp as [|p pats [p' ->] _ IH]; [reflexivity|].
  cbn -[N.eqb]. rewrite (N.eqb_sym 96 c), Hc. exact IH.
Qed.

(** Deleting fence markers leaves text without backticks alone. *)
Lemma removeAllFrom_plain (pats : list jsstring) (s t : jsstring) :
  Forall (fun p => exists p', p = 96 :: p') pats ->
  Str.lacks 96 s = true ->
  Str.removeAllFrom pats O (s ++ t) = s ++ Str.removeAllFrom pats O t.
Proof.
  intros Hp. induction s as [|c s IH]; [reflexivity|].
  simpl. intros H. apply andb_true_iff in H as [Hc Hs].
  apply negb_true_iff in Hc.
  rewrite (firstMatch_plain pats c (s ++ t) Hp Hc). now rewrite IH.
Qed.

Lemma removeAll_plain (pats : list jsstring) (s : jsstring) :
  Forall (fun p => exists p', p = 96 :: p') pats ->
  Str.lacks 96 s = true ->
  Str.removeAll pats s = s.
Proof.
  intros Hp Hs. unfold Str.removeAll.
  rewrite <- (app_nil_r s) at 1. rewrite removeAllFrom_plain by assumption.
  simpl. apply app_nil_r.
Qed.

Lemma lacks_app (c : N) (s t : jsstring) :
  Str.lacks c (s ++ t) = Str.lacks c s && Str.lacks c t.
Proof. unfold Str.lacks. apply forallb_app. Qed.

Lemma lacks_rev (c : N) (s : jsstring) : Str.lacks c (rev s) = Str.lacks c s.
Proof.
  induction s as [|d s IH]; [reflexivity|].
  simpl. rewrite lacks_app, IH. simpl. rewrite andb_true_r. apply andb_comm.
Qed.

Lemma trimStart_stop (a : jsstring) (c : N) (b : jsstring) :
  Str.isWhiteSpace c = false ->
  Str.trimStart (a ++ c :: b) = Str.trimStart a ++ c :: b.
Proof.
  intros Hc. induction a as [|d a IH]; simpl.
  - now rewrite Hc.
  - destruct (Str.isWhiteSpace d); [exact IH | reflexivity].
Qed.

Lemma trimEnd_stop (t : jsstring) (c : N) (s : jsstring) :
  Str.isWhiteSpace c = false ->
  Str.trimEnd (t ++ c :: s) = t ++ c :: Str.trimEnd s.
Proof.
  intros Hc. unfold Str.trimEnd.
  rewrite rev_app_distr. simpl. rewrite <- app_assoc. simpl.
  rewrite trimStart_stop by exact Hc.
  rewrite rev_app_distr. simpl. rewrite rev_involutive, <- app_assoc. reflexivity.
Qed.

Lemma trimStart_lacks (c : N) (s : jsstring) :
  Str.lacks c s = true -> Str.lacks c (Str.trimStart s) = true.
Proof.
  induction s as [|d s IH]; [reflexivity|].
  intros H. simpl. destruct (Str.isWhiteSpace d); [|exact H].
  simpl in H. apply andb_true_iff in H as [_ H]. auto.
Qed.

Lemma trimEnd_lacks (c : N) (s : jsstring) :
  Str.lacks c s = true -> Str.lacks c (Str.trimEnd s) = true.
Proof.
  intros H. unfold Str.trimEnd. rewrite lacks_rev. apply trimStart_lacks.
  now rewrite lacks_rev.
Qed.

Lemma dropUntil_lacks (c : N) (a b : jsstring) :
  Str.lacks c a = true -> Str.dropUntil c (a ++ c :: b) = c :: b.
Proof.
  induction a as [|d a IH]; simpl.
  - now rewrite N.eqb_refl.
  - intros H. apply andb_true_iff in H as [Hd Ha].
    apply negb_true_iff in Hd. rewrite Hd. auto.
Qed.

(** The span of the brace pattern: from the first opening brace through
    the last closing one. *)
Lemma matchBraces_span (pre mid post : jsstring) :
  Str.lacks 123 pre = true ->
  Str.lacks 125 post = true ->
  Str.matchBraces (pre ++ 123 :: mid ++ 125 :: post) = Some (123 :: mid ++ [125]).
Proof.
  intros Hpre Hpost. unfold Str.matchBraces.
  rewrite dropUntil_lacks by exact Hpre.
  assert (E : rev (Str.dropUntil 125 (rev (123 :: mid ++ 125 :: post)))
              = 123 :: mid ++ [125]).
  { change (123 :: mid ++ 125 :: post) with ((123 :: mid) ++ 125 :: post).
    rewrite rev_app_distr. simpl rev at 1. rewrite <- app_assoc. simpl app at 2.
    rewrite dropUntil_lacks by (now rewrite lacks_rev).
    simpl. rewrite rev_app_distr. simpl. now rewrite rev_involutive. }
  rewrite E. reflexivity.
Qed.

Ltac backticks := repeat constructor; eexists; vm_compute; reflexivity.

Lemma removeAllFrom_skip (pats : list jsstring) (a s : jsstring) :
  Str.removeAllFrom pats (length a) (a ++ s) = Str.removeAllFrom pats O s.
Proof. induction a as [|c a IH]; [reflexivity | exact IH]. Qed.

(** A marker at the head of the text is deleted. *)
Lemma removeAllFrom_match (pats : list jsstring) (p s : jsstring) :
  p <> [] ->
  Str.firstMatch pats (p ++ s) = Some p ->
  Str.removeAllFrom pats O (p ++ s) = Str.removeAllFrom pats O s.
Proof.
  destruct p as [|c p]; [congruence|]. intros _ H.
  change (Str.removeAllFrom pats O ((c :: p) ++ s))
    with (match Str.firstMatch pats ((c :: p) ++ s) with
          | Some q => Str.removeAllFrom pats (Nat.pred (length q)) (p ++ s)
          | None => c :: Str.removeAllFrom pats O (p ++ s)
          end).
  rewrite H. apply removeAllFrom_skip.
Qed.

Lemma firstMatch_head (p : jsstring) (ps : list jsstring) (s : jsstring) :
  Str.firstMatch (p :: ps) (p ++ s) = Some p.
Proof. simpl. now rewrite startsWith_app. Qed.

Lemma trim_between (a m b : jsstring) (c d : N) :
  forallb Str.isWhiteSpace a = true -> forallb Str.isWhiteSpace b = true ->
  Str.isWhiteSpace c = false -> Str.isWhiteSpace d = false ->
  Str.trim (a ++ c :: m ++ d :: b) = c :: m ++ [d].
Proof.
  intros Ha Hb Hc Hd. unfold Str.trim.
  rewrite trimStart_app_nonspace by assumption.
  change (c :: m ++ d :: b) with ((c :: m) ++ d :: b).
  rewrite trimEnd_app_nonspace by assumption. reflexivity.
Qed.

Lemma whitespace_lacks_backtick (a : jsstring) :
  forallb Str.isWhiteSpace a = true -> Str.lacks 96 a = true.
Proof.
  induction a as [|c a IH]; [reflexivity|].
  cbn [forallb]. intros H. apply andb_true_iff in H as [Hc Ha].
  unfold Str.lacks. cbn [forallb]. fold (Str.lacks 96 a). rewrite (IH Ha), andb_true_r.
  destruct (N.eqb_spec c 96) as [->|_]; [discriminate | reflexivity].
Qed.

(** A JSON object in a [```json] fence, with blank text between the fence
    and the object: the fence is deleted and the object is what JSON.parse
    reads. *)
Lemma server_fenced_object (a mid b : jsstring) :
  forallb Str.isWhiteSpace a = true -> forallb Str.isWhiteSpace b = true ->
  Str.lacks 96 mid = true ->
  Server.cleanJsonText (js "```json" ++ a ++ 123 :: mid ++ 125 :: b ++ js "```")
  = 123 :: mid ++ [125].
Proof.
  intros Ha Hb H. unfold Server.cleanJsonText, Str.removeAll.
  assert (Hplain : Str.lacks 96 (a ++ 123 :: mid ++ 125 :: b) = true).
  { change (123 :: mid ++ 125 :: b) with ([123] ++ mid ++ [125] ++ b).
    rewrite !lacks_app, H, (whitespace_lacks_backtick a Ha),
      (whitespace_lacks_backtick b Hb). reflexivity. }
  rewrite removeAllFrom_match
    by (first [discriminate | apply firstMatch_head]).
  replace (a ++ 123 :: mid ++ 125 :: b ++ js "```")
    with ((a ++ 123 :: mid ++ 125 :: b) ++ js "```")
    by (rewrite <- !app_assoc; cbn [app]; now rewrite <- app_assoc).
  rewrite removeAllFrom_plain by (backticks || exact Hplain).
  replace (Str.removeAllFrom [js "```json"] 0 (js "```"))
    with (js "```") by (vm_compute; reflexivity).
  rewrite removeAllFrom_plain by (backticks || exact Hplain).
  replace (Str.removeAllFrom [js "```"] 0 (js "```"))
    with (@nil N) by (vm_compute; reflexivity).
  rewrite app_nil_r, trim_between by (assumption || reflexivity).
  reflexivity.
Qed.

(** The same in generate-portfolio.js, whose pattern deletes the opening
    fence together with the line break after it. *)
Lemma generate_fenced_object (a mid b : jsstring) :
  forallb Str.isWhiteSpace a = true -> forallb Str.isWhiteSpace b = true ->
  Str.lacks 96 mid = true ->
  GeneratePortfolio.cleanedJsonString
    (js "```json" ++ 10 :: a ++ 123 :: mid ++ 125 :: b ++ js "```")
  = 123 :: mid ++ [125].
Proof.
  intros Ha Hb H. unfold GeneratePortfolio.cleanedJsonString, Str.removeAll.
  assert (Hplain : Str.lacks 96 (a ++ 123 :: mid ++ 125 :: b) = true).
  { change (123 :: mid ++ 125 :: b) with ([123] ++ mid ++ [125] ++ b).
    rewrite !lacks_app, H, (whitespace_lacks_backtick a Ha),
      (whitespace_lacks_backtick b Hb). reflexivity. }
  replace (js "```json" ++ 10 :: a ++ 123 :: mid ++ 125 :: b ++ js "```")
    with ((js "```json" ++ [10]) ++ (a ++ 123 :: mid ++ 125 :: b) ++ js "```")
    by (rewrite <- !app_assoc; cbn [app]; now rewrite <- app_assoc).
  rewrite removeAllFrom_match
    by (first [discriminate | apply firstMatch_head]).
  rewrite removeAllFrom_plain by (backticks || exact Hplain).
  replace (Str.removeAllFrom [js "```json" ++ [10]; js "```"] 0 (js "```"))
    with (@nil N) by (vm_compute; reflexivity).
  rewrite app_nil_r, trim_between by (assumption || reflexivity).
  reflexivity.
Qed.

Lemma trimStart_app_keep (a b : jsstring) :
  Str.trimStart a <> [] -> Str.trimStart (a ++ b) = Str.trimStart a ++ b.
Proof.
  induction a as [|c a IH]; simpl; [congruence|].
  destruct (Str.isWhiteSpace c); [exact IH | reflexivity].
Qed.

Lemma startsWith_brace_lacks (s t : jsstring) :
  s <> [] -> Str.lacks 123 s = true -> Str.startsWith (s ++ t) (js "{") = false.
Proof.
  destruct s as [|c s]; [congruence|]. intros _ H.
  apply andb_true_iff in H as [H _]. apply negb_true_iff in H.
  change (Str.startsWith ((c :: s) ++ t) (js "{")) with ((123 =? c) && true).
  now rewrite (N.eqb_sym 123 c), H.
Qed.

(** A JSON object inside prose: after prose that has a visible character
    and no opening brace, before prose that has no closing brace, the
    object is what JSON.parse reads. *)
Lemma server_embedded_object (pre mid post : jsstring) :
  Str.lacks 96 pre = true -> Str.lacks 96 mid = true -> Str.lacks 96 post = true ->
  Str.lacks 123 pre = true -> Str.trimStart pre <> [] ->
  Str.lacks 125 post = true ->
  Server.cleanJsonText (pre ++ 123 :: mid ++ 125 :: post) = 123 :: mid ++ [125].
Proof.
  intros Hb1 Hb2 Hb3 Hpre Hvis Hpost. unfold Server.cleanJsonText.
  assert (Hplain : Str.lacks 96 (pre ++ 123 :: mid ++ 125 :: post) = true).
  { rewrite lacks_app, Hb1.
    change (123 :: mid ++ 125 :: post) with ([123] ++ mid ++ [125] ++ post).
    rewrite !lacks_app, Hb2, Hb3. reflexivity. }
  rewrite (removeAll_plain [js "```json"]) by (backticks || exact Hplain).
  rewrite (removeAll_plain [js "```"]) by (backticks || exact Hplain).
  unfold Str.trim. rewrite trimStart_app_keep by exact Hvis.
  change (Str.trimStart pre ++ 123 :: mid ++ 125 :: post)
    with (Str.trimStart pre ++ (123 :: mid) ++ 125 :: post).
  rewrite app_assoc, trimEnd_stop by reflexivity.
  rewrite <- app_assoc.
  change ((123 :: mid) ++ 125 :: Str.trimEnd post)
    with (123 :: mid ++ 125 :: Str.trimEnd post).
  rewrite startsWith_brace_lacks by (auto using trimStart_lacks).
  change (negb false) with true. cbv iota.
  rewrite matchBraces_span by (auto using trimStart_lacks, trimEnd_lacks).
  reflexivity.
Qed.

(** ** Empty resume text *)

(** server.js fails fast: the answer is 400 and the world is as it was, so
    the model was not called and nothing was stored. *)
Lemma server_empty_resume_fails_fast gen pdf b64 file photo id now w text :
  pdf (Server.buffer file) = Ok text ->
  Str.trim text = [] ->
  Server.generateFromResume gen pdf b64 (Some file) photo id now w
  = (Ok {| status := 400;
           payload := errorJson (js "Could not extract text from the PDF. The file may be corrupted or scanned as an image.") |},
     w).
Proof.
  intros Hpdf Ht.
  unfold Server.generateFromResume, tryCatch, bind. unfold lift at 1.
  now rewrite Hpdf, Ht.
Qed.

(** C5, on generate-portfolio.js.  An uploaded file whose extracted text is
    empty does not fail with a 400: the empty text sends the request down
    the manual path, where [manualData] is absent and the assignment
    throws, so the answer is 500.  The model is not called and nothing is
    stored. *)
Theorem generate_handler_empty_pdf_text gen table pdf em ev w ct :
  GeneratePortfolio.httpMethod ev = VStr (js "POST") ->
  GeneratePortfolio.contentType ev = Some ct ->
  Str.includes ct (js "multipart/form-data") = true ->
  pdf (GeneratePortfolio.isBase64Encoded ev) (GeneratePortfolio.eventBody ev) = Ok [] ->
  GeneratePortfolio.handler gen table pdf em ev w
  = (Ok {| status := 500;
           payload := errorJson (js "An internal server error occurred: " ++ em TypeError) |},
     w).
Proof.
  intros Hm Hct Hinc Hpdf.
  unfold GeneratePortfolio.handler, GeneratePortfolio.readBody, tryCatch, bind, lift, ret.
  rewrite Hm, Hct, Hinc, Hpdf. reflexivity.
Qed.

Lemma generate_handler_empty_pdf_text_witness :
  GeneratePortfolio.handler (Scenario.replies []) Scenario.accepting
    (Scenario.pdfWithText' []) Scenario.engineMessage
    (Scenario.postFile (js "JVBERi0xLjQK")) Scenario.start
  = (Ok {| status := 500;
           payload := errorJson (js "An internal server error occurred: "
                                 ++ Scenario.engineMessage TypeError) |},
     Scenario.start).
Proof.
  apply (generate_handler_empty_pdf_text (Scenario.replies []) Scenario.accepting
           (Scenario.pdfWithText' []) Scenario.engineMessage
           (Scenario.postFile (js "JVBERi0xLjQK")) Scenario.start
           (js "multipart/form-data; boundary=x"));
    reflexivity.
Defined.

(** The Netlify generate function has no guard either: with an empty
    [resumeText] it calls the model twice and inserts a row. *)
Lemma netlify_handler_empty_resume_text :
  Netlify.handler (Scenario.replies [Text (js "{}"); Text (js "Default")])
    Scenario.accepting
    {| Netlify.method := VStr (js "POST");
       Netlify.eventBody :=
         js "{" ++ Scenario.q "type" ++ js ":" ++ Scenario.q "ai" ++ js ","
         ++ Scenario.q "resumeText" ++ js ":" ++ Scenario.q "" ++ js "}" |}
    (js "id") Scenario.start
  = (Ok {| status := 200;
           payload := JsonOf (VObj [ (js "portfolioId", VStr (js "id"));
                                   (js "portfolioData", VObj []);
                                   (js "theme", Themes.object Themes.professionalBlue);
                                   (js "profilePictureUrl", VStr []) ]) |},
     {| modelCalls := 2; portfolios := Store.empty;
        rows := [ VObj [ (js "share_id", VStr (js "id"));
                         (js "portfolio_data", VObj []);
                         (js "profile_picture_url", VStr []);
                         (js "selected_theme", VStr (js "Professional Blue")) ] ] |}).
Proof. vm_compute. reflexivity. Qed.

(** ** The in-memory store *)

Lemma store_get_set (s : Store) (id : jsstring) (r : value) :
  Store.reachesSetter s id = false ->
  Store.get (Store.set s id r) id = r.
Proof.
  intros H. unfold Store.set, Store.get. rewrite H. simpl.
  now rewrite lookup_insert_eq.
Qed.

Lemma store_get_set_other (s : Store) (id id' : jsstring) (r : value) :
  Store.reachesSetter s id = false ->
  id <> id' ->
  Store.get (Store.set s id r) id' = Store.get s id'.
Proof.
  intros H Hne. unfold Store.set, Store.get, Store.fromPrototype. rewrite H. simpl.
  now rewrite lookup_insert_ne.
Qed.

Lemma reachesSetter_plain (s : Store) (id : jsstring) :
  id <> js "__proto__" -> Store.reachesSetter s id = false.
Proof.
  intros H. unfold Store.reachesSetter.
  apply eqb_neq in H. now rewrite H.
Qed.

(** ** Manual data *)

(** What POST /api/create-manual-portfolio of server.js does with a
    well-formed body: the record holds the profile, its social links
    normalized, and the theme of the request. *)
Lemma server_manual_stores b64 reqBody photo id now w pd theme pd' placeholder :
  Val.get reqBody (js "portfolioData") = Ok pd ->
  Val.get reqBody (js "theme") = Ok theme ->
  Server.normalizeSocial pd = Ok pd' ->
  Server.placeholderPhoto pd' = Ok placeholder ->
  Server.createManualPortfolio b64 reqBody photo id now w
  = (Ok {| status := 200;
           payload := JsonOf (VObj [ (js "portfolioId", VStr id);
                                   (js "portfolioData", pd');
                                   (js "theme", theme);
                                   (js "profilePictureUrl",
                                    VStr (Server.photoUrlOf b64 placeholder photo)) ]) |},
     {| modelCalls := modelCalls w;
        portfolios :=
          Store.set (portfolios w) id
            (VObj [ (js "data", pd'); (js "theme", theme);
                    (js "profilePictureUrl",
                     VStr (Server.photoUrlOf b64 placeholder photo));
                    (js "createdAt", VDate now) ]);
        rows := rows w |}).
Proof.
  intros H1 H2 H3 H4.
  unfold Server.createManualPortfolio, Server.storePortfolio, tryCatch, bind, lift, ret,
    getPortfolios, putPortfolios.
  now rewrite H1, H2, H3, H4.
Qed.


(** The manual path of generate-portfolio.js, for data that is an
    object. *)
Lemma generate_manual_run gen table pdf em ev w body resumeText props :
  GeneratePortfolio.httpMethod ev = VStr (js "POST") ->
  GeneratePortfolio.readBody pdf ev w = (Ok body, w) ->
  Val.get body (js "resumeText") = Ok resumeText ->
  Val.truthy resumeText = false ->
  Val.get body (js "manualData") = Ok (VObj props) ->
  let row :=
    GeneratePortfolio.row
      (VObj (Val.assign props (js "profession") (VStr (js "Default"))))
      (Themes.object Themes.professionalBlue') in
  GeneratePortfolio.handler gen table pdf em ev w
  = match table row with
    | inr stored =>
        (Ok {| status := 200;
               payload := JsonOf (VObj [ (js "portfolio", stored);
                                       (js "theme", Themes.object Themes.professionalBlue') ]) |},
         {| modelCalls := modelCalls w; portfolios := portfolios w;
            rows := rows w ++ [row] |})
    | inl msg =>
        (Ok {| status := 500;
               payload := errorJson (js "An internal server error occurred: "
                                     ++ js "Supabase error: " ++ msg) |},
         w)
    end.
Proof.
  intros Hm Hb Hr Ht Hd row.
  assert (Hprof : Val.get (VObj (Val.assign props (js "profession") (VStr (js "Default"))))
                    (js "profession") = Ok (VStr (js "Default"))).
  { cbn [Val.get]. unfold Val.lookup. now rewrite own_assign. }
  unfold GeneratePortfolio.handler, GeneratePortfolio.generateFromManual,
    tryCatch, bind, lift, ret, throw, insertRow.
  rewrite Hm.
  change (GeneratePortfolio.isString (VStr (js "POST")) (js "GET")) with false.
  change (GeneratePortfolio.isString (VStr (js "POST")) (js "POST")) with true.
  cbv iota. change (negb true) with false. cbv beta iota.
  rewrite Hb. cbv beta iota. rewrite Hr. cbv beta iota. rewrite Hd. cbv beta iota. rewrite Ht. cbv beta iota.
  change (Val.set (VObj props) (js "profession") (VStr (js "Default")))
    with (Ok (VObj (Val.assign props (js "profession") (VStr (js "Default"))))).
  cbv beta iota. rewrite Hprof. cbv beta iota.
  change (Themes.select Themes.themes' (VStr (js "Default")))
    with (Themes.object Themes.professionalBlue').
  fold row. destruct (table row); reflexivity.
Qed.








(** ** Updating a record *)

Lemma own_assign_other (props : list (jsstring * value)) (k k' : jsstring) (x : value) :
  k <> k' -> Val.own (Val.assign props k x) k' = Val.own props k'.
Proof.
  intros Hne. induction props as [|[k0 v] props IH]; simpl.
  - apply eqb_neq in Hne. now rewrite Hne.
  - destruct (Str.eqb k0 k) eqn:E; simpl.
    + apply eqb_eq in E. subst k0. apply eqb_neq in Hne. now rewrite Hne.
    + now rewrite IH.
Qed.

(** The fields an update writes. *)
Lemma updated_record_keeps (props : list (jsstring * value)) (k : jsstring)
    (pd theme pic : value) (now : N) :
  k <> js "data" -> k <> js "theme" -> k <> js "profilePictureUrl" ->
  k <> js "updatedAt" ->
  Val.own (Conv.extend props
             [ (js "data", pd); (js "theme", theme); (js "profilePictureUrl", pic);
               (js "updatedAt", VDate now) ]) k
  = Val.own props k.
Proof.
  intros H1 H2 H3 H4. unfold Conv.extend. cbn [fold_left fst snd].
  rewrite !own_assign_other by congruence. reflexivity.
Qed.

(** An update of an identifier that the store answers with nothing leaves
    the world as it was, whatever the body. *)
Lemma update_absent_unchanged id reqBody now w :
  Val.truthy (Store.get (portfolios w) id) = false ->
  snd (Server.updatePortfolio id reqBody now w) = w.
Proof.
  intros H.
  unfold Server.updatePortfolio, Server.storePortfolio, tryCatch, bind, lift, ret,
    getPortfolios, putPortfolios.
  rewrite H. crunch; first [reflexivity | discriminate].
Qed.

Lemma update_absent_404 id reqBody now w pd theme pic :
  Val.get reqBody (js "portfolioData") = Ok pd ->
  Val.get reqBody (js "theme") = Ok theme ->
  Val.get reqBody (js "profilePictureUrl") = Ok pic ->
  Val.truthy (Store.get (portfolios w) id) = false ->
  Server.updatePortfolio id reqBody now w
  = (Ok {| status := 404; payload := errorJson (js "Portfolio not found") |}, w).
Proof.
  intros H1 H2 H3 H.
  unfold Server.updatePortfolio, Server.storePortfolio, tryCatch, bind, lift, ret,
    getPortfolios, putPortfolios.
  now rewrite H1, H2, H3, H.
Qed.

(** An update with a well-formed body of an identifier that the store
    answers with something. *)
Lemma update_present id reqBody now w pd theme pic pd' :
  Val.get reqBody (js "portfolioData") = Ok pd ->
  Val.get reqBody (js "theme") = Ok theme ->
  Val.get reqBody (js "profilePictureUrl") = Ok pic ->
  Val.truthy (Store.get (portfolios w) id) = true ->
  Server.normalizeSocial pd = Ok pd' ->
  Server.updatePortfolio id reqBody now w
  = (Ok {| status := 200;
           payload := JsonOf (VObj [(js "success", VBool true); (js "portfolioId", VStr id)]) |},
     {| modelCalls := modelCalls w;
        portfolios :=
          Store.set (portfolios w) id
            (VObj (Conv.extend (Conv.spread (Store.get (portfolios w) id))
                     [ (js "data", pd'); (js "theme", theme);
                       (js "profilePictureUrl", pic); (js "updatedAt", VDate now) ]));
        rows := rows w |}).
Proof.
  intros H1 H2 H3 H Hn.
  unfold Server.updatePortfolio, Server.storePortfolio, tryCatch, bind, lift, ret,
    getPortfolios, putPortfolios.
  now rewrite H1, H2, H3, H, Hn.
Qed.

(** The frame of an update of a stored record: the target keeps every
    property but the four that are written, [createdAt] among the kept, and
    every other identifier is answered as before. *)
Lemma update_stored_frame id reqBody now w pd theme pic pd' props :
  records (portfolios w) !! id = Some (VObj props) ->
  Val.get reqBody (js "portfolioData") = Ok pd ->
  Val.get reqBody (js "theme") = Ok theme ->
  Val.get reqBody (js "profilePictureUrl") = Ok pic ->
  Server.normalizeSocial pd = Ok pd' ->
  let w' := snd (Server.updatePortfolio id reqBody now w) in
  (exists props',
      records (portfolios w') !! id = Some (VObj props')
      /\ Val.own props' (js "createdAt") = Val.own props (js "createdAt")
      /\ Val.own props' (js "data") = Some pd'
      /\ Val.own props' (js "theme") = Some theme
      /\ Val.own props' (js "profilePictureUrl") = Some pic
      /\ Val.own props' (js "updatedAt") = Some (VDate now)
      /\ (forall k, k <> js "data" -> k <> js "theme" -> k <> js "profilePictureUrl" ->
                    k <> js "updatedAt" -> Val.own props' k = Val.own props k))
  /\ (forall id', id' <> id -> records (portfolios w') !! id' = records (portfolios w) !! id')
  /\ prototype (portfolios w') = prototype (portfolios w)
  /\ modelCalls w' = modelCalls w /\ rows w' = rows w.
Proof.
  intros Hrec H1 H2 H3 Hn w'.
  assert (Hget : Store.get (portfolios w) id = VObj props)
    by (unfold Store.get; now rewrite Hrec).
  assert (Hset : Store.reachesSetter (portfolios w) id = false)
    by (unfold Store.reachesSetter; rewrite Hrec; now rewrite andb_false_r).
  subst w'. rewrite (update_present id reqBody now w pd theme pic pd' H1 H2 H3); auto.
  2:{ now rewrite Hget. }
  cbn [snd portfolios modelCalls rows]. unfold Store.set. rewrite Hset, Hget.
  cbn [records prototype Conv.spread].
  split; [|split; [|repeat split]].
  - eexists. split; [apply lookup_insert_eq|].
    split; [apply updated_record_keeps; discriminate|].
    unfold Conv.extend. cbn [fold_left fst snd].
    split; [|split; [|split; [|split]]].
    + rewrite !own_assign_other by discriminate. apply own_assign.
    + rewrite !own_assign_other by discriminate. apply own_assign.
    + rewrite !own_assign_other by discriminate. apply own_assign.
    + apply own_assign.
    + intros k K1 K2 K3 K4. rewrite !own_assign_other by congruence. reflexivity.
  - intros id' Hne. now rewrite lookup_insert_ne.
Qed.

(** An identifier that is neither stored nor the name of an inherited
    member is unknown to the guard: the store is left as it was. *)
Lemma update_unknown_plain id reqBody now w :
  records (portfolios w) !! id = None ->
  prototype (portfolios w) = None ->
  Val.inherited id = false ->
  snd (Server.updatePortfolio id reqBody now w) = w.
Proof.
  intros Hrec Hp Hi. apply update_absent_unchanged.
  unfold Store.get, Store.fromPrototype. now rewrite Hrec, Hp, Hi.
Qed.

(** C10, on the unknown identifier.  An identifier under which nothing is
    stored but which names a member every object inherits passes the guard
    [!portfolios[id]]: the inherited member is truthy.  The update then
    writes a record under that identifier, without [createdAt], and answers
    200; the store is not left unchanged. *)
Theorem update_of_inherited_name_writes id reqBody now w pd theme pic pd' :
  records (portfolios w) !! id = None ->
  prototype (portfolios w) = None ->
  Val.inherited id = true ->
  id <> js "__proto__" ->
  Val.get reqBody (js "portfolioData") = Ok pd ->
  Val.get reqBody (js "theme") = Ok theme ->
  Val.get reqBody (js "profilePictureUrl") = Ok pic ->
  Server.normalizeSocial pd = Ok pd' ->
  Server.updatePortfolio id reqBody now w
  = (Ok {| status := 200;
           payload := JsonOf (VObj [(js "success", VBool true); (js "portfolioId", VStr id)]) |},
     {| modelCalls := modelCalls w;
        portfolios :=
          {| records :=
               <[id := VObj [ (js "data", pd'); (js "theme", theme);
                              (js "profilePictureUrl", pic);
                              (js "updatedAt", VDate now) ]]> (records (portfolios w));
             prototype := None |};
        rows := rows w |})
  /\ records (portfolios (snd (Server.updatePortfolio id reqBody now w))) !! id
     <> records (portfolios w) !! id.
Proof.
  intros Hrec Hp Hi Hne H1 H2 H3 Hn.
  assert (Hget : Store.get (portfolios w) id = VBuiltin id)
    by (unfold Store.get, Store.fromPrototype; now rewrite Hrec, Hp, Hi).
  rewrite (update_present id reqBody now w pd theme pic pd' H1 H2 H3); auto.
  2:{ now rewrite Hget. }
  unfold Store.set. rewrite (reachesSetter_plain _ _ Hne), Hget, Hp.
  split; [reflexivity|].
  cbn [snd portfolios records]. rewrite lookup_insert_eq, Hrec. discriminate.
Qed.

Lemma update_of_inherited_name_writes_witness :
  Server.updatePortfolio (js "constructor")
    (VObj [ (js "portfolioData", VObj [(js "personalInfo", VObj [])]);
            (js "theme", Themes.object Themes.dataGreen);
            (js "profilePictureUrl", VStr (js "https://example.org/me.png")) ])
    7 Scenario.start
  = (Ok {| status := 200;
           payload := JsonOf (VObj [ (js "success", VBool true);
                                   (js "portfolioId", VStr (js "constructor")) ]) |},
     {| modelCalls := 0;
        portfolios :=
          {| records :=
               <[js "constructor" :=
                   VObj [ (js "data", VObj [(js "personalInfo", VObj [])]);
                          (js "theme", Themes.object Themes.dataGreen);
                          (js "profilePictureUrl", VStr (js "https://example.org/me.png"));
                          (js "updatedAt", VDate 7) ]]> ∅;
             prototype := None |};
        rows := [] |}).
Proof.
  apply (update_of_inherited_name_writes (js "constructor") _ 7 Scenario.start
           (VObj [(js "personalInfo", VObj [])]) (Themes.object Themes.dataGreen)
           (VStr (js "https://example.org/me.png"))
           (VObj [(js "personalInfo", VObj [])]));
    first [reflexivity | discriminate].
Defined.

(** ** Rendering *)

Lemma collect_nth {A} (n : nat) (l : list (result A)) (ss : list A) (p : A) (e : error) :
  Stored.collect l = Ok ss -> nth n l (Throw e) = Ok p -> In p ss.
Proof.
  revert n ss. induction l as [|x l IH]; intros n ss.
  - destruct n; discriminate.
  - cbn [Stored.collect]. destruct x as [a|e']; [|discriminate].
    destruct (Stored.collect l) as [l'|e'] eqn:E; cbn [Stored.andThen]; [|discriminate].
    intros [= <-]. destruct n as [|n]; cbn [nth].
    + intros [= ->]. left. reflexivity.
    + intros H. right. exact (IH n l' eq_refl H).
Qed.

Lemma collect_throws {A} (n : nat) (l : list (result A)) (d : result A) (e : error) :
  nth n l d = Throw e -> (n < length l)%nat -> exists e', Stored.collect l = Throw e'.
Proof.
  revert n. induction l as [|x l IH]; intros n; cbn [length]; [lia|].
  destruct n as [|n]; cbn [nth Stored.collect].
  - intros -> _. eauto.
  - intros H Hn. destruct x as [a|e0]; [|eauto].
    destruct (IH n H ltac:(lia)) as [e' ->]. eauto.
Qed.

Lemma includes_concat_in (l : list jsstring) (p sub : jsstring) :
  In p l -> Str.includes p sub = true -> Str.includes (concat l) sub = true.
Proof.
  induction l as [|x l IH]; [contradiction|]. intros [-> | Hin] H.
  - apply includes_concat_here. exact H.
  - apply includes_concat_later. exact (IH Hin H).
Qed.

Lemma pieces_include (n : nat) (l : list (result jsstring)) (html p sub : jsstring) :
  Stored.pieces l = Ok html ->
  nth n l (Throw TypeError) = Ok p ->
  Str.includes p sub = true ->
  Str.includes html sub = true.
Proof.
  unfold Stored.pieces. destruct (Stored.collect l) as [ss|e] eqn:E; [|discriminate].
  cbn [Stored.andThen]. intros [= <-] Hn Hp.
  exact (includes_concat_in ss p sub (collect_nth n l ss p TypeError E Hn) Hp).
Qed.

Lemma pieces_throw (n : nat) (l : list (result jsstring)) (e : error) :
  nth n l (Ok []) = Throw e -> exists e', Stored.pieces l = Throw e'.
Proof.
  intros H. unfold Stored.pieces.
  destruct (Nat.lt_ge_cases n (length l)) as [Hn | Hn].
  - destruct (collect_throws n l (Ok []) e H Hn) as [e' ->]. eauto.
  - rewrite nth_overflow in H by exact Hn. discriminate.
Qed.

Lemma listing_without_items (r : result value) (v : value)
    (f : value -> result jsstring) (d : jsstring) :
  r = Ok v -> Stored.noItems v ->
  Stored.orDefaultOf (Stored.each r f) d = Ok d
  \/ Stored.orDefaultOf (Stored.each r f) d = Throw TypeError.
Proof.
  intros -> [Hv | [named ->]]; unfold Stored.orDefaultOf, Stored.each, Stored.elements;
    cbn [Stored.andThen].
  - rewrite Hv. left. reflexivity.
  - cbn [Val.truthy]. destruct (Val.own named (js "map")); [right|left]; reflexivity.
Qed.

(** The place of the listing of [r] among the pieces of a template. *)
Ltac locate_listing r k :=
  lazymatch goal with
  | H : Stored.pieces ?l = Ok _ |- _ =>
      let rec go rest n :=
        lazymatch rest with
        | ?x :: ?rest' =>
            lazymatch x with
            | Stored.orDefaultOf (Stored.each ?r' _) _ =>
                tryif constr_eq r r' then k n l x H else go rest' (S n)
            | _ => go rest' (S n)
            end
        end in
      go l O
  end.

(** A listing of nothing is the placeholder of its section, unless it
    throws; and then the template does. *)
Ltac listing_is_placeholder r Hr Hv :=
  locate_listing r ltac:(fun n l x H =>
    match x with
    | Stored.orDefaultOf (Stored.each _ ?f) ?d =>
        destruct (listing_without_items r _ f d Hr Hv) as [Hp | Hp];
        [ apply (pieces_include n l _ d _ H Hp); vm_compute; reflexivity
        | destruct (pieces_throw n l TypeError Hp) as [e' He'];
          rewrite He' in H; discriminate H ]
    end).

Lemma stored_page_placeholder nts dts portfolioUrl imageUrl portfolio personalInfo v html :
  Stored.read portfolio [js "data"; js "projects"] = Ok v -> Stored.noItems v ->
  Stored.portfolioHtml nts dts portfolioUrl imageUrl portfolio personalInfo = Ok html ->
  Str.includes html (js "No projects listed.") = true.
Proof.
  intros Hr Hv H. unfold Stored.portfolioHtml in H.
  listing_is_placeholder (Stored.read portfolio [js "data"; js "projects"]) Hr Hv.
Qed.

Lemma stored_row_placeholder nts dts envURL data personalInfo summary skills experience
    projects picture styles html :
  Stored.noItems projects ->
  Stored.template nts dts envURL data personalInfo summary skills experience projects
    picture styles = Ok html ->
  Str.includes html (js "No projects listed.") = true.
Proof.
  intros Hv H. unfold Stored.template in H.
  listing_is_placeholder (@Ok value projects) (@eq_refl _ (@Ok value projects)) Hv.
Qed.

Lemma member_of_absent (v : value) (k : jsstring) :
  Stored.absent v -> Stored.member v k = Throw TypeError.
Proof. intros [-> | ->]; reflexivity. Qed.

Lemma member_of_present (v : value) (k : jsstring) (x : value) :
  Stored.member v k = Ok x -> forall k', exists y, Stored.member v k' = Ok y.
Proof.
  destruct v; try discriminate; intros _ k'; eexists; reflexivity.
Qed.

Lemma shown_of_absent nts dts (v t : value) (k k' : jsstring) :
  Stored.member v k = Ok t -> Stored.absent t ->
  Stored.shown nts dts (Stored.read v [k; k']) = Throw TypeError.
Proof.
  intros H Ht. cbn [Stored.read]. rewrite H. cbn [Stored.andThen].
  rewrite (member_of_absent t k' Ht). reflexivity.
Qed.

Lemma orText_of_absent nts dts (v : value) (k d : jsstring) :
  Stored.absent v -> Stored.orText nts dts (Stored.read v [k]) d = Throw TypeError.
Proof.
  intros Hv. cbn [Stored.read]. rewrite (member_of_absent v k Hv). reflexivity.
Qed.

(** The first piece of a template that [tac] shows to throw. *)
Ltac piece_throws tac :=
  lazymatch goal with
  | |- exists e, Stored.pieces ?l = Throw e =>
      let rec go rest n :=
        lazymatch rest with
        | ?x :: ?rest' =>
            tryif assert (x = Throw TypeError) by (solve [tac])
            then (apply (pieces_throw n l TypeError); assumption)
            else go rest' (S n)
        end in
      go l O
  end.

Lemma stored_page_needs_theme nts dts portfolioUrl imageUrl portfolio personalInfo theme :
  Stored.member portfolio (js "theme") = Ok theme -> Stored.absent theme ->
  exists e,
    Stored.portfolioHtml nts dts portfolioUrl imageUrl portfolio personalInfo = Throw e.
Proof.
  intros H Ht. unfold Stored.portfolioHtml.
  piece_throws ltac:(apply (shown_of_absent nts dts portfolio theme _ _ H Ht)).
Qed.

Lemma stored_row_needs_personalInfo nts dts envURL data personalInfo summary skills
    experience projects picture styles :
  Stored.absent personalInfo ->
  exists e,
    Stored.template nts dts envURL data personalInfo summary skills experience projects
      picture styles = Throw e.
Proof.
  intros Hi. unfold Stored.template.
  piece_throws ltac:(apply (orText_of_absent nts dts personalInfo _ _ Hi)).
Qed.

Lemma stored_render_placeholder nts dts protocol host id portfolio v html :
  Stored.read portfolio [js "data"; js "projects"] = Ok v -> Stored.noItems v ->
  Stored.renderPortfolio nts dts protocol host id portfolio = Ok html ->
  Str.includes html (js "No projects listed.") = true.
Proof.
  intros Hr Hv. unfold Stored.renderPortfolio.
  destruct (Stored.read portfolio [js "data"; js "personalInfo"]) as [info|e];
    cbn [Stored.andThen]; [|discriminate].
  destruct (Stored.member portfolio (js "profilePictureUrl")) as [picture|e];
    cbn [Stored.andThen]; [|discriminate].
  match goal with
  | |- Stored.andThen ?img _ = _ -> _ => destruct img as [imageUrl|e]
  end; cbn [Stored.andThen]; [|discriminate].
  apply (stored_page_placeholder nts dts _ _ _ _ v html Hr Hv).
Qed.

Lemma stored_render_needs_theme nts dts protocol host id portfolio theme :
  Stored.member portfolio (js "theme") = Ok theme -> Stored.absent theme ->
  exists e, Stored.renderPortfolio nts dts protocol host id portfolio = Throw e.
Proof.
  intros H Ht. unfold Stored.renderPortfolio.
  destruct (Stored.read portfolio [js "data"; js "personalInfo"]) as [info|e];
    cbn [Stored.andThen]; [|eauto].
  destruct (Stored.member portfolio (js "profilePictureUrl")) as [picture|e];
    cbn [Stored.andThen]; [|eauto].
  match goal with
  | |- exists _, Stored.andThen ?img _ = _ => destruct img as [imageUrl|e]
  end; cbn [Stored.andThen]; [|eauto].
  apply (stored_page_needs_theme nts dts _ _ _ _ theme H Ht).
Qed.

Lemma stored_row_placeholder_html nts dts envURL data projects html :
  Stored.read data [js "portfolio_data"; js "projects"] = Ok projects ->
  Stored.noItems projects ->
  Stored.generatePortfolioHTML nts dts envURL data = Ok html ->
  Str.includes html (js "No projects listed.") = true.
Proof.
  cbn [Stored.read]. unfold Stored.generatePortfolioHTML.
  destruct (Stored.member data (js "portfolio_data")) as [pd|e];
    cbn [Stored.andThen]; [|discriminate].
  destruct (Stored.member pd (js "projects")) as [projects'|e] eqn:Ep;
    cbn [Stored.andThen]; [|discriminate].
  intros [= ->] Hv.
  repeat match goal with
         | |- Stored.andThen ?m _ = _ -> _ =>
             destruct m; cbn [Stored.andThen]; [|discriminate]
         end.
  apply (stored_row_placeholder nts dts); exact Hv.
Qed.

Lemma stored_row_needs_data nts dts envURL data pd :
  Stored.member data (js "portfolio_data") = Ok pd ->
  Stored.absent pd
  \/ (exists info, Stored.member pd (js "personalInfo") = Ok info /\ Stored.absent info) ->
  exists e, Stored.generatePortfolioHTML nts dts envURL data = Throw e.
Proof.
  intros Hd Hpd. unfold Stored.generatePortfolioHTML. rewrite Hd. cbn [Stored.andThen].
  destruct (member_of_present data _ pd Hd (js "profile_picture_url")) as [x ->].
  destruct (member_of_present data _ pd Hd (js "selected_theme")) as [y ->].
  cbn [Stored.andThen].
  destruct Hpd as [Hpd | (info & Hi & Ha)].
  - rewrite (member_of_absent pd _ Hpd). eauto.
  - rewrite Hi. cbn [Stored.andThen].
    destruct (member_of_present pd _ info Hi (js "summary")) as [? ->].
    destruct (member_of_present pd _ info Hi (js "skills")) as [? ->].
    destruct (member_of_present pd _ info Hi (js "experience")) as [? ->].
    destruct (member_of_present pd _ info Hi (js "projects")) as [? ->].
    cbn [Stored.andThen].
    apply (stored_row_needs_personalInfo nts dts). exact Ha.
Qed.

Lemma stored_view_outcomes nts dts protocol host id portfolios :
  Page.isUuid id = true ->
  Val.truthy (Store.get portfolios id) = true ->
  (exists html,
      Stored.renderPortfolio nts dts protocol host id (Store.get portfolios id) = Ok html
      /\ Stored.getPortfolio nts dts protocol host id portfolios
         = {| status := 200; payload := HtmlOf html |})
  \/ (exists e,
         Stored.renderPortfolio nts dts protocol host id (Store.get portfolios id) = Throw e
         /\ Stored.getPortfolio nts dts protocol host id portfolios
            = {| status := 500;
                 payload := HtmlOf (Page.createErrorPage (js "Server Error")
                                    (js "We encountered an error while loading this portfolio. Please try again later.")) |}).
Proof.
  intros Hid Hp. unfold Stored.getPortfolio. rewrite Hid, Hp. cbn [negb].
  destruct (Stored.renderPortfolio nts dts protocol host id (Store.get portfolios id))
    as [html|e]; [left|right]; eauto.
Qed.

(** The record POST /api/create-manual stores for a body that names a
    person and nothing else, and the row share-portfolio.js inserts for
    a body whose portfolio data is a summary. *)
Lemma no_projects_placeholder_claim_fails :
  let id := js "0b0e7a2c-4f7e-4c1b-9a59-2f1d3c5e7a90" in
  let stored :=
    portfolios
      (snd (Server.createManualPortfolio Scenario.base64
              (VObj [(js "portfolioData",
                      VObj [(js "personalInfo", VObj [(js "name", VStr (js "Ada"))])])])
              None id 7 Scenario.start)) in
  let inserted :=
    rows (snd (SharePortfolio.handler Scenario.accepting (Some (js "https://forge.example"))
                 (js "{" ++ Scenario.q "portfolioData" ++ js ":{" ++ Scenario.q "summary"
                  ++ js ":" ++ Scenario.q "Engineer" ++ js "}}")
                 id Scenario.start)) in
  Stored.read (Store.get stored id) [js "data"; js "projects"] = Ok VUndefined
  /\ (exists page,
         Stored.getPortfolio Scenario.showNumber Scenario.showDate (js "https")
           (js "forge.example") id stored
         = {| status := 500; payload := HtmlOf page |}
         /\ Str.includes page (js "No projects listed.") = false)
  /\ (exists row,
         inserted = [row]
         /\ Stored.read row [js "portfolio_data"; js "projects"] = Ok VUndefined
         /\ exists page,
             Stored.handler Scenario.showNumber Scenario.showDate
               (fun _ => Ok (row, VNull)) (Some (js "https://forge.example"))
               (Some (Some id))
             = {| status := 500; payload := HtmlOf page |}
             /\ Str.includes page (js "No projects listed.") = false).
Proof.
  cbv zeta. split; [vm_compute; reflexivity|]. split.
  - eexists. split; vm_compute; reflexivity.
  - eexists. split; [vm_compute; reflexivity|]. split; [vm_compute; reflexivity|].
    eexists. split; vm_compute; reflexivity.
Qed.

(** C9, amended.  Whatever the store or the table holds under an id, if
    the projects of that record are absent, or falsy in another way, or
    an array without elements, then a page route that answers 200 sends a
    document that contains the text "No projects listed.".  For a
    well-formed id of a stored record GET /portfolio/:id answers 200 with
    the rendered page or, when rendering throws, 500 with the error page;
    rendering throws for a record stored without a theme.
    get-portfolio.js answers 500 with its error page for a row whose
    portfolio_data or personalInfo is absent.  Neither error page
    contains the text. *)
Theorem no_projects_placeholder numberToString dateToString :
  (forall protocol host id portfolios projects,
      Stored.read (Store.get portfolios id) [js "data"; js "projects"] = Ok projects ->
      Stored.noItems projects ->
      status (Stored.getPortfolio numberToString dateToString protocol host id portfolios)
      = 200%nat ->
      exists html,
        payload (Stored.getPortfolio numberToString dateToString protocol host id portfolios)
        = HtmlOf html
        /\ Str.includes html (js "No projects listed.") = true)
  /\ (forall select envURL query shareId data error projects,
         query = Some shareId ->
         select shareId = Ok (data, error) ->
         Stored.read data [js "portfolio_data"; js "projects"] = Ok projects ->
         Stored.noItems projects ->
         status (Stored.handler numberToString dateToString select envURL query) = 200%nat ->
         exists html,
           payload (Stored.handler numberToString dateToString select envURL query)
           = HtmlOf html
           /\ Str.includes html (js "No projects listed.") = true)
  /\ (forall protocol host id portfolios,
         Page.isUuid id = true ->
         Val.truthy (Store.get portfolios id) = true ->
         (exists html,
             Stored.renderPortfolio numberToString dateToString protocol host id
               (Store.get portfolios id) = Ok html
             /\ Stored.getPortfolio numberToString dateToString protocol host id portfolios
                = {| status := 200; payload := HtmlOf html |})
         \/ (exists e,
                Stored.renderPortfolio numberToString dateToString protocol host id
                  (Store.get portfolios id) = Throw e
                /\ Stored.getPortfolio numberToString dateToString protocol host id
                     portfolios
                   = {| status := 500;
                        payload := HtmlOf (Page.createErrorPage (js "Server Error")
                                           (js "We encountered an error while loading this portfolio. Please try again later.")) |}))
  /\ (forall protocol host id portfolio theme,
         Stored.member portfolio (js "theme") = Ok theme ->
         Stored.absent theme ->
         exists e,
           Stored.renderPortfolio numberToString dateToString protocol host id portfolio
           = Throw e)
  /\ (forall select envURL shareId data error pd,
         select shareId = Ok (data, error) ->
         Val.truthy error = false ->
         Val.truthy data = true ->
         Stored.member data (js "portfolio_data") = Ok pd ->
         Stored.absent pd
         \/ (exists info,
                Stored.member pd (js "personalInfo") = Ok info /\ Stored.absent info) ->
         Stored.handler numberToString dateToString select envURL (Some shareId)
         = {| status := 500; payload := HtmlOf GetPortfolio.serverErrorPage |})
  /\ Str.includes
       (Page.createErrorPage (js "Server Error")
          (js "We encountered an error while loading this portfolio. Please try again later."))
       (js "No projects listed.") = false
  /\ Str.includes GetPortfolio.serverErrorPage (js "No projects listed.") = false.
Proof.
  split; [|split; [|split; [|split; [|split; [|split]]]]].
  - intros protocol host id portfolios projects Hr Hv. unfold Stored.getPortfolio.
    destruct (Page.isUuid id); cbn [negb]; [|discriminate].
    destruct (Val.truthy (Store.get portfolios id)); cbn [negb]; [|discriminate].
    destruct (Stored.renderPortfolio numberToString dateToString protocol host id
                (Store.get portfolios id)) as [html|e] eqn:E;
      cbn [status payload]; [|discriminate].
    intros _. exists html. split; [reflexivity|].
    exact (stored_render_placeholder _ _ _ _ _ _ _ _ Hr Hv E).
  - intros select envURL query shareId data error projects -> Hs Hr Hv.
    unfold Stored.handler. rewrite Hs.
    destruct (Val.truthy error || negb (Val.truthy data)); [discriminate|].
    destruct (Stored.generatePortfolioHTML numberToString dateToString envURL data)
      as [html|e] eqn:E; cbn [status payload]; [|discriminate].
    intros _. exists html. split; [reflexivity|].
    exact (stored_row_placeholder_html _ _ _ _ _ _ Hr Hv E).
  - apply stored_view_outcomes.
  - intros protocol host id portfolio theme. apply stored_render_needs_theme.
  - intros select envURL shareId data error pd Hs He Hd Hm Hpd.
    unfold Stored.handler. rewrite Hs, He, Hd. cbn [orb negb].
    destruct (stored_row_needs_data numberToString dateToString envURL data pd Hm Hpd)
      as [e ->].
    reflexivity.
  - vm_compute. reflexivity.
  - vm_compute. reflexivity.
Qed.

Lemma no_projects_placeholder_witness :
  let id := js "0b0e7a2c-4f7e-4c1b-9a59-2f1d3c5e7a90" in
  let stored :=
    portfolios
      (snd (Server.createManualPortfolio Scenario.base64
              (VObj [ (js "portfolioData",
                       VObj [(js "personalInfo", VObj [(js "name", VStr (js "Ada"))])]);
                      (js "theme", Themes.object Themes.dataGreen) ])
              None id 7 Scenario.start)) in
  let row :=
    VObj [ (js "share_id", VStr id);
           (js "portfolio_data",
            VObj [ (js "personalInfo", VObj [(js "name", VStr (js "Ada"))]);
                   (js "projects", VArr [] []) ]);
           (js "profile_picture_url", VNull);
           (js "selected_theme", VStr (js "Professional Blue")) ] in
  (exists html,
      payload (Stored.getPortfolio Scenario.showNumber Scenario.showDate (js "https")
                 (js "forge.example") id stored) = HtmlOf html
      /\ Str.includes html (js "No projects listed.") = true)
  /\ (exists html,
         payload (Stored.handler Scenario.showNumber Scenario.showDate
                    (fun _ => Ok (row, VNull)) (Some (js "https://forge.example"))
                    (Some (Some id))) = HtmlOf html
         /\ Str.includes html (js "No projects listed.") = true).
Proof.
  cbv zeta. split.
  - apply (proj1 (no_projects_placeholder Scenario.showNumber Scenario.showDate)
             (js "https") (js "forge.example") (js "0b0e7a2c-4f7e-4c1b-9a59-2f1d3c5e7a90")
             _ VUndefined).
    + vm_compute. reflexivity.
    + left. reflexivity.
    + vm_compute. reflexivity.
  - eapply (proj1 (proj2 (no_projects_placeholder Scenario.showNumber Scenario.showDate))
              _ _ _ (Some (js "0b0e7a2c-4f7e-4c1b-9a59-2f1d3c5e7a90")) _ VNull (VArr [] [])).
    + reflexivity.
    + reflexivity.
    + vm_compute. reflexivity.
    + right. exists []. reflexivity.
    + vm_compute. reflexivity.
Defined.

(** * Further properties *)

(** ** Property access *)

Lemma assign_own_same (props : list (jsstring * value)) (k : jsstring) (a : value) :
  Val.own props k = Some a -> Val.assign props k a = props.
Proof.
  induction props as [|[k' v] rest IH]; simpl; [discriminate|].
  destruct (Str.eqb k' k) eqn:E.
  - intros [= ->]. reflexivity.
  - intros H. rewrite (IH H). reflexivity.
Qed.

Lemma get_truthy_is_object (v : value) (k : jsstring) (a : value) :
  Val.get v k = Ok a -> Val.truthy a = true ->
  Val.inherited k = false -> k <> js "name" ->
  match v with VObj _ | VArr _ _ => True | _ => False end.
Proof.
  intros Hg Ht Hi Hn. destruct v; simpl in Hg; try exact I;
    try discriminate; try (injection Hg as <-; discriminate).
  apply eqb_neq in Hn. rewrite Hn in Hg. injection Hg as <-. discriminate.
Qed.

Lemma set_same (v : value) (k : jsstring) (a : value) :
  Val.get v k = Ok a -> Val.truthy a = true ->
  Val.inherited k = false -> k <> js "name" ->
  Val.set v k a = Ok v.
Proof.
  intros Hg Ht Hi Hn.
  pose proof (get_truthy_is_object v k a Hg Ht Hi Hn) as Ho.
  destruct v; try contradiction; simpl in *.
  - destruct (Val.own named k) eqn:E; injection Hg as <-; [|discriminate].
    rewrite (assign_own_same _ _ _ E). reflexivity.
  - unfold Val.lookup in Hg. rewrite Hi in Hg.
    destruct (Val.own props k) eqn:E; injection Hg as <-; [|discriminate].
    rewrite (assign_own_same _ _ _ E). reflexivity.
Qed.

Lemma get_after_set (v : value) (k : jsstring) (b v' : value) :
  match v with VObj _ | VArr _ _ => True | _ => False end ->
  Val.set v k b = Ok v' ->
  Val.get v' k = Ok b /\ match v' with VObj _ | VArr _ _ => True | _ => False end.
Proof.
  intros Ho Hs. destruct v; try contradiction; simpl in Hs; injection Hs as <-; simpl.
  - rewrite own_assign. split; [reflexivity | exact I].
  - unfold Val.lookup. rewrite own_assign. split; [reflexivity | exact I].
Qed.

Lemma get_after_set_other (v : value) (k k' : jsstring) (b v' : value) :
  Val.set v k b = Ok v' -> k <> k' -> Val.get v' k' = Val.get v k'.
Proof.
  intros Hs Hk. destruct v; simpl in Hs; try discriminate; injection Hs as <-;
    try reflexivity; simpl.
  - rewrite (own_assign_other _ _ _ _ Hk). reflexivity.
  - unfold Val.lookup. rewrite (own_assign_other _ _ _ _ Hk). reflexivity.
Qed.

(** ** The social links (server.js) *)

Lemma convert_string_again (platform u url : jsstring) :
  Server.convertUsernameToUrl platform (VStr u) = Ok url ->
  Server.convertUsernameToUrl platform (VStr url) = Ok url.
Proof.
  destruct u as [|c u]; [intros [= <-]; reflexivity|].
  rewrite convert_string by discriminate.
  destruct (Str.startsWith (c :: u) (js "http://") || Str.startsWith (c :: u) (js "https://"))
    eqn:E.
  - intros [= <-]. rewrite convert_string by discriminate. rewrite E. reflexivity.
  - destruct (Str.eqb platform (js "linkedin")) eqn:El.
    + intros [= <-]. rewrite convert_string by discriminate.
      replace (Str.startsWith (js "https://linkedin.com/in/" ++ c :: u) (js "https://"))
        with true by reflexivity.
      rewrite orb_true_r. reflexivity.
    + destruct (Str.eqb platform (js "github")) eqn:Eg.
      * intros [= <-]. rewrite convert_string by discriminate.
        replace (Str.startsWith (js "https://github.com/" ++ c :: u) (js "https://"))
          with true by reflexivity.
        rewrite orb_true_r. reflexivity.
      * intros [= <-]. rewrite convert_string by discriminate. rewrite E, El, Eg. reflexivity.
Qed.

Lemma convert_truthy (platform : jsstring) (v : value) (url : jsstring) :
  Val.truthy v = true ->
  Server.convertUsernameToUrl platform v = Ok url ->
  exists u, v = VStr u /\ url <> [].
Proof.
  intros Ht. unfold Server.convertUsernameToUrl. rewrite Ht. cbn [negb].
  destruct v; try discriminate. destruct s as [|c s]; [discriminate|].
  intros H. exists (c :: s). split; [reflexivity|].
  destruct (_ || _); [injection H as <-; discriminate|].
  destruct (Str.eqb platform (js "linkedin")); [injection H as <-; discriminate|].
  destruct (Str.eqb platform (js "github")); injection H as <-; discriminate.
Qed.

Lemma inherited_personalInfo : Val.inherited (js "personalInfo") = false.
Proof. reflexivity. Qed.

Lemma personalInfo_not_name : js "personalInfo" <> js "name".
Proof. discriminate. Qed.

(** What a successful pass over one field leaves: the field is falsy and
    nothing changed, or it is the string the normalizer returned. *)
Lemma normalizeField_shape (k : jsstring) (x x' : value) :
  Val.inherited k = false -> k <> js "name" ->
  Server.normalizeField k x = Ok x' ->
  exists info v,
    Val.get x (js "personalInfo") = Ok info /\ Val.get info k = Ok v
    /\ ((Val.truthy v = false /\ x' = x)
        \/ (Val.truthy v = true
            /\ exists url info',
                Server.convertUsernameToUrl k v = Ok url /\ url <> []
                /\ Val.set info k (VStr url) = Ok info'
                /\ Val.set x (js "personalInfo") info' = Ok x'
                /\ Val.get x' (js "personalInfo") = Ok info'
                /\ Val.get info' k = Ok (VStr url))).
Proof.
  intros Hi Hn H. unfold Server.normalizeField in H.
  destruct (Val.get x (js "personalInfo")) as [info|] eqn:Ex; [|discriminate].
  destruct (Val.get info k) as [v|] eqn:Ei; [|discriminate].
  exists info, v. split; [reflexivity|]. split; [exact Ei|].
  destruct (Val.truthy v) eqn:Et.
  - destruct (Server.convertUsernameToUrl k v) as [url|] eqn:Ec; [|discriminate].
    destruct (Val.set info k (VStr url)) as [info'|] eqn:Es; [|discriminate].
    right. split; [reflexivity|]. exists url, info'.
    destruct (convert_truthy _ _ _ Et Ec) as (u & -> & Hurl).
    pose proof (get_truthy_is_object _ _ _ Ei Et Hi Hn) as Hoi.
    destruct (get_after_set _ _ _ _ Hoi Es) as [Hgi Hoi'].
    assert (Val.truthy info = true) as Hti by (destruct info; try contradiction; reflexivity).
    pose proof (get_truthy_is_object _ _ _ Ex Hti inherited_personalInfo personalInfo_not_name)
      as Hox.
    destruct (get_after_set _ _ _ _ Hox H) as [Hgx _].
    repeat split; assumption.
  - injection H as <-. left. split; reflexivity.
Qed.

Lemma normalizeField_again (k : jsstring) (x x' : value) :
  Val.inherited k = false -> k <> js "name" ->
  Server.normalizeField k x = Ok x' ->
  Server.normalizeField k x' = Ok x'.
Proof.
  intros Hi Hn H.
  destruct (normalizeField_shape k x x' Hi Hn H) as (info & v & Ex & Ei & [[Hf ->]|[Ht Hr]]);
    [exact H|].
  destruct Hr as (url & info' & Ec & Hurl & Es & Hx & Hgx & Hgi).
  destruct (convert_truthy _ _ _ Ht Ec) as (u & -> & _).
  assert (Val.truthy (VStr url) = true) as Htu by (destruct url; [contradiction|reflexivity]).
  unfold Server.normalizeField. rewrite Hgx, Hgi, Htu.
  rewrite (convert_string_again _ _ _ Ec).
  rewrite (set_same _ _ _ Hgi Htu Hi Hn).
  apply set_same; [exact Hgx| |reflexivity|discriminate].
  destruct info'; simpl in Hgi; try discriminate; try reflexivity;
    injection Hgi as Hgi; discriminate.
Qed.

Lemma normalizeField_keeps_fixed (k k' : jsstring) (x x' : value) :
  Val.inherited k = false -> k <> js "name" ->
  Val.inherited k' = false -> k' <> js "name" ->
  k' <> k ->
  Server.normalizeField k x = Ok x ->
  Server.normalizeField k' x = Ok x' ->
  Server.normalizeField k x' = Ok x'.
Proof.
  intros Hi Hn Hi' Hn' Hkk Hfix H.
  destruct (normalizeField_shape k' x x' Hi' Hn' H)
    as (info & v & Ex & Ei & [[Hf ->]|[Ht Hr]]); [exact Hfix|].
  destruct Hr as (url' & info' & Ec' & Hurl' & Es' & Hx' & Hgx' & Hgi').
  destruct (normalizeField_shape k x x Hi Hn Hfix)
    as (info0 & vk & Ex0 & Ek & Hcases).
  rewrite Ex in Ex0. injection Ex0 as <-.
  unfold Server.normalizeField. rewrite Hgx'.
  rewrite (get_after_set_other _ _ _ _ _ Es' Hkk), Ek.
  destruct Hcases as [[Hf _]|[Htk Hr]]; [rewrite Hf; reflexivity|].
  destruct Hr as (url & info1 & Ec & Hurl & Es & Hx & Hgx & Hgi).
  rewrite Ex in Hgx. injection Hgx as <-.
  rewrite Ek in Hgi. injection Hgi as ->.
  rewrite Htk, Ec.
  assert (Val.get info' k = Ok (VStr url)) as Hgk
    by (rewrite (get_after_set_other _ _ _ _ _ Es' Hkk); exact Ek).
  rewrite (set_same _ _ _ Hgk Htk Hi Hn).
  apply set_same; [exact Hgx'| |reflexivity|discriminate].
  destruct info'; simpl in Hgi'; try discriminate; try reflexivity;
    injection Hgi' as Hgi'; discriminate.
Qed.

Lemma linkedin_plain : Val.inherited (js "linkedin") = false /\ js "linkedin" <> js "name".
Proof. split; [reflexivity | discriminate]. Qed.

Lemma github_plain : Val.inherited (js "github") = false /\ js "github" <> js "name".
Proof. split; [reflexivity | discriminate]. Qed.

Lemma normalizeSocial_fixed (x x' : value) :
  Server.normalizeSocial x = Ok x' ->
  Server.normalizeField (js "linkedin") x' = Ok x'
  /\ Server.normalizeField (js "github") x' = Ok x'.
Proof.
  unfold Server.normalizeSocial.
  destruct (Server.normalizeField (js "linkedin") x) as [x1|] eqn:E1; [|discriminate].
  intros E2.
  destruct linkedin_plain as [Hil Hnl]. destruct github_plain as [Hig Hng].
  split.
  - apply (normalizeField_keeps_fixed (js "linkedin") (js "github") x1 x'); try assumption.
    + discriminate.
    + exact (normalizeField_again _ _ _ Hil Hnl E1).
  - exact (normalizeField_again _ _ _ Hig Hng E2).
Qed.

(** X1. Normalizing the social links of a record a second time changes
    nothing: what POST /api/update-portfolio stores for data that an
    earlier request already normalized is that same data. *)
Theorem normalizeSocial_idempotent (x x' : value) :
  Server.normalizeSocial x = Ok x' ->
  Server.normalizeSocial x' = Ok x'.
Proof.
  intros H. destruct (normalizeSocial_fixed x x' H) as [Hl Hg].
  unfold Server.normalizeSocial. rewrite Hl. exact Hg.
Qed.

Lemma normalizeSocial_idempotent_witness :
  Server.normalizeSocial
    (VObj [(js "personalInfo",
            VObj [ (js "linkedin", VStr (js "https://linkedin.com/in/ada"));
                   (js "github", VStr (js "https://github.com/ada")) ])])
  = Ok (VObj [(js "personalInfo",
               VObj [ (js "linkedin", VStr (js "https://linkedin.com/in/ada"));
                      (js "github", VStr (js "https://github.com/ada")) ])]).
Proof.
  apply (normalizeSocial_idempotent
           (VObj [(js "personalInfo",
                   VObj [ (js "linkedin", VStr (js "ada"));
                          (js "github", VStr (js "ada")) ])])).
  vm_compute. reflexivity.
Defined.

Lemma normalizeField_link (k : jsstring) (x : value) :
  k = js "linkedin" \/ k = js "github" ->
  Server.normalizeField k x = Ok x ->
  exists info v,
    Val.get x (js "personalInfo") = Ok info /\ Val.get info k = Ok v
    /\ (Val.truthy v = false
        \/ exists url,
            v = VStr url
            /\ Str.startsWith url (js "http://") || Str.startsWith url (js "https://") = true).
Proof.
  intros Hk H.
  assert (Val.inherited k = false /\ k <> js "name") as [Hi Hn]
    by (destruct Hk as [-> | ->]; split; (reflexivity || discriminate)).
  destruct (normalizeField_shape k x x Hi Hn H) as (info & v & Ex & Ei & Hcases).
  exists info, v. split; [exact Ex|]. split; [exact Ei|].
  destruct Hcases as [[Hf _]|[Ht Hr]]; [left; exact Hf|right].
  destruct Hr as (url & info' & Ec & Hurl & Es & Hx & Hgx & Hgi).
  rewrite Ex in Hgx. injection Hgx as <-.
  rewrite Ei in Hgi. injection Hgi as ->.
  exists url. split; [reflexivity|].
  rewrite convert_string in Ec by exact Hurl.
  destruct (Str.startsWith url (js "http://") || Str.startsWith url (js "https://"));
    [reflexivity|].
  exfalso. injection Ec as Ec. apply (f_equal (@length N)) in Ec.
  destruct Hk as [-> | ->].
  - change (length (js "https://linkedin.com/in/" ++ url) = length url) in Ec.
    rewrite length_app in Ec.
    change (length (js "https://linkedin.com/in/")) with 24%nat in Ec. lia.
  - change (length (js "https://github.com/" ++ url) = length url) in Ec.
    rewrite length_app in Ec.
    change (length (js "https://github.com/")) with 19%nat in Ec. lia.
Qed.

(** X2. After the social links of a record are normalized, its LinkedIn
    and GitHub fields are each either falsy (absent, null, empty) or a
    string that starts with http:// or https://, so the records the
    server stores never hold a bare username there. *)
Theorem normalized_links_are_absolute (x x' : value) (k : jsstring) :
  Server.normalizeSocial x = Ok x' ->
  k = js "linkedin" \/ k = js "github" ->
  exists info v,
    Val.get x' (js "personalInfo") = Ok info /\ Val.get info k = Ok v
    /\ (Val.truthy v = false
        \/ exists url,
            v = VStr url
            /\ Str.startsWith url (js "http://") || Str.startsWith url (js "https://") = true).
Proof.
  intros H Hk. destruct (normalizeSocial_fixed x x' H) as [Hl Hg].
  apply normalizeField_link; [exact Hk|].
  destruct Hk as [-> | ->]; assumption.
Qed.

Lemma normalized_links_are_absolute_witness :
  exists info v,
    Val.get (VObj [(js "personalInfo",
                    VObj [ (js "name", VStr (js "Ada"));
                           (js "github", VStr (js "https://github.com/ada")) ])])
      (js "personalInfo") = Ok info
    /\ Val.get info (js "github") = Ok v
    /\ (Val.truthy v = false
        \/ exists url,
            v = VStr url
            /\ Str.startsWith url (js "http://") || Str.startsWith url (js "https://") = true).
Proof.
  apply (normalized_links_are_absolute
           (VObj [(js "personalInfo",
                   VObj [ (js "name", VStr (js "Ada")); (js "github", VStr (js "ada")) ])])).
  - vm_compute. reflexivity.
  - right. reflexivity.
Defined.

Lemma normalizeField_frame (k : jsstring) (x x' : value) :
  Val.inherited k = false -> k <> js "name" ->
  Server.normalizeField k x = Ok x' ->
  (forall k', k' <> js "personalInfo" -> Val.get x' k' = Val.get x k')
  /\ exists info info',
      Val.get x (js "personalInfo") = Ok info
      /\ Val.get x' (js "personalInfo") = Ok info'
      /\ forall k', k' <> k -> Val.get info' k' = Val.get info k'.
Proof.
  intros Hi Hn H.
  destruct (normalizeField_shape k x x' Hi Hn H) as (info & v & Ex & Ei & [[Hf ->]|[Ht Hr]]).
  - split; [reflexivity|]. exists info, info. repeat split; assumption.
  - destruct Hr as (url & info' & Ec & Hurl & Es & Hx & Hgx & Hgi). split.
    + intros k' Hk'. apply (get_after_set_other _ _ _ _ _ Hx). congruence.
    + exists info, info'. repeat split; try assumption.
      intros k' Hk'. apply (get_after_set_other _ _ _ _ _ Es). congruence.
Qed.

(** X3. Normalizing the social links touches nothing else: every other
    top-level property of the record reads as before, and so does every
    property of personalInfo other than linkedin and github. *)
Theorem normalizeSocial_frame (x x' : value) :
  Server.normalizeSocial x = Ok x' ->
  (forall k, k <> js "personalInfo" -> Val.get x' k = Val.get x k)
  /\ exists info info',
      Val.get x (js "personalInfo") = Ok info
      /\ Val.get x' (js "personalInfo") = Ok info'
      /\ forall k, k <> js "linkedin" -> k <> js "github" ->
                   Val.get info' k = Val.get info k.
Proof.
  unfold Server.normalizeSocial.
  destruct (Server.normalizeField (js "linkedin") x) as [x1|] eqn:E1; [|discriminate].
  intros E2.
  destruct linkedin_plain as [Hil Hnl]. destruct github_plain as [Hig Hng].
  destruct (normalizeField_frame _ _ _ Hil Hnl E1) as (F1 & i & i1 & G & G1 & K1).
  destruct (normalizeField_frame _ _ _ Hig Hng E2) as (F2 & i1' & i2 & G1' & G2 & K2).
  rewrite G1 in G1'. injection G1' as <-.
  split.
  - intros k Hk. rewrite (F2 k Hk). exact (F1 k Hk).
  - exists i, i2. repeat split; try assumption.
    intros k Hl Hg. rewrite (K2 k Hg). exact (K1 k Hl).
Qed.

Lemma normalizeSocial_frame_witness :
  Val.get (VObj [ (js "personalInfo",
                   VObj [ (js "name", VStr (js "Ada"));
                          (js "github", VStr (js "https://github.com/ada")) ]);
                  (js "summary", VStr (js "Engineer")) ])
    (js "summary")
  = Val.get (VObj [ (js "personalInfo",
                     VObj [ (js "name", VStr (js "Ada")); (js "github", VStr (js "ada")) ]);
                    (js "summary", VStr (js "Engineer")) ])
      (js "summary").
Proof.
  apply (proj1 (normalizeSocial_frame
                  (VObj [ (js "personalInfo",
                           VObj [ (js "name", VStr (js "Ada"));
                                  (js "github", VStr (js "ada")) ]);
                          (js "summary", VStr (js "Engineer")) ])
                  (VObj [ (js "personalInfo",
                           VObj [ (js "name", VStr (js "Ada"));
                                  (js "github", VStr (js "https://github.com/ada")) ]);
                          (js "summary", VStr (js "Engineer")) ])
                  ltac:(vm_compute; reflexivity))).
  discriminate.
Defined.

(** ** What the cleaning of a model response leaves *)

Lemma startsWith_trans (s p q : jsstring) :
  Str.startsWith s p = true -> Str.startsWith p q = true -> Str.startsWith s q = true.
Proof.
  revert s p. induction q as [|c q IH]; intros s p Hsp Hpq; [reflexivity|].
  destruct p as [|d p]; [discriminate|]. destruct s as [|e s]; [discriminate|].
  simpl in *. apply andb_prop in Hsp as [H1 H2]. apply andb_prop in Hpq as [H3 H4].
  apply N.eqb_eq in H1. apply N.eqb_eq in H3. subst.
  rewrite N.eqb_refl. simpl. exact (IH _ _ H2 H4).
Qed.

Lemma firstMatch_some (pats : list jsstring) (s p : jsstring) :
  Str.firstMatch pats s = Some p -> In p pats /\ Str.startsWith s p = true.
Proof.
  induction pats as [|p0 ps IH]; simpl; [discriminate|].
  destruct (Str.startsWith s p0) eqn:E.
  - intros [= <-]. split; [left; reflexivity | exact E].
  - intros H. destruct (IH H). split; [right|]; assumption.
Qed.

Lemma firstMatch_none (pats : list jsstring) (s p : jsstring) :
  Str.firstMatch pats s = None -> In p pats -> Str.startsWith s p = false.
Proof.
  induction pats as [|p0 ps IH]; simpl; [contradiction|].
  destruct (Str.startsWith s p0) eqn:E; [discriminate|].
  intros H [<- | Hin]; [exact E | exact (IH H Hin)].
Qed.

Lemma includes_cons_false (c : N) (s sub : jsstring) :
  Str.includes (c :: s) sub = false -> Str.includes s sub = false.
Proof. simpl. intros H. apply orb_false_elim in H as [_ H]. exact H. Qed.

Section Fences.

Variable pats : list jsstring.
Variable fence : jsstring.
Hypothesis fence_first : Forall (fun p => Str.startsWith p fence = true) pats.

Lemma firstMatch_fence (s p : jsstring) :
  Str.firstMatch pats s = Some p -> Str.startsWith s fence = true.
Proof.
  intros H. destruct (firstMatch_some _ _ _ H) as [Hin Hs].
  exact (startsWith_trans _ _ _ Hs (proj1 (List.Forall_forall _ _) fence_first _ Hin)).
Qed.

(** A text without the fence is left as it is. *)
Lemma removeAll_without_fence (s : jsstring) :
  fence <> [] ->
  Str.includes s fence = false -> Str.removeAll pats s = s.
Proof.
  intros Hne. unfold Str.removeAll. induction s as [|c s IH]; [reflexivity|].
  intros H. cbn [Str.removeAllFrom].
  destruct (Str.firstMatch pats (c :: s)) as [p|] eqn:E.
  - apply firstMatch_fence in E. simpl in H. rewrite E in H. discriminate.
  - rewrite (IH (includes_cons_false _ _ _ H)). reflexivity.
Qed.

End Fences.

Lemma fence_is_backticks : js "```" = [96; 96; 96].
Proof. reflexivity. Qed.

Lemma removeAllFrom_head (pats : list jsstring) (s r : jsstring) :
  Forall (fun p => Str.startsWith p (js "```") = true) pats ->
  Str.removeAllFrom pats O s = 96 :: r -> exists s', s = 96 :: s'.
Proof.
  intros Hp. destruct s as [|c s]; [discriminate|]. cbn [Str.removeAllFrom].
  destruct (Str.firstMatch pats (c :: s)) as [p|] eqn:E.
  - intros _. apply (firstMatch_fence _ _ Hp) in E. rewrite fence_is_backticks in E.
    cbn [Str.startsWith] in E. apply andb_prop in E as [E _]. apply N.eqb_eq in E.
    subst. eauto.
  - intros [= -> _]. eauto.
Qed.

Lemma removeAllFrom_head2 (pats : list jsstring) (s r : jsstring) :
  Forall (fun p => Str.startsWith p (js "```") = true) pats ->
  Str.removeAllFrom pats O s = 96 :: 96 :: r -> exists s', s = 96 :: 96 :: s'.
Proof.
  intros Hp. destruct s as [|c s]; [discriminate|]. cbn [Str.removeAllFrom].
  destruct (Str.firstMatch pats (c :: s)) as [p|] eqn:E.
  - intros _. apply (firstMatch_fence _ _ Hp) in E. rewrite fence_is_backticks in E.
    destruct s as [|d s]; cbn [Str.startsWith] in E; [rewrite andb_false_r in E; discriminate|].
    apply andb_prop in E as [E1 E2]. apply andb_prop in E2 as [E2 _].
    apply N.eqb_eq in E1. apply N.eqb_eq in E2. subst. eauto.
  - intros [= -> H]. destruct (removeAllFrom_head _ _ _ Hp H) as [s' ->]. eauto.
Qed.

(** One pass that deletes every match of alternatives which all begin
    with the fence, the fence itself among them, leaves no fence. *)
Lemma removeAllFrom_no_fence (pats : list jsstring) (s : jsstring) (k : nat) :
  Forall (fun p => Str.startsWith p (js "```") = true) pats ->
  In (js "```") pats ->
  Str.includes (Str.removeAllFrom pats k s) (js "```") = false.
Proof.
  intros Hp Hin. revert k. induction s as [|c s IH]; intros k; [reflexivity|].
  cbn [Str.removeAllFrom]. destruct k as [|k]; [|apply IH].
  destruct (Str.firstMatch pats (c :: s)) as [p|] eqn:E; [apply IH|].
  cbn [Str.includes]. rewrite IH, orb_false_r.
  destruct (Str.startsWith (c :: Str.removeAllFrom pats 0 s) (js "```")) eqn:F; [|reflexivity].
  exfalso. pose proof (firstMatch_none _ _ _ E Hin) as Hno.
  rewrite fence_is_backticks in F, Hno.
  destruct (Str.removeAllFrom pats 0 s) as [|d1 [|d2 r]] eqn:R; cbn [Str.startsWith] in F;
    rewrite ?andb_false_r in F; try discriminate.
  apply andb_prop in F as [F1 F2]. apply andb_prop in F2 as [F2 F3].
  apply andb_prop in F3 as [F3 _].
  apply N.eqb_eq in F1. apply N.eqb_eq in F2. apply N.eqb_eq in F3. subst.
  destruct (removeAllFrom_head2 _ _ _ Hp R) as [s' ->].
  cbn in Hno. discriminate.
Qed.

Lemma includes_trimStart (s sub : jsstring) :
  Str.includes s sub = false -> Str.includes (Str.trimStart s) sub = false.
Proof.
  induction s as [|c s IH]; [trivial|]. intros H. cbn [Str.trimStart].
  destruct (Str.isWhiteSpace c); [|exact H].
  exact (IH (includes_cons_false _ _ _ H)).
Qed.

Lemma trimStart_suffix (s : jsstring) : exists w, s = w ++ Str.trimStart s.
Proof.
  induction s as [|c s [w IH]]; [exists []; reflexivity|]. cbn [Str.trimStart].
  destruct (Str.isWhiteSpace c); [|exists []; reflexivity].
  exists (c :: w). simpl. rewrite <- IH. reflexivity.
Qed.

Lemma trimEnd_prefix (s : jsstring) : exists w, s = Str.trimEnd s ++ w.
Proof.
  unfold Str.trimEnd. destruct (trimStart_suffix (rev s)) as [w Hw].
  exists (rev w). rewrite <- rev_app_distr, <- Hw, rev_involutive. reflexivity.
Qed.

Lemma includes_prefix (s t sub : jsstring) :
  Str.includes (s ++ t) sub = false -> Str.includes s sub = false.
Proof.
  intros H. destruct (Str.includes s sub) eqn:E; [|reflexivity].
  rewrite (includes_app_l _ t _ E) in H. discriminate.
Qed.

Lemma includes_suffix (s t sub : jsstring) :
  Str.includes (s ++ t) sub = false -> Str.includes t sub = false.
Proof.
  intros H. destruct (Str.includes t sub) eqn:E; [|reflexivity].
  rewrite (includes_app_r s _ _ E) in H. discriminate.
Qed.

Lemma includes_trim (s sub : jsstring) :
  Str.includes s sub = false -> Str.includes (Str.trim s) sub = false.
Proof.
  intros H. unfold Str.trim. apply includes_trimStart in H.
  destruct (trimEnd_prefix (Str.trimStart s)) as [w Hw]. rewrite Hw in H.
  exact (includes_prefix _ _ _ H).
Qed.

Lemma dropUntil_suffix (c : N) (s : jsstring) : exists w, s = w ++ Str.dropUntil c s.
Proof.
  induction s as [|d s [w IH]]; [exists []; reflexivity|]. cbn [Str.dropUntil].
  destruct (d =? c); [exists []; reflexivity|].
  exists (d :: w). simpl. rewrite <- IH. reflexivity.
Qed.

Lemma dropUntil_head (c : N) (s : jsstring) :
  Str.dropUntil c s = [] \/ exists r, Str.dropUntil c s = c :: r.
Proof.
  induction s as [|d s IH]; [left; reflexivity|]. cbn [Str.dropUntil].
  destruct (d =? c) eqn:E; [|exact IH].
  apply N.eqb_eq in E. subst. right. eauto.
Qed.

(** The brace span is a part of the text, from a brace to a brace. *)
Lemma matchBraces_some (s m : jsstring) :
  Str.matchBraces s = Some m ->
  exists a mid b, s = a ++ m ++ b /\ m = 123 :: mid /\ exists mid', m = mid' ++ [125].
Proof.
  unfold Str.matchBraces.
  destruct (dropUntil_suffix 123 s) as [a Ha].
  destruct (dropUntil_head 123 s) as [E|[r E]]; rewrite E in *; [discriminate|].
  destruct (dropUntil_suffix 125 (rev (123 :: r))) as [w Hw].
  destruct (dropUntil_head 125 (rev (123 :: r))) as [F|[z F]]; rewrite F in *.
  - simpl. discriminate.
  - destruct (rev (125 :: z)) as [|x xs] eqn:G; [discriminate|].
    intros [= <-]. rewrite <- G.
    assert (123 :: r = rev (125 :: z) ++ rev w) as Hr.
    { rewrite <- rev_app_distr, <- Hw, rev_involutive. reflexivity. }
    rewrite G in Hr. injection Hr as Hx Hr. subst x.
    exists a, xs, (rev w). rewrite G. split; [|split].
    + rewrite Ha at 1. f_equal. simpl. f_equal. exact Hr.
    + reflexivity.
    + exists (rev z). rewrite <- G. reflexivity.
Qed.

Lemma cleanJsonText_cases (text : jsstring) :
  let jsonText :=
    Str.trim (Str.removeAll [js "```"] (Str.removeAll [js "```json"] text)) in
  Server.cleanJsonText text = jsonText
  \/ (Str.startsWith jsonText (js "{") = false
      /\ Str.matchBraces jsonText = Some (Server.cleanJsonText text)).
Proof.
  intros jsonText. unfold Server.cleanJsonText. fold jsonText.
  destruct (Str.startsWith jsonText (js "{")) eqn:E; cbn [negb]; [left; reflexivity|].
  destruct (Str.matchBraces jsonText) eqn:F; [right; split; reflexivity | left; reflexivity].
Qed.

Lemma server_fence_pass (s : jsstring) :
  Str.includes (Str.trim (Str.removeAll [js "```"] s)) (js "```") = false.
Proof.
  apply includes_trim. apply removeAllFrom_no_fence.
  - repeat constructor.
  - left. reflexivity.
Qed.

Lemma generate_fence_pass (s : jsstring) :
  Str.includes (GeneratePortfolio.cleanedJsonString s) (js "```") = false.
Proof.
  apply includes_trim. apply removeAllFrom_no_fence.
  - repeat constructor.
  - right. left. reflexivity.
Qed.

Lemma cleanJsonText_no_fence (text : jsstring) :
  Str.includes (Server.cleanJsonText text) (js "```") = false.
Proof.
  pose proof (server_fence_pass (Str.removeAll [js "```json"] text)) as H.
  destruct (cleanJsonText_cases text) as [-> | [_ Hm]]; [exact H|].
  destruct (matchBraces_some _ _ Hm) as (a & mid & b & Hs & _).
  rewrite Hs in H. apply includes_suffix in H. exact (includes_prefix _ _ _ H).
Qed.

(** X4. Whatever the model answers, the text handed to JSON.parse holds
    no code fence: the cleaning of server.js and of the Netlify generate
    function (which share it) and that of generate-portfolio.js leave no
    run of three backticks. *)
Theorem cleaned_text_has_no_fence (text : jsstring) :
  Str.includes (Server.cleanJsonText text) (js "```") = false
  /\ Str.includes (GeneratePortfolio.cleanedJsonString text) (js "```") = false.
Proof.
  split; [apply cleanJsonText_no_fence | apply generate_fence_pass].
Qed.

Lemma trimStart_head (s : jsstring) :
  Str.trimStart s = [] \/ exists c r, Str.trimStart s = c :: r /\ Str.isWhiteSpace c = false.
Proof.
  induction s as [|c s IH]; [left; reflexivity|]. cbn [Str.trimStart].
  destruct (Str.isWhiteSpace c) eqn:E; [exact IH|]. right. eauto.
Qed.

Lemma trimStart_fixed (c : N) (r : jsstring) :
  Str.isWhiteSpace c = false -> Str.trimStart (c :: r) = c :: r.
Proof. intros H. cbn [Str.trimStart]. rewrite H. reflexivity. Qed.

Lemma trimEnd_fixed (r : jsstring) (c : N) :
  Str.isWhiteSpace c = false -> Str.trimEnd (r ++ [c]) = r ++ [c].
Proof.
  intros H. unfold Str.trimEnd. rewrite rev_app_distr. cbn [rev app].
  rewrite (trimStart_fixed _ _ H). change (c :: rev r) with ([c] ++ rev r).
  rewrite rev_app_distr, rev_involutive. reflexivity.
Qed.

Lemma trimEnd_last (s : jsstring) :
  Str.trimEnd s = [] \/ exists r c, Str.trimEnd s = r ++ [c] /\ Str.isWhiteSpace c = false.
Proof.
  unfold Str.trimEnd. destruct (trimStart_head (rev s)) as [-> | (c & r & -> & Hc)];
    [left; reflexivity|].
  right. exists (rev r), c. split; [reflexivity | exact Hc].
Qed.

(** A trimmed text is empty, or begins and ends with a code unit that is
    not white space. *)
Lemma trim_shape (s : jsstring) :
  Str.trim s = []
  \/ exists c r r' d,
      Str.trim s = c :: r /\ Str.isWhiteSpace c = false
      /\ Str.trim s = r' ++ [d] /\ Str.isWhiteSpace d = false.
Proof.
  unfold Str.trim. destruct (trimStart_head s) as [-> | (c & r & E & Hc)];
    [left; reflexivity|].
  rewrite E. destruct (trimEnd_last (c :: r)) as [F | (r' & d & F & Hd)];
    [left; exact F|].
  right. destruct (trimEnd_prefix (c :: r)) as [w Hw]. rewrite F in *.
  destruct r' as [|x r']; simpl in Hw; injection Hw as -> Hw.
  - exists d, [], [], d. repeat split; assumption.
  - exists x, (r' ++ [d]), (x :: r'), d. repeat split; assumption.
Qed.

Lemma trim_fixed (c d : N) (r r' : jsstring) :
  Str.isWhiteSpace c = false -> Str.isWhiteSpace d = false ->
  c :: r = r' ++ [d] -> Str.trim (c :: r) = c :: r.
Proof.
  intros Hc Hd E. unfold Str.trim. rewrite (trimStart_fixed _ _ Hc), E.
  exact (trimEnd_fixed _ _ Hd).
Qed.

Lemma trim_idempotent (s : jsstring) : Str.trim (Str.trim s) = Str.trim s.
Proof.
  destruct (trim_shape s) as [-> | (c & r & r' & d & E & Hc & F & Hd)]; [reflexivity|].
  rewrite E. apply (trim_fixed c d r r' Hc Hd). rewrite <- E. exact F.
Qed.

Lemma removeAll_json_fence_without (s : jsstring) :
  Str.includes s (js "```") = false -> Str.removeAll [js "```json"] s = s.
Proof.
  apply (removeAll_without_fence [js "```json"] (js "```")).
  - repeat constructor.
  - discriminate.
Qed.

Lemma removeAll_plain_fence_without (s : jsstring) :
  Str.includes s (js "```") = false -> Str.removeAll [js "```"] s = s.
Proof.
  apply (removeAll_without_fence [js "```"] (js "```")).
  - repeat constructor.
  - discriminate.
Qed.

Lemma generate_removeAll_without (s : jsstring) :
  Str.includes s (js "```") = false ->
  Str.removeAll [js "```json" ++ [10]; js "```"] s = s.
Proof.
  apply (removeAll_without_fence [js "```json" ++ [10]; js "```"] (js "```")).
  - repeat constructor.
  - discriminate.
Qed.

(** X5. Cleaning is idempotent: a text that one of the pipelines has
    already cleaned passes through the same cleaning unchanged, so the
    result of cleaning is itself in the form JSON.parse is given. *)
Theorem cleaning_is_idempotent (text : jsstring) :
  Server.cleanJsonText (Server.cleanJsonText text) = Server.cleanJsonText text
  /\ GeneratePortfolio.cleanedJsonString (GeneratePortfolio.cleanedJsonString text)
     = GeneratePortfolio.cleanedJsonString text.
Proof.
  split.
  - pose proof (cleanJsonText_no_fence text) as Hno.
    set (c := Server.cleanJsonText text) in *.
    assert (Str.trim c = c /\ (Str.startsWith c (js "{") = true \/ Str.matchBraces c = None))
      as [Ht Hc].
    { subst c. destruct (cleanJsonText_cases text) as [E | [Hs Hm]].
      - rewrite E. split; [apply trim_idempotent|].
        destruct (Str.startsWith _ (js "{")) eqn:S; [left; reflexivity|]. right.
        destruct (Str.matchBraces _) as [m|] eqn:M; [|reflexivity]. exfalso.
        unfold Server.cleanJsonText in E. cbv zeta in E. rewrite S, M in E.
        cbn [negb] in E. subst m.
        destruct (matchBraces_some _ _ M) as (a & mid & b & _ & Hm & _).
        rewrite Hm in S. discriminate.
      - destruct (matchBraces_some _ _ Hm) as (a & mid & b & _ & Hb & mid' & He).
        rewrite Hb. split; [|left; reflexivity].
        apply (trim_fixed 123 125 mid mid'); [reflexivity | reflexivity|].
        rewrite <- Hb. exact He. }
    unfold Server.cleanJsonText at 1.
    rewrite (removeAll_json_fence_without _ Hno), (removeAll_plain_fence_without _ Hno), Ht.
    destruct Hc as [-> | Hm]; [reflexivity|].
    rewrite Hm. destruct (negb _); reflexivity.
  - pose proof (generate_fence_pass text) as Hno.
    unfold GeneratePortfolio.cleanedJsonString at 1.
    rewrite (generate_removeAll_without _ Hno).
    apply trim_idempotent.
Qed.

(** ** The fence of generate-portfolio.js *)

Lemma startsWith_common_prefix (p s q : jsstring) :
  Str.startsWith (p ++ s) (p ++ q) = Str.startsWith s q.
Proof.
  induction p as [|c p IH]; [reflexivity|]. simpl. rewrite N.eqb_refl. exact IH.
Qed.

Lemma trim_keeps_head (c : N) (s : jsstring) :
  Str.isWhiteSpace c = false -> Str.trim (c :: s) = c :: Str.trimEnd s.
Proof.
  intros H. unfold Str.trim. rewrite (trimStart_fixed _ _ H).
  exact (trimEnd_stop [] c s H).
Qed.

Lemma parse_rejects_letter_j (s : jsstring) : Json.parse (106 :: s) = Throw SyntaxError.
Proof. reflexivity. Qed.

Lemma generate_fence_without_newline (rest : jsstring) :
  Str.startsWith rest [10] = false ->
  exists s, GeneratePortfolio.cleanedJsonString (js "```json" ++ rest) = 106 :: s.
Proof.
  intros H. unfold GeneratePortfolio.cleanedJsonString, Str.removeAll.
  change (js "```json" ++ rest) with (js "```" ++ 106 :: js "son" ++ rest).
  rewrite removeAllFrom_match.
  - cbn [Str.removeAllFrom].
    rewrite firstMatch_plain by (backticks || reflexivity).
    rewrite trim_keeps_head by reflexivity. eauto.
  - discriminate.
  - cbn [Str.firstMatch].
    change (js "```" ++ 106 :: js "son" ++ rest) with (js "```json" ++ rest).
    rewrite startsWith_common_prefix, H.
    change (js "```json" ++ rest) with (js "```" ++ 106 :: js "son" ++ rest).
    rewrite startsWith_app. reflexivity.
Qed.

(** X6. generate-portfolio.js accepts the opening fence only when a line
    feed follows it directly: a response that begins with the fence and
    its language tag followed by anything else (a space, a carriage
    return, the object itself) is rejected by JSON.parse, after the one
    model call that produced it. *)
Theorem generate_fence_needs_newline gen resumeText w rest :
  Conv.interpolate resumeText = Ok tt ->
  gen (modelCalls w) = Text (js "```json" ++ rest) ->
  Str.startsWith rest [10] = false ->
  GeneratePortfolio.generateFromResume gen resumeText w
  = (Throw SyntaxError,
     {| modelCalls := S (modelCalls w); portfolios := portfolios w; rows := rows w |}).
Proof.
  intros Hi Hg Hr. destruct (generate_fence_without_newline rest Hr) as [s Hs].
  unfold GeneratePortfolio.generateFromResume, bind, lift, callModel.
  rewrite Hi, Hg, Hs. rewrite parse_rejects_letter_j. reflexivity.
Qed.

Lemma generate_fence_needs_newline_witness :
  GeneratePortfolio.generateFromResume
    (Scenario.replies [Text (js "```json {}```"); Text (js "Default")])
    (VStr (js "cv")) Scenario.start
  = (Throw SyntaxError, {| modelCalls := 1; portfolios := Store.empty; rows := [] |}).
Proof.
  apply (generate_fence_needs_newline
           (Scenario.replies [Text (js "```json {}```"); Text (js "Default")])
           (VStr (js "cv")) Scenario.start (js " {}```")); reflexivity.
Defined.

(** ** Parsing the model's response, on every text *)

Lemma lastIs_cons (c d : N) (s : jsstring) :
  s <> [] -> Str.lastIs c (d :: s) = Str.lastIs c s.
Proof. destruct s; [congruence | reflexivity]. Qed.

Lemma lastIs_app (c : N) (s t : jsstring) :
  t <> [] -> Str.lastIs c (s ++ t) = Str.lastIs c t.
Proof.
  intros Ht. induction s as [|d s IH]; [reflexivity|].
  cbn [app]. rewrite lastIs_cons; [exact IH|].
  destruct s; [exact Ht | discriminate].
Qed.

(** In a text without a fence that does not end in a back-tick, no fence
    starts, whatever follows the text. *)
Lemma no_fence_starts_inside (c : N) (s t : jsstring) :
  Str.includes (c :: s) (js "```") = false ->
  Str.lastIs 96 (c :: s) = false ->
  Str.startsWith (c :: s ++ t) (js "```") = false.
Proof.
  rewrite fence_is_backticks. intros Hi Hl.
  cbn [Str.includes] in Hi. apply orb_false_elim in Hi as [Hi _].
  destruct (N.eqb_spec 96 c) as [<- | Hc];
    [|cbn [Str.startsWith]; destruct (N.eqb_spec 96 c); [congruence | reflexivity]].
  destruct s as [|d [|e s]].
  - discriminate Hl.
  - cbn [Str.lastIs] in Hl. cbn [Str.startsWith app].
    rewrite (N.eqb_sym 96 d), Hl. reflexivity.
  - cbn [Str.startsWith app]. cbn [Str.startsWith] in Hi.
    rewrite N.eqb_refl in *. cbn [andb] in *.
    destruct (96 =? d); [|reflexivity]. destruct (96 =? e); [|reflexivity].
    discriminate Hi.
Qed.

Lemma removeAllFrom_clean (pats : list jsstring) (s t : jsstring) :
  Forall (fun p => Str.startsWith p (js "```") = true) pats ->
  Str.includes s (js "```") = false ->
  Str.lastIs 96 s = false ->
  Str.removeAllFrom pats O (s ++ t) = s ++ Str.removeAllFrom pats O t.
Proof.
  intros Hp. induction s as [|c s IH]; [reflexivity|]. intros Hi Hl.
  cbn [app Str.removeAllFrom].
  destruct (Str.firstMatch pats (c :: s ++ t)) as [p|] eqn:E.
  - apply (firstMatch_fence _ _ Hp) in E.
    rewrite (no_fence_starts_inside c s t Hi Hl) in E. discriminate.
  - f_equal. destruct s as [|d s]; [reflexivity|].
    apply IH; [exact (includes_cons_false _ _ _ Hi) | exact Hl].
Qed.

Lemma includes_clean_app (s t : jsstring) :
  Str.includes s (js "```") = false ->
  Str.lastIs 96 s = false ->
  Str.includes t (js "```") = false ->
  Str.includes (s ++ t) (js "```") = false.
Proof.
  intros Hi Hl Ht. induction s as [|c s IH]; [exact Ht|].
  cbn [app Str.includes]. rewrite (no_fence_starts_inside c s t Hi Hl). cbn [orb].
  destruct s as [|d s]; [exact Ht|].
  apply IH; [exact (includes_cons_false _ _ _ Hi) | exact Hl].
Qed.

Lemma lastIs_clean_app (s t : jsstring) :
  Str.lastIs 96 s = false -> Str.lastIs 96 t = false -> Str.lastIs 96 (s ++ t) = false.
Proof.
  intros Hs Ht. destruct t as [|c t]; [rewrite app_nil_r; exact Hs|].
  rewrite lastIs_app by discriminate. exact Ht.
Qed.

Lemma startsWith_app_true (s p q : jsstring) :
  Str.startsWith s (p ++ q) = true -> Str.startsWith s p = true.
Proof.
  revert s. induction p as [|c p IH]; intros s; [reflexivity|].
  destruct s as [|d s]; [discriminate|]. cbn [app Str.startsWith].
  intros H. apply andb_prop in H as [H1 H2]. rewrite H1. exact (IH s H2).
Qed.

Lemma includes_shorter (s p q : jsstring) :
  Str.includes s p = false -> Str.includes s (p ++ q) = false.
Proof.
  induction s as [|c s IH]; cbn [Str.includes]; intros H;
    apply orb_false_elim in H as [H1 H2].
  - destruct (Str.startsWith [] (p ++ q)) eqn:E; [|reflexivity].
    rewrite (startsWith_app_true _ _ _ E) in H1. discriminate.
  - rewrite (IH H2), orb_false_r.
    destruct (Str.startsWith (c :: s) (p ++ q)) eqn:E; [|reflexivity].
    rewrite (startsWith_app_true _ _ _ E) in H1. discriminate.
Qed.

(** After a closing fence, text that neither begins with a back-tick nor
    with [json] forms no opening fence with it. *)
Lemma closing_fence_is_not_opening (post : jsstring) :
  Str.includes post (js "```") = false ->
  Str.startsWith post (js "`") = false ->
  Str.startsWith post (js "json") = false ->
  Str.includes (js "```" ++ post) (js "```json") = false.
Proof.
  intros Hi Hb Hj.
  change (js "```" ++ post) with (96 :: 96 :: 96 :: post).
  change (js "```json") with (js "```" ++ js "json").
  cbn [Str.includes]. rewrite (includes_shorter post _ (js "json") Hi).
  change (js "```" ++ js "json") with (96 :: 96 :: 96 :: js "json").
  cbn [Str.startsWith]. rewrite N.eqb_refl. cbn [andb]. rewrite Hj. cbn [orb].
  destruct post as [|c post]; [reflexivity|].
  change (js "`") with [96] in Hb. cbn [Str.startsWith] in Hb.
  rewrite andb_true_r in Hb. rewrite Hb. reflexivity.
Qed.

Lemma removeAll_opening_without (s : jsstring) :
  Str.includes s (js "```json") = false -> Str.removeAll [js "```json"] s = s.
Proof.
  apply (removeAll_without_fence [js "```json"] (js "```json")).
  - repeat constructor.
  - discriminate.
Qed.

(** What the two [replace] calls of server.js leave of a fenced text: the
    text without its two markers. *)
Lemma server_fence_removed (pre body post : jsstring) :
  Str.includes pre (js "```") = false -> Str.lastIs 96 pre = false ->
  Str.includes body (js "```") = false -> Str.lastIs 96 body = false ->
  Str.includes post (js "```") = false ->
  Str.startsWith post (js "`") = false ->
  Str.startsWith post (js "json") = false ->
  Str.removeAll [js "```"]
    (Str.removeAll [js "```json"] (pre ++ js "```json" ++ body ++ js "```" ++ post))
  = pre ++ body ++ post
  /\ Str.includes (pre ++ body ++ post) (js "```") = false.
Proof.
  intros Hp Hpl Hb Hbl Hq Hq1 Hq2.
  assert (Hall : Str.includes (pre ++ body ++ post) (js "```") = false).
  { apply includes_clean_app; [exact Hp | exact Hpl|].
    apply includes_clean_app; assumption. }
  split; [|exact Hall].
  assert (Str.removeAll [js "```json"] (pre ++ js "```json" ++ body ++ js "```" ++ post)
          = (pre ++ body) ++ js "```" ++ post) as ->.
  { unfold Str.removeAll.
    rewrite removeAllFrom_clean by (first [exact Hp | exact Hpl | repeat constructor]).
    rewrite (removeAllFrom_match [js "```json"] (js "```json"))
      by (first [discriminate | apply firstMatch_head]).
    rewrite removeAllFrom_clean by (first [exact Hb | exact Hbl | repeat constructor]).
    fold (Str.removeAll [js "```json"] (js "```" ++ post)).
    rewrite (removeAll_opening_without _ (closing_fence_is_not_opening post Hq Hq1 Hq2)).
    rewrite app_assoc. reflexivity. }
  unfold Str.removeAll.
  rewrite removeAllFrom_clean;
    [| repeat constructor
     | apply includes_clean_app; assumption
     | apply lastIs_clean_app; assumption ].
  rewrite (removeAllFrom_match [js "```"] (js "```"))
    by (first [discriminate | apply firstMatch_head]).
  fold (Str.removeAll [js "```"] post).
  rewrite (removeAll_plain_fence_without _ Hq), <- app_assoc. reflexivity.
Qed.


(** The same for the single [replace] of generate-portfolio.js, whose
    opening marker ends with the line feed. *)
Lemma generate_fence_removed (pre body post : jsstring) :
  Str.includes pre (js "```") = false -> Str.lastIs 96 pre = false ->
  Str.includes body (js "```") = false -> Str.lastIs 96 body = false ->
  Str.includes post (js "```") = false ->
  Str.startsWith post (js "json" ++ [10]) = false ->
  Str.removeAll [js "```json" ++ [10]; js "```"]
    (pre ++ (js "```json" ++ [10]) ++ body ++ js "```" ++ post)
  = pre ++ body ++ post.
Proof.
  intros Hp Hpl Hb Hbl Hq Hj. unfold Str.removeAll.
  rewrite removeAllFrom_clean by (first [exact Hp | exact Hpl | repeat constructor]).
  rewrite (removeAllFrom_match _ (js "```json" ++ [10]))
    by (first [discriminate | apply firstMatch_head]).
  rewrite removeAllFrom_clean by (first [exact Hb | exact Hbl | repeat constructor]).
  assert (Str.firstMatch [js "```json" ++ [10]; js "```"] (js "```" ++ post)
          = Some (js "```")) as Hm.
  { cbn [Str.firstMatch].
    replace (Str.startsWith (js "```" ++ post) (js "```json" ++ [10]))
      with (Str.startsWith post (js "json" ++ [10]))
      by (symmetry; apply (startsWith_common_prefix (js "```") post (js "json" ++ [10]))).
    rewrite Hj, startsWith_app. reflexivity. }
  rewrite (removeAllFrom_match _ (js "```")) by (first [discriminate | exact Hm]).
  fold (Str.removeAll [js "```json" ++ [10]; js "```"] post).
  rewrite (generate_removeAll_without _ Hq). reflexivity.
Qed.

Lemma lacks_no_fence (s : jsstring) :
  Str.lacks 96 s = true -> Str.includes s (js "```") = false.
Proof.
  rewrite fence_is_backticks. induction s as [|c s IH]; [reflexivity|].
  intros H. apply andb_prop in H as [Hc Hs]. apply negb_true_iff in Hc.
  cbn [Str.includes Str.startsWith]. rewrite (N.eqb_sym 96 c), Hc, (IH Hs). reflexivity.
Qed.

Lemma lacks_lastIs (c : N) (s : jsstring) :
  Str.lacks c s = true -> Str.lastIs c s = false.
Proof.
  induction s as [|d s IH]; [reflexivity|]. intros H.
  apply andb_prop in H as [Hd Hs]. apply negb_true_iff in Hd.
  destruct s as [|e s]; [exact Hd|]. rewrite lastIs_cons by discriminate. exact (IH Hs).
Qed.

Lemma blank_starts_with_no_letter (s p : jsstring) (c : N) :
  forallb Str.isWhiteSpace s = true -> Str.isWhiteSpace c = false ->
  Str.startsWith s (c :: p) = false.
Proof.
  destruct s as [|d s]; [reflexivity|]. cbn [forallb Str.startsWith]. intros H Hc.
  apply andb_prop in H as [Hd _].
  destruct (N.eqb_spec c d) as [-> | _]; [congruence | reflexivity].
Qed.

(** *** The brace span *)

Lemma split_first (c : N) (s : jsstring) :
  Str.lacks c s = true
  \/ exists pre rest, s = pre ++ c :: rest /\ Str.lacks c pre = true.
Proof.
  induction s as [|d s IH]; [left; reflexivity|].
  destruct (N.eqb_spec d c) as [-> | Hd].
  - right. exists [], s. split; reflexivity.
  - destruct IH as [IH | (pre & rest & -> & Hp)].
    + left. cbn [Str.lacks forallb]. apply N.eqb_neq in Hd. rewrite Hd. exact IH.
    + right. exists (d :: pre), rest. split; [reflexivity|].
      cbn [Str.lacks forallb]. apply N.eqb_neq in Hd. rewrite Hd. exact Hp.
Qed.

Lemma split_last (c : N) (s : jsstring) :
  Str.lacks c s = true
  \/ exists rest post, s = rest ++ c :: post /\ Str.lacks c post = true.
Proof.
  destruct (split_first c (rev s)) as [H | (pre & rest & E & Hp)].
  - left. rewrite lacks_rev in H. exact H.
  - right. exists (rev rest), (rev pre). split; [|rewrite lacks_rev; exact Hp].
    rewrite <- (rev_involutive s), E, rev_app_distr. cbn [rev].
    rewrite <- app_assoc. reflexivity.
Qed.

Lemma dropUntil_nil (c : N) (s : jsstring) :
  Str.lacks c s = true -> Str.dropUntil c s = [].
Proof.
  induction s as [|d s IH]; [reflexivity|]. intros H.
  apply andb_prop in H as [Hd Hs]. apply negb_true_iff in Hd.
  cbn [Str.dropUntil]. rewrite Hd. exact (IH Hs).
Qed.

Lemma matchBraces_no_opening (s : jsstring) :
  Str.lacks 123 s = true -> Str.matchBraces s = None.
Proof. intros H. unfold Str.matchBraces. rewrite (dropUntil_nil _ _ H). reflexivity. Qed.

Lemma matchBraces_no_closing (pre rest : jsstring) :
  Str.lacks 123 pre = true -> Str.lacks 125 rest = true ->
  Str.matchBraces (pre ++ 123 :: rest) = None.
Proof.
  intros Hp Hr. unfold Str.matchBraces. rewrite (dropUntil_lacks _ _ _ Hp).
  cbn [rev]. rewrite dropUntil_nil; [reflexivity|].
  rewrite lacks_app, lacks_rev, Hr. reflexivity.
Qed.

(** The three ways a text can stand to the brace pattern. *)
Lemma matchBraces_cases (s : jsstring) :
  (Str.matchBraces s = None
   /\ (Str.lacks 123 s = true
       \/ exists pre rest,
           s = pre ++ 123 :: rest /\ Str.lacks 123 pre = true /\ Str.lacks 125 rest = true))
  \/ exists pre mid post,
       s = pre ++ 123 :: mid ++ 125 :: post
       /\ Str.lacks 123 pre = true /\ Str.lacks 125 post = true
       /\ Str.matchBraces s = Some (123 :: mid ++ [125]).
Proof.
  destruct (split_first 123 s) as [H | (pre & rest & -> & Hp)].
  - left. split; [exact (matchBraces_no_opening s H) | left; exact H].
  - destruct (split_last 125 rest) as [H | (mid & post & -> & Hq)].
    + left. split; [exact (matchBraces_no_closing pre rest Hp H)|].
      right. exists pre, rest. auto.
    + right. exists pre, mid, post. repeat split; try assumption.
      exact (matchBraces_span pre mid post Hp Hq).
Qed.

(** Lines 124-134 on every text: the guard, the span, or the text as it
    is. *)
Lemma cleanJsonText_characterized (text : jsstring) :
  let jsonText :=
    Str.trim (Str.removeAll [js "```"] (Str.removeAll [js "```json"] text)) in
  (Str.startsWith jsonText (js "{") = true /\ Server.cleanJsonText text = jsonText)
  \/ (exists pre mid post,
         jsonText = pre ++ 123 :: mid ++ 125 :: post
         /\ pre <> [] /\ Str.lacks 123 pre = true /\ Str.lacks 125 post = true
         /\ Server.cleanJsonText text = 123 :: mid ++ [125])
  \/ (Str.startsWith jsonText (js "{") = false
      /\ (Str.lacks 123 jsonText = true
          \/ exists pre rest,
              jsonText = pre ++ 123 :: rest
              /\ Str.lacks 123 pre = true /\ Str.lacks 125 rest = true)
      /\ Server.cleanJsonText text = jsonText).
Proof.
  intros jsonText. unfold Server.cleanJsonText. fold jsonText.
  destruct (Str.startsWith jsonText (js "{")) eqn:E; cbn [negb]; [left; auto|].
  right.
  destruct (matchBraces_cases jsonText) as [[Hm Hs] | (pre & mid & post & Hs & Hp & Hq & Hm)];
    rewrite Hm.
  - right. auto.
  - left. exists pre, mid, post. repeat split; try assumption.
    intros ->. rewrite Hs in E. discriminate.
Qed.

(** A JSON object and the text around it, no fence in sight: the object
    is what is parsed when the text around it is blank, and when text
    with a visible character and no opening brace precedes it and text
    without a closing brace follows it. *)
Lemma server_object_in_text (before mid after : jsstring) :
  Str.includes (before ++ 123 :: mid ++ 125 :: after) (js "```") = false ->
  (forallb Str.isWhiteSpace before = true /\ forallb Str.isWhiteSpace after = true)
  \/ (Str.trimStart before <> [] /\ Str.lacks 123 before = true
      /\ Str.lacks 125 after = true) ->
  Server.cleanJsonText (before ++ 123 :: mid ++ 125 :: after) = 123 :: mid ++ [125].
Proof.
  intros Hno Hc. unfold Server.cleanJsonText.
  rewrite (removeAll_json_fence_without _ Hno), (removeAll_plain_fence_without _ Hno).
  destruct Hc as [[Ha Hb] | (Hvis & Hpre & Hpost)].
  - rewrite trim_between by (assumption || reflexivity). reflexivity.
  - unfold Str.trim. rewrite trimStart_app_keep by exact Hvis.
    change (Str.trimStart before ++ 123 :: mid ++ 125 :: after)
      with (Str.trimStart before ++ (123 :: mid) ++ 125 :: after).
    rewrite app_assoc, trimEnd_stop by reflexivity.
    rewrite <- app_assoc.
    change ((123 :: mid) ++ 125 :: Str.trimEnd after)
      with (123 :: mid ++ 125 :: Str.trimEnd after).
    rewrite startsWith_brace_lacks by (auto using trimStart_lacks).
    change (negb false) with true. cbv iota.
    rewrite matchBraces_span by (auto using trimStart_lacks, trimEnd_lacks).
    reflexivity.
Qed.

Lemma server_strips_to (text s : jsstring) :
  Str.removeAll [js "```"] (Str.removeAll [js "```json"] text) = s ->
  Str.includes s (js "```") = false ->
  Server.cleanJsonText text = Server.cleanJsonText s.
Proof.
  intros H Hno. unfold Server.cleanJsonText.
  rewrite H, (removeAll_json_fence_without _ Hno), (removeAll_plain_fence_without _ Hno).
  reflexivity.
Qed.

Lemma regroup_object (pre a mid b post : jsstring) :
  pre ++ (a ++ 123 :: mid ++ 125 :: b) ++ post
  = (pre ++ a) ++ 123 :: mid ++ 125 :: (b ++ post).
Proof.
  rewrite <- !app_assoc. cbn [app]. rewrite <- !app_assoc. reflexivity.
Qed.

(** A JSON object in a fence, with text around the fence. *)
Lemma server_fenced_object_in_text (pre a mid b post : jsstring) :
  Str.includes pre (js "```") = false -> Str.lastIs 96 pre = false ->
  Str.includes (a ++ 123 :: mid ++ 125 :: b) (js "```") = false ->
  Str.lastIs 96 (a ++ 123 :: mid ++ 125 :: b) = false ->
  Str.includes post (js "```") = false ->
  Str.startsWith post (js "`") = false ->
  Str.startsWith post (js "json") = false ->
  (forallb Str.isWhiteSpace (pre ++ a) = true /\ forallb Str.isWhiteSpace (b ++ post) = true)
  \/ (Str.trimStart (pre ++ a) <> [] /\ Str.lacks 123 (pre ++ a) = true
      /\ Str.lacks 125 (b ++ post) = true) ->
  Server.cleanJsonText
    (pre ++ js "```json" ++ (a ++ 123 :: mid ++ 125 :: b) ++ js "```" ++ post)
  = 123 :: mid ++ [125].
Proof.
  intros H1 H2 H3 H4 H5 H6 H7 Hc.
  destruct (server_fence_removed pre _ post H1 H2 H3 H4 H5 H6 H7) as [Hs Hno].
  rewrite (server_strips_to _ _ Hs Hno).
  rewrite regroup_object in Hno |- *.
  exact (server_object_in_text _ _ _ Hno Hc).
Qed.

Lemma generate_without_fence (text : jsstring) :
  Str.includes text (js "```") = false ->
  GeneratePortfolio.cleanedJsonString text = Str.trim text.
Proof.
  intros H. unfold GeneratePortfolio.cleanedJsonString.
  rewrite (generate_removeAll_without _ H). reflexivity.
Qed.

Lemma blank_is_clean (s : jsstring) :
  forallb Str.isWhiteSpace s = true ->
  Str.includes s (js "```") = false /\ Str.lastIs 96 s = false.
Proof.
  intros H. pose proof (whitespace_lacks_backtick s H) as Hl.
  split; [exact (lacks_no_fence s Hl) | exact (lacks_lastIs 96 s Hl)].
Qed.

Lemma generate_fenced_object_in_text (pre a mid b post : jsstring) :
  forallb Str.isWhiteSpace pre = true ->
  forallb Str.isWhiteSpace post = true ->
  forallb Str.isWhiteSpace a = true ->
  forallb Str.isWhiteSpace b = true ->
  Str.includes (a ++ 123 :: mid ++ 125 :: b) (js "```") = false ->
  Str.lastIs 96 (a ++ 123 :: mid ++ 125 :: b) = false ->
  GeneratePortfolio.cleanedJsonString
    (pre ++ (js "```json" ++ [10]) ++ (a ++ 123 :: mid ++ 125 :: b) ++ js "```" ++ post)
  = 123 :: mid ++ [125].
Proof.
  intros Hp Hq Ha Hb Hbody Hlast.
  destruct (blank_is_clean pre Hp) as [Hp1 Hp2].
  destruct (blank_is_clean post Hq) as [Hq1 _].
  unfold GeneratePortfolio.cleanedJsonString.
  rewrite (generate_fence_removed pre _ post Hp1 Hp2 Hbody Hlast Hq1
             (blank_starts_with_no_letter post _ 106 Hq eq_refl)).
  rewrite regroup_object.
  apply trim_between; try reflexivity; rewrite forallb_app.
  - rewrite Hp, Ha. reflexivity.
  - rewrite Hb, Hq. reflexivity.
Qed.

Lemma object_without_fence (a mid b : jsstring) :
  forallb Str.isWhiteSpace a = true -> forallb Str.isWhiteSpace b = true ->
  Str.includes mid (js "```") = false ->
  Str.includes (a ++ 123 :: mid ++ 125 :: b) (js "```") = false.
Proof.
  intros Ha Hb Hm.
  destruct (blank_is_clean a Ha) as [Ha1 Ha2]. destruct (blank_is_clean b Hb) as [Hb1 _].
  apply includes_clean_app; [exact Ha1 | exact Ha2|].
  change (123 :: mid ++ 125 :: b) with ([123] ++ mid ++ 125 :: b).
  apply includes_clean_app; [reflexivity | reflexivity|].
  rewrite fence_is_backticks in *.
  induction mid as [|c mid IH].
  - cbn [app Str.includes Str.startsWith]. change (96 =? 125) with false. exact Hb1.
  - cbn [app Str.includes]. cbn [Str.includes] in Hm.
    apply orb_false_elim in Hm as [Hs Hm]. rewrite (IH Hm), orb_false_r.
    cbn [Str.startsWith] in *. destruct (96 =? c); [|reflexivity]. cbn [andb] in *.
    destruct mid as [|d mid]; [reflexivity|]. cbn [app] in *.
    destruct (96 =? d); [|reflexivity]. cbn [andb] in *.
    destruct mid as [|e mid]; [reflexivity|]. cbn [app] in *.
    destruct (96 =? e); [discriminate Hs | reflexivity].
Qed.

Lemma object_ends_without_backtick (a mid b : jsstring) :
  forallb Str.isWhiteSpace b = true ->
  Str.lastIs 96 (a ++ 123 :: mid ++ 125 :: b) = false.
Proof.
  intros Hb. rewrite lastIs_app by discriminate.
  change (123 :: mid ++ 125 :: b) with ((123 :: mid) ++ 125 :: b).
  rewrite lastIs_app by discriminate.
  destruct b as [|c b]; [reflexivity|]. rewrite lastIs_cons by discriminate.
  exact (lacks_lastIs 96 _ (whitespace_lacks_backtick _ Hb)).
Qed.

(** C4, as stated, fails.  A JSON object followed by prose is not
    recovered: the text starts with a brace, so no span is searched and
    the strict parse rejects it, also when a fence stood around the
    object.  The span that is searched for is not balanced: it runs from
    the first opening brace of the text to its last closing brace,
    whatever the prose holds.  A fence marker inside the object is
    deleted with the others, so that another object is parsed.  And
    generate-portfolio.js searches for no span at all. *)
Lemma response_parsing_claim_fails :
  Json.parse (js "{" ++ Scenario.q "a" ++ js ":1}")
  = Ok (VObj [(js "a", VNum {| negative := false; digits := 1; exp10 := 0 |})])
  /\ Server.parseModelText (js "{" ++ Scenario.q "a" ++ js ":1} Hope this helps!")
     = Throw SyntaxError
  /\ Server.parseModelText
       (js "```json" ++ [10] ++ js "{" ++ Scenario.q "a" ++ js ":1}" ++ [10] ++ js "```"
        ++ [10] ++ js "Let me know!")
     = Throw SyntaxError
  /\ Server.parseModelText
       (js "Here it is: {" ++ Scenario.q "a" ++ js ":1} (use {} for no data)")
     = Throw SyntaxError
  /\ Server.parseModelText
       (js "Use {} when empty: {" ++ Scenario.q "a" ++ js ":1}")
     = Throw SyntaxError
  /\ (Json.parse (js "{" ++ Scenario.q "a" ++ js ":" ++ Scenario.q "```" ++ js "}")
      = Ok (VObj [(js "a", VStr (js "```"))])
      /\ Server.parseModelText
           (js "```json" ++ [10] ++ js "{" ++ Scenario.q "a" ++ js ":" ++ Scenario.q "```"
            ++ js "}" ++ [10] ++ js "```")
         = Ok (VObj [(js "a", VStr [])]))
  /\ Json.parse (GeneratePortfolio.cleanedJsonString
                   (js "Here it is: {" ++ Scenario.q "a" ++ js ":1}"))
     = Throw SyntaxError.
Proof. repeat split; vm_compute; reflexivity. Qed.

(** C4, amended.  On every response server.js deletes every [```json]
    marker, then every [```] marker, and trims the text.  If what remains
    starts with an opening brace it is parsed as it is.  Otherwise, if it
    holds an opening brace with a closing brace somewhere after it, the
    text from its first opening brace through its last closing brace is
    parsed; and if it does not, it is parsed as it is.  The deletions
    leave no marker, leave a text without markers as it is, and take the
    two markers out of a fenced text whose parts hold no further marker
    (no part ending in a back-tick, the text after the fence beginning
    neither with a back-tick nor with [json]).

    So a JSON object in a [```json] fence parses to the object, and so
    does a JSON object in a text without markers, in two cases: when all
    the text around the object is blank, and when text with a visible
    character and no opening brace precedes the object and text without a
    closing brace follows it.

    generate-portfolio.js deletes the markers [```json] with its line
    feed and [```] in one pass and trims; it searches for no span, so a
    text without markers is parsed as trimmed, and a fenced JSON object
    parses to the object when all the text around it, inside the fence
    and outside, is blank. *)
Theorem response_parsing :
  (forall text : jsstring,
      let jsonText :=
        Str.trim (Str.removeAll [js "```"] (Str.removeAll [js "```json"] text)) in
      (Str.startsWith jsonText (js "{") = true
       /\ Server.parseModelText text = Json.parse jsonText)
      \/ (exists pre mid post,
             jsonText = pre ++ 123 :: mid ++ 125 :: post
             /\ pre <> [] /\ Str.lacks 123 pre = true /\ Str.lacks 125 post = true
             /\ Server.parseModelText text = Json.parse (123 :: mid ++ [125]))
      \/ (Str.startsWith jsonText (js "{") = false
          /\ (Str.lacks 123 jsonText = true
              \/ exists pre rest,
                  jsonText = pre ++ 123 :: rest
                  /\ Str.lacks 123 pre = true /\ Str.lacks 125 rest = true)
          /\ Server.parseModelText text = Json.parse jsonText))
  /\ (forall text : jsstring,
         Str.includes
           (Str.removeAll [js "```"] (Str.removeAll [js "```json"] text)) (js "```")
         = false)
  /\ (forall text : jsstring,
         Str.includes text (js "```") = false ->
         Str.removeAll [js "```"] (Str.removeAll [js "```json"] text) = text)
  /\ (forall pre body post : jsstring,
         Str.includes pre (js "```") = false -> Str.lastIs 96 pre = false ->
         Str.includes body (js "```") = false -> Str.lastIs 96 body = false ->
         Str.includes post (js "```") = false ->
         Str.startsWith post (js "`") = false ->
         Str.startsWith post (js "json") = false ->
         Str.removeAll [js "```"]
           (Str.removeAll [js "```json"]
              (pre ++ js "```json" ++ body ++ js "```" ++ post))
         = pre ++ body ++ post)
  /\ (forall (pre a mid b post : jsstring) (v : value),
         Str.includes pre (js "```") = false -> Str.lastIs 96 pre = false ->
         Str.includes (a ++ 123 :: mid ++ 125 :: b) (js "```") = false ->
         Str.lastIs 96 (a ++ 123 :: mid ++ 125 :: b) = false ->
         Str.includes post (js "```") = false ->
         Str.startsWith post (js "`") = false ->
         Str.startsWith post (js "json") = false ->
         (forallb Str.isWhiteSpace (pre ++ a) = true
          /\ forallb Str.isWhiteSpace (b ++ post) = true)
         \/ (Str.trimStart (pre ++ a) <> [] /\ Str.lacks 123 (pre ++ a) = true
             /\ Str.lacks 125 (b ++ post) = true) ->
         Json.parse (123 :: mid ++ [125]) = Ok v ->
         Server.parseModelText
           (pre ++ js "```json" ++ (a ++ 123 :: mid ++ 125 :: b) ++ js "```" ++ post)
         = Ok v)
  /\ (forall (before mid after : jsstring) (v : value),
         Str.includes (before ++ 123 :: mid ++ 125 :: after) (js "```") = false ->
         (forallb Str.isWhiteSpace before = true /\ forallb Str.isWhiteSpace after = true)
         \/ (Str.trimStart before <> [] /\ Str.lacks 123 before = true
             /\ Str.lacks 125 after = true) ->
         Json.parse (123 :: mid ++ [125]) = Ok v ->
         Server.parseModelText (before ++ 123 :: mid ++ 125 :: after) = Ok v)
  /\ (forall text : jsstring,
         Str.includes text (js "```") = false ->
         GeneratePortfolio.cleanedJsonString text = Str.trim text)
  /\ (forall (pre a mid b post : jsstring) (v : value),
         forallb Str.isWhiteSpace pre = true -> forallb Str.isWhiteSpace post = true ->
         forallb Str.isWhiteSpace a = true -> forallb Str.isWhiteSpace b = true ->
         Str.includes mid (js "```") = false ->
         Json.parse (123 :: mid ++ [125]) = Ok v ->
         Json.parse
           (GeneratePortfolio.cleanedJsonString
              (pre ++ (js "```json" ++ [10]) ++ (a ++ 123 :: mid ++ 125 :: b)
               ++ js "```" ++ post))
         = Ok v).
Proof.
  split; [|split; [|split; [|split; [|split; [|split; [|split]]]]]].
  - intros text jsonText. unfold Server.parseModelText.
    destruct (cleanJsonText_characterized text)
      as [[Hs ->] | [(pre & mid & post & Ht & Hne & Hp & Hq & ->) | (Hs & Hn & ->)]].
    + left. split; [exact Hs | reflexivity].
    + right. left. exists pre, mid, post. repeat split; assumption.
    + right. right. repeat split; assumption.
  - intros text. apply removeAllFrom_no_fence; [repeat constructor | left; reflexivity].
  - intros text H.
    rewrite (removeAll_json_fence_without _ H). exact (removeAll_plain_fence_without _ H).
  - intros pre body post H1 H2 H3 H4 H5 H6 H7.
    exact (proj1 (server_fence_removed pre body post H1 H2 H3 H4 H5 H6 H7)).
  - intros pre a mid b post v H1 H2 H3 H4 H5 H6 H7 Hc Hv. unfold Server.parseModelText.
    rewrite (server_fenced_object_in_text pre a mid b post H1 H2 H3 H4 H5 H6 H7 Hc).
    exact Hv.
  - intros before mid after v Hno Hc Hv. unfold Server.parseModelText.
    rewrite (server_object_in_text before mid after Hno Hc). exact Hv.
  - exact generate_without_fence.
  - intros pre a mid b post v Hp Hq Ha Hb Hm Hv.
    rewrite (generate_fenced_object_in_text pre a mid b post Hp Hq Ha Hb);
      [exact Hv | |].
    + exact (object_without_fence a mid b Ha Hb Hm).
    + exact (object_ends_without_backtick a mid b Hb).
Qed.

Lemma response_parsing_witness :
  Server.parseModelText
    (js "Here it is:" ++ js "```json"
     ++ ([10] ++ 123 :: (Scenario.q "summary" ++ js ":" ++ Scenario.q "x") ++ 125 :: [10])
     ++ js "```" ++ (10 :: js "Let me know!"))
  = Ok (VObj [(js "summary", VStr (js "x"))])
  /\ Server.parseModelText
       (js "The `data`: " ++ 123 :: (Scenario.q "a" ++ js ":true") ++ 125 :: js " Done.")
     = Ok (VObj [(js "a", VBool true)])
  /\ Json.parse
       (GeneratePortfolio.cleanedJsonString
          ([10] ++ (js "```json" ++ [10])
           ++ ([32] ++ 123 :: (Scenario.q "a" ++ js ":true") ++ 125 :: [10])
           ++ js "```" ++ [10]))
     = Ok (VObj [(js "a", VBool true)]).
Proof.
  split; [|split].
  - apply (proj1 (proj2 (proj2 (proj2 (proj2 response_parsing))))
             (js "Here it is:") [10] (Scenario.q "summary" ++ js ":" ++ Scenario.q "x")
             [10] (10 :: js "Let me know!"));
      try reflexivity.
    right. split; [discriminate | split; reflexivity].
  - apply (proj1 (proj2 (proj2 (proj2 (proj2 (proj2 response_parsing)))))
             (js "The `data`: ") (Scenario.q "a" ++ js ":true") (js " Done."));
      try reflexivity.
    right. split; [discriminate | split; reflexivity].
  - apply (proj2 (proj2 (proj2 (proj2 (proj2 (proj2 (proj2 response_parsing))))))
             [10] [32] (Scenario.q "a" ++ js ":true") [10] [10]);
      reflexivity.
Defined.

(** ** The classifier of server.js *)

Lemma trimStart_blank (a s : jsstring) :
  forallb Str.isWhiteSpace a = true -> Str.trimStart (a ++ s) = Str.trimStart s.
Proof.
  induction a as [|c a IH]; [reflexivity|]. simpl. intros H.
  apply andb_prop in H as [Hc Ha]. rewrite Hc. exact (IH Ha).
Qed.

Lemma forallb_rev {A} (f : A -> bool) (l : list A) : forallb f (rev l) = forallb f l.
Proof.
  induction l as [|x l IH]; [reflexivity|]. simpl.
  rewrite forallb_app, IH. simpl. rewrite andb_true_r. apply andb_comm.
Qed.

Lemma trimEnd_blank (s b : jsstring) :
  forallb Str.isWhiteSpace b = true -> Str.trimEnd (s ++ b) = Str.trimEnd s.
Proof.
  intros H. unfold Str.trimEnd. rewrite rev_app_distr, trimStart_blank; [reflexivity|].
  rewrite forallb_rev. exact H.
Qed.

Lemma trimStart_nil_blank (s : jsstring) :
  Str.trimStart s = [] -> forallb Str.isWhiteSpace s = true.
Proof.
  induction s as [|c s IH]; [reflexivity|]. simpl.
  destruct (Str.isWhiteSpace c); [exact IH | discriminate].
Qed.

(** White space around a text does not survive trimming. *)
Lemma trim_padded (a s b : jsstring) :
  forallb Str.isWhiteSpace a = true -> forallb Str.isWhiteSpace b = true ->
  Str.trim (a ++ s ++ b) = Str.trim s.
Proof.
  intros Ha Hb. unfold Str.trim. rewrite (trimStart_blank _ _ Ha).
  destruct (Str.trimStart s) as [|c r] eqn:E.
  - apply trimStart_nil_blank in E.
    rewrite <- (app_nil_r (s ++ b)), <- app_assoc, (trimStart_blank _ _ E).
    rewrite app_nil_r.
    replace (Str.trimStart b) with (@nil N); [reflexivity|].
    symmetry. rewrite <- (app_nil_r b). rewrite (trimStart_blank _ _ Hb). reflexivity.
  - rewrite trimStart_app_keep by (rewrite E; discriminate).
    rewrite E. exact (trimEnd_blank _ _ Hb).
Qed.

Lemma select_truthy (dflt : Theme) (label : value) :
  Val.truthy (Themes.select (Themes.table dflt) label) = true.
Proof.
  unfold Themes.select.
  destruct (Val.truthy (Val.lookup (Themes.table dflt) (Val.propertyKey label))) eqn:E;
    [exact E | reflexivity].
Qed.

(** X7. Once its prompt is built, the classifier of server.js never
    fails: it makes exactly one model call and returns a truthy value,
    the Default theme when the call is rejected and otherwise the entry
    the trimmed reply selects. *)
Theorem server_classifier_total gen parsedData w skills summary :
  Val.get parsedData (js "skills") = Ok skills ->
  Val.get parsedData (js "summary") = Ok summary ->
  Conv.toStringThrows summary = false ->
  Conv.toStringThrows skills = false ->
  exists theme,
    Server.classifyProfessionAndSelectTheme gen parsedData w
    = (Ok theme,
       {| modelCalls := S (modelCalls w); portfolios := portfolios w; rows := rows w |})
    /\ Val.truthy theme = true
    /\ theme = match gen (modelCalls w) with
               | Text label => Themes.select Themes.themes (VStr (Str.trim label))
               | Fails _ => Themes.object Themes.professionalBlue
               end.
Proof.
  intros Hs Hm Hts Htk.
  unfold Server.classifyProfessionAndSelectTheme, bind, lift, tryCatch, callModel, ret.
  rewrite Hs, Hm.
  assert (Conv.interpolate (if Val.truthy summary then summary else VStr []) = Ok tt) as ->
    by (unfold Conv.interpolate; destruct (Val.truthy summary); [rewrite Hts|]; reflexivity).
  assert (Conv.interpolate (if Val.isArray skills then skills else VArr [] []) = Ok tt) as ->
    by (unfold Conv.interpolate; destruct (Val.isArray skills); [rewrite Htk|]; reflexivity).
  destruct (gen (modelCalls w)) as [label|m].
  - eexists. split; [reflexivity|]. split; [apply select_truthy | reflexivity].
  - eexists. split; [reflexivity|]. split; reflexivity.
Qed.

Lemma server_classifier_total_witness :
  exists theme,
    Server.classifyProfessionAndSelectTheme (Scenario.replies [Text (js "Data Scientist")])
      (VObj [(js "summary", VStr (js "Statistician"))]) Scenario.start
    = (Ok theme, {| modelCalls := 1; portfolios := Store.empty; rows := [] |})
    /\ Val.truthy theme = true
    /\ theme = Themes.select Themes.themes (VStr (Str.trim (js "Data Scientist"))).
Proof.
  apply (server_classifier_total (Scenario.replies [Text (js "Data Scientist")])
           (VObj [(js "summary", VStr (js "Statistician"))]) Scenario.start
           VUndefined (VStr (js "Statistician"))); reflexivity.
Defined.

(** X8. The classifier of server.js reads the reply up to surrounding
    white space: a label padded with blanks, tabs or line breaks selects
    the theme the bare label selects. *)
Theorem server_classifier_ignores_padding gen parsedData w skills summary a label b :
  Val.get parsedData (js "skills") = Ok skills ->
  Val.get parsedData (js "summary") = Ok summary ->
  Conv.toStringThrows summary = false ->
  Conv.toStringThrows skills = false ->
  forallb Str.isWhiteSpace a = true -> forallb Str.isWhiteSpace b = true ->
  gen (modelCalls w) = Text (a ++ label ++ b) ->
  fst (Server.classifyProfessionAndSelectTheme gen parsedData w)
  = Ok (Themes.select Themes.themes (VStr (Str.trim label))).
Proof.
  intros Hs Hm Hts Htk Ha Hb Hg.
  unfold Server.classifyProfessionAndSelectTheme, bind, lift, tryCatch, callModel, ret.
  rewrite Hs, Hm.
  assert (Conv.interpolate (if Val.truthy summary then summary else VStr []) = Ok tt) as ->
    by (unfold Conv.interpolate; destruct (Val.truthy summary); [rewrite Hts|]; reflexivity).
  assert (Conv.interpolate (if Val.isArray skills then skills else VArr [] []) = Ok tt) as ->
    by (unfold Conv.interpolate; destruct (Val.isArray skills); [rewrite Htk|]; reflexivity).
  rewrite Hg. cbn [fst]. rewrite (trim_padded _ _ _ Ha Hb). reflexivity.
Qed.

Lemma server_classifier_ignores_padding_witness :
  fst (Server.classifyProfessionAndSelectTheme
         (Scenario.replies [Text ([32] ++ js "Graphic Designer" ++ [10])])
         (VObj []) Scenario.start)
  = Ok (Themes.object Themes.designerLight).
Proof.
  apply (server_classifier_ignores_padding
           (Scenario.replies [Text ([32] ++ js "Graphic Designer" ++ [10])])
           (VObj []) Scenario.start VUndefined VUndefined [32] (js "Graphic Designer") [10]);
    reflexivity.
Defined.

(** ** The extractor of the Netlify generate function *)

(** X9. The extractor of the Netlify generate function has two outcomes:
    the value JSON.parse reads from the cleaned reply, or the one error
    'AI model returned an invalid JSON format.', whatever failed (the
    prompt, the model, the parsing).  It calls the model at most once and
    touches neither the store nor the table. *)
Theorem netlify_extractor_outcomes gen resumeText w :
  let run := Netlify.parseResumeWithAI gen resumeText w in
  (fst run = Throw (Error (js "AI model returned an invalid JSON format."))
   \/ exists text v,
       gen (modelCalls w) = Text text
       /\ Server.parseModelText text = Ok v
       /\ run = (Ok v, {| modelCalls := S (modelCalls w); portfolios := portfolios w;
                          rows := rows w |}))
  /\ (modelCalls (snd run) <= S (modelCalls w))%nat
  /\ portfolios (snd run) = portfolios w
  /\ rows (snd run) = rows w.
Proof.
  cbv zeta.
  unfold Netlify.parseResumeWithAI, tryCatch, bind, lift, callModel, throw.
  destruct (Conv.interpolate resumeText) as [[]|e]; cbn [fst snd].
  - destruct (gen (modelCalls w)) as [text|m]; cbn [fst snd modelCalls portfolios rows].
    + destruct (Server.parseModelText text) as [v|e] eqn:E;
        cbn [fst snd modelCalls portfolios rows].
      * split; [right; exists text, v; repeat split; assumption|].
        repeat split; lia.
      * split; [left; reflexivity|]. repeat split; lia.
    + split; [left; reflexivity|]. repeat split; lia.
  - split; [left; reflexivity|]. repeat split; lia.
Qed.

(** ** The handlers of server.js *)

(** X10. POST /api/generate-from-resume always answers, with 200, 400 or
    500, after at most two model calls and without touching the hosted
    table.  It writes to the store only when it answers 200: then
    exactly the record it reports is stored under the new id, and in
    every other case the store is as before. *)
Theorem server_generate_outcomes gen pdf b64 resume photo id now w :
  let run := Server.generateFromResume gen pdf b64 resume photo id now w in
  rows (snd run) = rows w
  /\ (modelCalls w <= modelCalls (snd run) <= modelCalls w + 2)%nat
  /\ exists resp,
      fst run = Ok resp
      /\ ((status resp = 200%nat
           /\ modelCalls (snd run) = (modelCalls w + 2)%nat
           /\ exists pd theme pic,
               payload resp
               = JsonOf (VObj [ (js "portfolioId", VStr id); (js "portfolioData", pd);
                                (js "theme", theme); (js "profilePictureUrl", pic) ])
               /\ portfolios (snd run)
                  = Store.set (portfolios w) id
                      (VObj [ (js "data", pd); (js "theme", theme);
                              (js "profilePictureUrl", pic);
                              (js "createdAt", VDate now) ]))
          \/ ((status resp = 400%nat \/ status resp = 500%nat)
              /\ portfolios (snd run) = portfolios w)).
Proof.
  cbv zeta.
  unfold Server.generateFromResume, Server.parseResumeWithAI,
    Server.classifyProfessionAndSelectTheme, Server.storePortfolio,
    tryCatch, bind, ret, throw, lift, callModel, getPortfolios, putPortfolios.
  generalize Server.parseModelText Server.normalizeSocial Server.placeholderPhoto
    Server.mentionsBadXRef; intros parse normalize placeholder bad.
  generalize (resolve ([js "e"; js "resumeText"; js "model"; js "prompt"] ++ Server.moduleScope)
                (js "response")); intros r1.
  generalize (resolve ([js "error"; js "parsedData"; js "model"; js "skillsArray";
                        js "professionalSummary"; js "prompt"] ++ Server.moduleScope)
                (js "themes")); intros r2.
  crunch; cbn [fst snd rows modelCalls portfolios status payload];
    (split; [reflexivity|]); (split; [lia|]); eexists; (split; [reflexivity|]);
    cbn [status payload];
    first [ left; split; [reflexivity|]; split; [lia|]; do 3 eexists; split; reflexivity
          | right; split; [first [left; reflexivity | right; reflexivity] | reflexivity] ].
Qed.

(** X11. An update under any id other than __proto__ leaves what the
    store answers for every other id as it was, whatever the request
    body holds, and never calls the model or writes to the hosted table. *)
Theorem update_leaves_other_ids id id' reqBody now w :
  id <> js "__proto__" ->
  id' <> id ->
  let w' := snd (Server.updatePortfolio id reqBody now w) in
  Store.get (portfolios w') id' = Store.get (portfolios w) id'
  /\ modelCalls w' = modelCalls w
  /\ rows w' = rows w.
Proof.
  intros Hid Hne. cbv zeta.
  unfold Server.updatePortfolio, Server.storePortfolio, tryCatch, bind, lift, ret,
    getPortfolios, putPortfolios.
  generalize Server.normalizeSocial; intros normalize.
  crunch; cbn [snd portfolios modelCalls rows]; repeat split;
    apply store_get_set_other; [apply reachesSetter_plain; exact Hid | congruence].
Qed.

Lemma update_leaves_other_ids_witness :
  Store.get
    (portfolios
       (snd (Server.updatePortfolio (js "constructor")
               (VObj [ (js "portfolioData", VObj [(js "personalInfo", VObj [])]);
                       (js "theme", Themes.object Themes.dataGreen) ])
               7 Scenario.start)))
    (js "toString")
  = Store.get (portfolios Scenario.start) (js "toString").
Proof.
  apply (update_leaves_other_ids (js "constructor") (js "toString")
           (VObj [ (js "portfolioData", VObj [(js "personalInfo", VObj [])]);
                   (js "theme", Themes.object Themes.dataGreen) ])
           7 Scenario.start); discriminate.
Defined.

Lemma store_set_truthy (s : Store) (id : jsstring) (props : list (jsstring * value)) :
  id <> js "__proto__" ->
  Store.get (Store.set s id (VObj props)) id = VObj props.
Proof. intros H. apply store_get_set. apply reachesSetter_plain. exact H. Qed.

(** X12. Creating a portfolio and then updating it under the id the
    creation returned: the stored record holds the data, theme and
    picture of the update, the creation time of the creation and the
    update time of the update, and nothing else. *)
Theorem create_then_update b64 body photo id created w pd theme pd' placeholder
    body2 updated pd2 theme2 pic2 pd2' :
  id <> js "__proto__" ->
  Val.get body (js "portfolioData") = Ok pd ->
  Val.get body (js "theme") = Ok theme ->
  Server.normalizeSocial pd = Ok pd' ->
  Server.placeholderPhoto pd' = Ok placeholder ->
  Val.get body2 (js "portfolioData") = Ok pd2 ->
  Val.get body2 (js "theme") = Ok theme2 ->
  Val.get body2 (js "profilePictureUrl") = Ok pic2 ->
  Server.normalizeSocial pd2 = Ok pd2' ->
  let w1 := snd (Server.createManualPortfolio b64 body photo id created w) in
  let w2 := snd (Server.updatePortfolio id body2 updated w1) in
  fst (Server.updatePortfolio id body2 updated w1)
  = Ok {| status := 200;
          payload := JsonOf (VObj [(js "success", VBool true); (js "portfolioId", VStr id)]) |}
  /\ Store.get (portfolios w2) id
     = VObj [ (js "data", pd2'); (js "theme", theme2); (js "profilePictureUrl", pic2);
              (js "createdAt", VDate created); (js "updatedAt", VDate updated) ].
Proof.
  intros Hid H1 H2 H3 H4 G1 G2 G3 G4. cbv zeta.
  rewrite (server_manual_stores b64 body photo id created w pd theme pd' placeholder H1 H2 H3 H4).
  cbn [snd].
  rewrite (update_present id body2 updated _ pd2 theme2 pic2 pd2' G1 G2 G3).
  - cbn [fst snd portfolios]. split; [reflexivity|].
    rewrite store_set_truthy by exact Hid.
    rewrite store_set_truthy by exact Hid.
    reflexivity.
  - cbn [portfolios]. rewrite store_set_truthy by exact Hid. reflexivity.
  - exact G4.
Qed.

Lemma create_then_update_witness :
  Store.get
    (portfolios
       (snd (Server.updatePortfolio (js "id")
               (VObj [ (js "portfolioData",
                        VObj [(js "personalInfo", VObj [(js "name", VStr (js "Ada L."))])]);
                       (js "theme", Themes.object Themes.dataGreen);
                       (js "profilePictureUrl", VStr (js "https://example.org/ada.png")) ])
               9
               (snd (Server.createManualPortfolio Scenario.base64
                       (VObj [ (js "portfolioData",
                                VObj [(js "personalInfo", VObj [(js "name", VStr (js "Ada"))])]);
                               (js "theme", Themes.object Themes.developerDark) ])
                       None (js "id") 7 Scenario.start)))))
    (js "id")
  = VObj [ (js "data", VObj [(js "personalInfo", VObj [(js "name", VStr (js "Ada L."))])]);
           (js "theme", Themes.object Themes.dataGreen);
           (js "profilePictureUrl", VStr (js "https://example.org/ada.png"));
           (js "createdAt", VDate 7); (js "updatedAt", VDate 9) ].
Proof.
  apply (create_then_update Scenario.base64
           (VObj [ (js "portfolioData",
                    VObj [(js "personalInfo", VObj [(js "name", VStr (js "Ada"))])]);
                   (js "theme", Themes.object Themes.developerDark) ])
           None (js "id") 7 Scenario.start
           (VObj [(js "personalInfo", VObj [(js "name", VStr (js "Ada"))])])
           (Themes.object Themes.developerDark)
           (VObj [(js "personalInfo", VObj [(js "name", VStr (js "Ada"))])])
           (js "https://placehold.co/150x150/222/fff?text=A")
           (VObj [ (js "portfolioData",
                    VObj [(js "personalInfo", VObj [(js "name", VStr (js "Ada L."))])]);
                   (js "theme", Themes.object Themes.dataGreen);
                   (js "profilePictureUrl", VStr (js "https://example.org/ada.png")) ])
           9
           (VObj [(js "personalInfo", VObj [(js "name", VStr (js "Ada L."))])])
           (Themes.object Themes.dataGreen)
           (VStr (js "https://example.org/ada.png"))
           (VObj [(js "personalInfo", VObj [(js "name", VStr (js "Ada L."))])]));
    first [discriminate | reflexivity].
Defined.

(** ** The Netlify functions and their table *)

(** X13. The Netlify generate function always answers (200, 400, 405 or
    500), after at most two model calls and without touching the server's
    store.  It inserts at most one row, under the new id, and only when it
    answers 200 with the data and picture of that row. *)
Theorem netlify_handler_outcomes gen table event id w :
  let run := Netlify.handler gen table event id w in
  portfolios (snd run) = portfolios w
  /\ (modelCalls w <= modelCalls (snd run) <= modelCalls w + 2)%nat
  /\ exists resp,
      fst run = Ok resp
      /\ (status resp = 200%nat \/ status resp = 400%nat \/ status resp = 405%nat
          \/ status resp = 500%nat)
      /\ (rows (snd run) = rows w
          \/ exists pd pic theme themeName,
              rows (snd run)
              = rows w ++ [VObj [ (js "share_id", VStr id); (js "portfolio_data", pd);
                                  (js "profile_picture_url", pic);
                                  (js "selected_theme", themeName) ]]
              /\ Val.get theme (js "name") = Ok themeName
              /\ resp = {| status := 200;
                           payload := JsonOf (VObj [ (js "portfolioId", VStr id);
                                                     (js "portfolioData", pd);
                                                     (js "theme", theme);
                                                     (js "profilePictureUrl", pic) ]) |}).
Proof.
  cbv zeta.
  unfold Netlify.handler, Netlify.save, Netlify.parseResumeWithAI,
    Netlify.classifyProfessionAndSelectTheme, insertRow,
    tryCatch, bind, ret, throw, lift, callModel.
  generalize Server.parseModelText Json.parse; intros parseModel parse.
  generalize (resolve ([js "error"; js "parsedData"; js "model"; js "skillsArray";
                        js "professionalSummary"; js "prompt"] ++ Netlify.moduleScope)
                (js "themes")); intros r.
  crunch; cbn [fst snd rows modelCalls portfolios status payload];
    (split; [reflexivity|]); (split; [lia|]); eexists; (split; [reflexivity|]);
    cbn [status payload];
    (split; [first [ left; reflexivity | right; left; reflexivity
                   | right; right; left; reflexivity | right; right; right; reflexivity ]|]);
    first [ left; reflexivity
          | right; do 4 eexists; split; [reflexivity|]; split; [eassumption | reflexivity] ].
Qed.

Lemma generate_isString_true (v : value) (s : jsstring) :
  GeneratePortfolio.isString v s = true -> v = VStr s.
Proof.
  destruct v; try discriminate. simpl. intros H. apply eqb_eq in H. congruence.
Qed.

(** X14. generate-portfolio.js always answers (200, 405 or 500), after
    at most two model calls and without touching the server's store.  A
    row is inserted at most once, and exactly when a POST is answered
    200; the answer then carries what the table returned for that row. *)
Theorem generate_handler_outcomes gen table pdf em ev w :
  let run := GeneratePortfolio.handler gen table pdf em ev w in
  portfolios (snd run) = portfolios w
  /\ (modelCalls w <= modelCalls (snd run) <= modelCalls w + 2)%nat
  /\ exists resp,
      fst run = Ok resp
      /\ ((rows (snd run) = rows w
           /\ (status resp = 405%nat \/ status resp = 500%nat
               \/ (GeneratePortfolio.httpMethod ev = VStr (js "GET")
                   /\ resp = {| status := 200;
                                payload := JsonOf (VObj [(js "status", VStr (js "OK"))]) |})))
          \/ exists pd theme stored,
              rows (snd run) = rows w ++ [GeneratePortfolio.row pd theme]
              /\ table (GeneratePortfolio.row pd theme) = inr stored
              /\ resp = {| status := 200;
                           payload := JsonOf (VObj [ (js "portfolio", stored);
                                                     (js "theme", theme) ]) |}).
Proof.
  cbv zeta.
  unfold GeneratePortfolio.handler, GeneratePortfolio.readBody,
    GeneratePortfolio.generateFromResume, GeneratePortfolio.generateFromManual,
    tryCatch, bind, ret, throw, lift, insertRow, callModel.
  generalize GeneratePortfolio.cleanedJsonString Json.parse; intros clean parse.
  crunch; cbn [fst snd rows modelCalls portfolios status payload];
    (split; [reflexivity|]); (split; [lia|]); eexists; (split; [reflexivity|]);
    cbn [status payload];
    first [ left; split; [reflexivity|];
            first [ left; reflexivity | right; left; reflexivity
                  | right; right; split; [|reflexivity] ]
          | right; do 3 eexists; split; [reflexivity|]; split; [eassumption | reflexivity] ].
  all: match goal with
       | H : GeneratePortfolio.isString _ (js "GET") = true |- _ =>
           apply generate_isString_true in H; exact H
       end.
Qed.

(** X15. share-portfolio.js always answers, 200 or 500, and calls no
    model.  It inserts one row exactly when it answers 200: the row
    holds the three fields of the request body under the new id, and the
    answer is the share URL built from that id. *)
Theorem share_handler_outcomes table envURL eventBody shareId w :
  let run := SharePortfolio.handler table envURL eventBody shareId w in
  portfolios (snd run) = portfolios w
  /\ modelCalls (snd run) = modelCalls w
  /\ exists resp,
      fst run = Ok resp
      /\ ((status resp = 500%nat /\ rows (snd run) = rows w)
          \/ exists body pd pic theme,
              Json.parse eventBody = Ok body
              /\ Val.get body (js "portfolioData") = Ok pd
              /\ Val.get body (js "profilePictureUrl") = Ok pic
              /\ Val.get body (js "selectedTheme") = Ok theme
              /\ rows (snd run)
                 = rows w ++ [VObj [ (js "share_id", VStr shareId);
                                     (js "portfolio_data", pd);
                                     (js "profile_picture_url", pic);
                                     (js "selected_theme", theme) ]]
              /\ resp = {| status := 200;
                           payload := JsonOf (VObj [ (js "shareUrl",
                                                      VStr (text envURL ++ js "/shared/"
                                                            ++ shareId));
                                                     (js "shareId", VStr shareId) ]) |}).
Proof.
  cbv zeta.
  unfold SharePortfolio.handler, insertRow, tryCatch, bind, ret, throw, lift.
  generalize Json.parse; intros parse.
  crunch; cbn [fst snd rows modelCalls portfolios status payload];
    (split; [reflexivity|]); (split; [reflexivity|]); eexists; (split; [reflexivity|]);
    cbn [status payload];
    first [ left; split; reflexivity
          | right; do 4 eexists; repeat (split; [first [eassumption | reflexivity]|]);
            reflexivity ].
Qed.

Lemma inherited_is_listed (k : jsstring) :
  Val.inherited k = true -> In k Val.objectPrototypeNames.
Proof.
  unfold Val.inherited. intros H. apply existsb_exists in H as (x & Hin & Hx).
  apply eqb_eq in Hx. subst. exact Hin.
Qed.

Lemma inherited_is_no_theme_label (k : jsstring) :
  Val.inherited k = true ->
  Str.eqb k (js "Software Developer") = false
  /\ Str.eqb k (js "Graphic Designer") = false
  /\ Str.eqb k (js "Data Scientist") = false.
Proof.
  intros H. apply inherited_is_listed in H. unfold Val.objectPrototypeNames in H.
  repeat (destruct H as [<- | H]; [repeat split; reflexivity|]). destruct H.
Qed.

(** X16. The theme name that the Netlify generate function stores with an
    AI-built row never selects a theme in get-portfolio.js, whose switch
    is over the profession labels: whatever label the model returned,
    the stored name yields the default styles. *)
Theorem stored_theme_name_gets_default_styles (label name : jsstring) :
  Val.get (Themes.select Themes.themes (VStr label)) (js "name") = Ok (VStr name) ->
  GetPortfolio.getThemeStyles (Some name) = GetPortfolio.getThemeStyles None.
Proof.
  unfold Themes.select, Val.propertyKey, Val.lookup, Themes.themes, Themes.table.
  cbn [Val.own].
  destruct (Str.eqb (js "Software Developer") label) eqn:E1;
    [intros [= <-]; reflexivity|].
  destruct (Str.eqb (js "Graphic Designer") label) eqn:E2;
    [intros [= <-]; reflexivity|].
  destruct (Str.eqb (js "Data Scientist") label) eqn:E3;
    [intros [= <-]; reflexivity|].
  destruct (Str.eqb (js "Default") label) eqn:E4;
    [intros [= <-]; reflexivity|].
  destruct (Val.inherited label) eqn:Ei; [|intros [= <-]; reflexivity].
  cbn [Val.truthy Val.get]. change (Str.eqb (js "name") (js "name")) with true. cbv iota.
  unfold Val.builtinName.
  destruct (Str.eqb label (js "__proto__")); [discriminate|].
  destruct (Str.eqb label (js "constructor")); [intros [= <-]; reflexivity|].
  intros [= <-]. destruct (inherited_is_no_theme_label label Ei) as (N1 & N2 & N3).
  unfold GetPortfolio.getThemeStyles, GetPortfolio.isTheme. rewrite N1, N2, N3. reflexivity.
Qed.

Lemma stored_theme_name_gets_default_styles_witness :
  GetPortfolio.getThemeStyles (Some (js "Developer Dark")) = GetPortfolio.getThemeStyles None.
Proof.
  apply (stored_theme_name_gets_default_styles (js "Software Developer") (js "Developer Dark")).
  reflexivity.
Defined.

(** ** GET /portfolio/:id *)

Lemma hexRun_length (n : nat) (s t : jsstring) :
  Page.hexRun n s = Some t -> length s = (n + length t)%nat.
Proof.
  revert s. induction n as [|n IH]; intros s; simpl; [intros [= ->]; reflexivity|].
  destruct s as [|c s]; [discriminate|]. destruct (Page.isHex c); [|discriminate].
  intros H. simpl. rewrite (IH _ H). reflexivity.
Qed.

Lemma hyphen_after (o : option jsstring) (k : jsstring -> bool) :
  match o with
  | Some (45 :: s) => k s
  | _ => false
  end = true ->
  exists s, o = Some (45 :: s) /\ k s = true.
Proof.
  destruct o as [[|c s]|]; try discriminate.
  destruct (N.eq_dec c 45) as [-> | Hc]; [eauto|].
  intros H. exfalso. destruct c as [|p]; [discriminate|].
  do 6 (destruct p as [p|p|]; try discriminate); congruence.
Qed.

Lemma isUuid_length (id : jsstring) : Page.isUuid id = true -> length id = 36%nat.
Proof.
  unfold Page.isUuid. intros H.
  apply hyphen_after in H as (s1 & E1 & H).
  apply hyphen_after in H as (s2 & E2 & H).
  apply hyphen_after in H as (s3 & E3 & H).
  apply hyphen_after in H as (s4 & E4 & H).
  destruct (Page.hexRun 12 s4) as [[|c5 s5]|] eqn:E5; try discriminate.
  apply hexRun_length in E1, E2, E3, E4, E5. simpl in *. lia.
Qed.

Lemma inherited_is_short (id : jsstring) : Val.inherited id = true -> (length id < 36)%nat.
Proof.
  intros H. apply inherited_is_listed in H. unfold Val.objectPrototypeNames in H.
  repeat (destruct H as [<- | H]; [vm_compute; lia|]). destruct H.
Qed.

(** X17. GET /portfolio/:id answers 400, with the invalid-id page, for
    every id that is not 36 code units long, and so for every name an
    object inherits (constructor, toString, __proto__, ...), whatever
    the store holds: the view route cannot be made to read an inherited
    member. *)
Theorem view_rejects_malformed_ids protocol host id stored :
  length id <> 36%nat \/ Val.inherited id = true ->
  Page.getPortfolio protocol host id stored
  = {| status := 400;
       payload := HtmlOf (Page.createErrorPage (js "Invalid Portfolio ID")
                          (js "The portfolio ID you provided is not valid. Please check the URL and try again.")) |}.
Proof.
  intros H. unfold Page.getPortfolio.
  destruct (Page.isUuid id) eqn:E; [|reflexivity].
  exfalso. apply isUuid_length in E.
  destruct H as [H | H]; [congruence|]. apply inherited_is_short in H. lia.
Qed.

Lemma view_rejects_malformed_ids_witness :
  status (Page.getPortfolio (js "https") (js "forge.example") (js "constructor")
            (Some Scenario.storedNameOnly)) = 400%nat.
Proof.
  rewrite (view_rejects_malformed_ids (js "https") (js "forge.example") (js "constructor")
             (Some Scenario.storedNameOnly)); [reflexivity|].
  right. reflexivity.
Defined.

Lemma encode_without_surrogates (s : jsstring) :
  forallb (fun c => negb (Uri.isLead c) && negb (Uri.isTrail c)) s = true ->
  exists e, Uri.encodeURIComponent s = Ok e.
Proof.
  induction s as [|c s IH]; [exists []; reflexivity|]. cbn [forallb].
  intros H. apply andb_prop in H as [Hc Hs]. apply andb_prop in Hc as [Hl Ht].
  apply negb_true_iff in Hl, Ht. destruct (IH Hs) as [e He].
  cbn [Uri.encodeURIComponent]. rewrite He, Hl, Ht.
  destruct (Uri.isUnescaped c); eexists; reflexivity.
Qed.

(** X18. A stored portfolio, shaped as the data model shapes it, whose
    name holds no surrogate code unit is always served: for a well-formed
    id GET /portfolio/:id answers 200 with a page, whichever of its
    fields are present or absent. *)
Theorem view_serves_stored_portfolio protocol host id portfolio :
  Page.isUuid id = true ->
  (forall info name,
      personalInfo (Page.data portfolio) = Some info ->
      Personal.name info = Some name ->
      forallb (fun c => negb (Uri.isLead c) && negb (Uri.isTrail c)) name = true) ->
  exists html,
    Page.getPortfolio protocol host id (Some portfolio)
    = {| status := 200; payload := HtmlOf html |}.
Proof.
  intros Hid Hname. unfold Page.getPortfolio. rewrite Hid. cbn [negb].
  assert (exists image,
             Page.placeholderImage
               (match personalInfo (Page.data portfolio) with
                | Some info => info
                | None => Personal.empty
                end) = Ok image) as [image Himg].
  { unfold Page.placeholderImage, orElse.
    destruct (personalInfo (Page.data portfolio)) as [info|] eqn:Ei.
    - destruct (Personal.name info) as [name|] eqn:En.
      + destruct (encode_without_surrogates name (Hname info name eq_refl En)) as [e He].
        destruct name as [|c name]; cbn [present text]; [eexists; reflexivity|].
        rewrite He. eexists. reflexivity.
      + eexists. reflexivity.
    - eexists. reflexivity. }
  unfold Page.renderPortfolio. rewrite Himg.
  destruct (present (Page.profilePictureUrl portfolio)); [|eexists; reflexivity].
  destruct (Str.startsWith _ _); eexists; reflexivity.
Qed.

Lemma view_serves_stored_portfolio_witness :
  exists html,
    Page.getPortfolio (js "https") (js "forge.example")
      (js "0b0e7a2c-4f7e-4c1b-9a59-2f1d3c5e7a90") (Some Scenario.storedNameOnly)
    = {| status := 200; payload := HtmlOf html |}.
Proof.
  apply (view_serves_stored_portfolio (js "https") (js "forge.example")
           (js "0b0e7a2c-4f7e-4c1b-9a59-2f1d3c5e7a90") Scenario.storedNameOnly).
  - reflexivity.
  - intros info name [= <-] [= <-]. reflexivity.
Defined.

(** ** What the two page templates show *)

Lemma includes_concat_nth (n : nat) (l : list jsstring) (sub : jsstring) :
  Str.includes (nth n l []) sub = true -> Str.includes (concat l) sub = true.
Proof.
  revert n. induction l as [|x l IH]; intros n; [destruct n; trivial|].
  destruct n as [|n]; cbn [nth].
  - apply includes_concat_here.
  - intros H. apply includes_concat_later. exact (IH n H).
Qed.

Lemma includes_refl (s : jsstring) : Str.includes s s = true.
Proof.
  destruct s as [|c s]; [reflexivity|]. cbn [Str.includes].
  rewrite <- (app_nil_r (c :: s)) at 1. rewrite startsWith_app. reflexivity.
Qed.

Lemma includes_nil (s : jsstring) : Str.includes s [] = true.
Proof. destruct s; reflexivity. Qed.

Lemma includes_orDefault (s d sub : jsstring) :
  Str.includes s sub = true -> Str.includes (orDefault s d) sub = true.
Proof.
  destruct s as [|c s]; [|trivial]. destruct sub as [|x sub]; [|discriminate].
  intros _. apply includes_nil.
Qed.

Lemma includes_concat_map {A} (f : A -> jsstring) (l : list A) (x : A) (sub : jsstring) :
  In x l -> Str.includes (f x) sub = true ->
  Str.includes (concat (map f l)) sub = true.
Proof.
  induction l as [|y l IH]; [contradiction|]. intros [-> | Hin] H; cbn [map concat].
  - apply includes_app_l. exact H.
  - apply includes_app_r. exact (IH Hin H).
Qed.

(** The piece of a template that holds [sub]: the first piece for which
    [tac] proves it. *)
Ltac find_nth tac :=
  lazymatch goal with
  | |- Str.includes (concat ?l) ?sub = true =>
      let rec go rest n :=
        lazymatch rest with
        | ?x :: ?rest' =>
            tryif assert (Str.includes x sub = true) by (solve [tac])
            then (apply (includes_concat_nth n l sub); assumption)
            else go rest' (S n)
        end in
      go l O
  end.

Ltac by_computation := vm_compute; reflexivity.

Lemma netlify_template_placeholders envURL row pd info styles :
  (present (summary pd) = false ->
   Str.includes (GetPortfolio.template envURL row pd info styles)
     (js "No summary provided.") = true)
  /\ (items (skills pd) = [] ->
      Str.includes (GetPortfolio.template envURL row pd info styles)
        (js "No skills listed.") = true)
  /\ (items (experience pd) = [] ->
      Str.includes (GetPortfolio.template envURL row pd info styles)
        (js "No work experience listed.") = true)
  /\ (present (Personal.name info) = false ->
      Str.includes (GetPortfolio.template envURL row pd info styles)
        (js "Your Name") = true)
  /\ (present (Personal.email info) = false ->
      Str.includes (GetPortfolio.template envURL row pd info styles)
        (js "your.email@example.com") = true).
Proof.
  repeat split; intros H; unfold GetPortfolio.template, orElse; rewrite H; find_nth by_computation.
Qed.

Lemma server_template_placeholders portfolioUrl imageUrl portfolio info :
  (present (summary (Page.data portfolio)) = false ->
   Str.includes (Page.portfolioHtml portfolioUrl imageUrl portfolio info)
     (js "No summary provided.") = true)
  /\ (items (skills (Page.data portfolio)) = [] ->
      Str.includes (Page.portfolioHtml portfolioUrl imageUrl portfolio info)
        (js "No skills listed.") = true)
  /\ (items (experience (Page.data portfolio)) = [] ->
      Str.includes (Page.portfolioHtml portfolioUrl imageUrl portfolio info)
        (js "No work experience listed.") = true)
  /\ (present (Personal.name info) = false ->
      Str.includes (Page.portfolioHtml portfolioUrl imageUrl portfolio info)
        (js "Your Name") = true)
  /\ (present (Personal.email info) = false ->
      Str.includes (Page.portfolioHtml portfolioUrl imageUrl portfolio info)
        (js "your.email@example.com") = true).
Proof.
  repeat split; intros H; unfold Page.portfolioHtml, orElse; rewrite H; find_nth by_computation.
Qed.

(** X19. Both page templates print a fixed placeholder for each part of
    the profile that is missing: 'No summary provided.', 'No skills
    listed.', 'No work experience listed.', 'Your Name' and
    'your.email@example.com' stand where the summary, the skills, the
    experience, the name and the e-mail address would. *)
Theorem missing_fields_have_placeholders :
  (forall envURL row info,
      personalInfo (GetPortfolio.portfolio_data row) = Some info ->
      exists html,
        GetPortfolio.generatePortfolioHTML envURL row = Ok html
        /\ (present (summary (GetPortfolio.portfolio_data row)) = false ->
            Str.includes html (js "No summary provided.") = true)
        /\ (items (skills (GetPortfolio.portfolio_data row)) = [] ->
            Str.includes html (js "No skills listed.") = true)
        /\ (items (experience (GetPortfolio.portfolio_data row)) = [] ->
            Str.includes html (js "No work experience listed.") = true)
        /\ (present (Personal.name info) = false ->
            Str.includes html (js "Your Name") = true)
        /\ (present (Personal.email info) = false ->
            Str.includes html (js "your.email@example.com") = true))
  /\ (forall protocol host id portfolio html,
         Page.renderPortfolio protocol host id portfolio = Ok html ->
         let info := match personalInfo (Page.data portfolio) with
                     | Some info => info
                     | None => Personal.empty
                     end in
         (present (summary (Page.data portfolio)) = false ->
          Str.includes html (js "No summary provided.") = true)
         /\ (items (skills (Page.data portfolio)) = [] ->
             Str.includes html (js "No skills listed.") = true)
         /\ (items (experience (Page.data portfolio)) = [] ->
             Str.includes html (js "No work experience listed.") = true)
         /\ (present (Personal.name info) = false ->
             Str.includes html (js "Your Name") = true)
         /\ (present (Personal.email info) = false ->
             Str.includes html (js "your.email@example.com") = true)).
Proof.
  split.
  - intros envURL row info Hinfo. unfold GetPortfolio.generatePortfolioHTML.
    rewrite Hinfo. eexists. split; [reflexivity|].
    apply netlify_template_placeholders.
  - intros protocol host id portfolio html. unfold Page.renderPortfolio.
    destruct (if present (Page.profilePictureUrl portfolio) then _ else _) as [image|];
      [|discriminate].
    intros [= <-]. apply server_template_placeholders.
Qed.

Lemma missing_fields_have_placeholders_witness :
  exists html,
    GetPortfolio.generatePortfolioHTML (Some (js "https://forge.example"))
      Scenario.rowNameOnly = Ok html
    /\ Str.includes html (js "No summary provided.") = true
    /\ Str.includes html (js "your.email@example.com") = true.
Proof.
  destruct (proj1 missing_fields_have_placeholders (Some (js "https://forge.example"))
              Scenario.rowNameOnly
              {| Personal.name := Some (js "Ada"); Personal.email := None;
                 Personal.phone := None; Personal.website := None;
                 Personal.linkedin := None; Personal.github := None |}
              eq_refl) as (html & Hhtml & Hsummary & _ & _ & _ & Hemail).
  exists html. split; [exact Hhtml|]. split; [apply Hsummary | apply Hemail]; reflexivity.
Defined.

Lemma netlify_template_verbatim envURL row pd info styles :
  (present (Personal.name info) = true ->
   Str.includes (GetPortfolio.template envURL row pd info styles)
     (text (Personal.name info)) = true)
  /\ (present (summary pd) = true ->
      Str.includes (GetPortfolio.template envURL row pd info styles)
        (text (summary pd)) = true)
  /\ (forall skill, In skill (items (skills pd)) ->
      Str.includes (GetPortfolio.template envURL row pd info styles) skill = true)
  /\ (forall proj, In proj (items (projects pd)) ->
      present (Project.title proj) = true ->
      Str.includes (GetPortfolio.template envURL row pd info styles)
        (text (Project.title proj)) = true).
Proof.
  repeat split.
  - intros H. unfold GetPortfolio.template, orElse. rewrite H.
    find_nth ltac:(apply includes_refl).
  - intros H. unfold GetPortfolio.template, orElse. rewrite H.
    find_nth ltac:(apply includes_refl).
  - intros skill H. unfold GetPortfolio.template.
    find_nth ltac:(apply includes_orDefault;
                    apply (includes_concat_map _ _ skill _ H);
                    find_nth ltac:(apply includes_refl)).
  - intros proj Hin H. unfold GetPortfolio.template.
    find_nth ltac:(apply includes_orDefault;
                    apply (includes_concat_map _ _ proj _ Hin);
                    unfold orElse; rewrite H;
                    find_nth ltac:(apply includes_refl)).
Qed.

Lemma server_template_verbatim portfolioUrl imageUrl portfolio info :
  (present (Personal.name info) = true ->
   Str.includes (Page.portfolioHtml portfolioUrl imageUrl portfolio info)
     (text (Personal.name info)) = true)
  /\ (present (summary (Page.data portfolio)) = true ->
      Str.includes (Page.portfolioHtml portfolioUrl imageUrl portfolio info)
        (text (summary (Page.data portfolio))) = true)
  /\ (forall skill, In skill (items (skills (Page.data portfolio))) ->
      Str.includes (Page.portfolioHtml portfolioUrl imageUrl portfolio info) skill = true)
  /\ (forall proj, In proj (items (projects (Page.data portfolio))) ->
      present (Project.title proj) = true ->
      Str.includes (Page.portfolioHtml portfolioUrl imageUrl portfolio info)
        (text (Project.title proj)) = true).
Proof.
  repeat split.
  - intros H. unfold Page.portfolioHtml, orElse. rewrite H.
    find_nth ltac:(apply includes_refl).
  - intros H. unfold Page.portfolioHtml, orElse. rewrite H.
    find_nth ltac:(apply includes_refl).
  - intros skill H. unfold Page.portfolioHtml.
    find_nth ltac:(apply includes_orDefault;
                    apply (includes_concat_map _ _ skill _ H);
                    find_nth ltac:(apply includes_refl)).
  - intros proj Hin H. unfold Page.portfolioHtml.
    find_nth ltac:(apply includes_orDefault;
                    apply (includes_concat_map _ _ proj _ Hin);
                    unfold orElse; rewrite H;
                    find_nth ltac:(apply includes_refl)).
Qed.

(** X20. Both page templates insert the stored strings as they are, with
    no escaping: the name, the summary, every skill and every project
    title of the record occur verbatim in the page, markup included. *)
Theorem pages_interpolate_verbatim :
  (forall envURL row info html,
      personalInfo (GetPortfolio.portfolio_data row) = Some info ->
      GetPortfolio.generatePortfolioHTML envURL row = Ok html ->
      (present (Personal.name info) = true ->
       Str.includes html (text (Personal.name info)) = true)
      /\ (present (summary (GetPortfolio.portfolio_data row)) = true ->
          Str.includes html (text (summary (GetPortfolio.portfolio_data row))) = true)
      /\ (forall skill, In skill (items (skills (GetPortfolio.portfolio_data row))) ->
          Str.includes html skill = true)
      /\ (forall proj, In proj (items (projects (GetPortfolio.portfolio_data row))) ->
          present (Project.title proj) = true ->
          Str.includes html (text (Project.title proj)) = true))
  /\ (forall protocol host id portfolio html,
         Page.renderPortfolio protocol host id portfolio = Ok html ->
         let info := match personalInfo (Page.data portfolio) with
                     | Some info => info
                     | None => Personal.empty
                     end in
         (present (Personal.name info) = true ->
          Str.includes html (text (Personal.name info)) = true)
         /\ (present (summary (Page.data portfolio)) = true ->
             Str.includes html (text (summary (Page.data portfolio))) = true)
         /\ (forall skill, In skill (items (skills (Page.data portfolio))) ->
             Str.includes html skill = true)
         /\ (forall proj, In proj (items (projects (Page.data portfolio))) ->
             present (Project.title proj) = true ->
             Str.includes html (text (Project.title proj)) = true)).
Proof.
  split.
  - intros envURL row info html Hinfo. unfold GetPortfolio.generatePortfolioHTML.
    rewrite Hinfo. intros [= <-]. apply netlify_template_verbatim.
  - intros protocol host id portfolio html. unfold Page.renderPortfolio.
    destruct (if present (Page.profilePictureUrl portfolio) then _ else _) as [image|];
      [|discriminate].
    intros [= <-]. apply server_template_verbatim.
Qed.

Lemma pages_interpolate_verbatim_witness :
  exists html,
    GetPortfolio.generatePortfolioHTML None
      {| GetPortfolio.share_id := Some (js "id");
         GetPortfolio.portfolio_data :=
           {| personalInfo := Some Personal.empty;
              summary := Some (js "<script>alert(1)</script>");
              skills := Some [js "<b>Go</b>"]; experience := None; projects := None |};
         GetPortfolio.profile_picture_url := None;
         GetPortfolio.selected_theme := None |} = Ok html
    /\ Str.includes html (js "<script>alert(1)</script>") = true
    /\ Str.includes html (js "<b>Go</b>") = true.
Proof.
  exists (GetPortfolio.template None
            {| GetPortfolio.share_id := Some (js "id");
               GetPortfolio.portfolio_data :=
                 {| personalInfo := Some Personal.empty;
                    summary := Some (js "<script>alert(1)</script>");
                    skills := Some [js "<b>Go</b>"]; experience := None;
                    projects := None |};
               GetPortfolio.profile_picture_url := None;
               GetPortfolio.selected_theme := None |}
            {| personalInfo := Some Personal.empty;
               summary := Some (js "<script>alert(1)</script>");
               skills := Some [js "<b>Go</b>"]; experience := None; projects := None |}
            Personal.empty (GetPortfolio.getThemeStyles None)).
  split; [reflexivity|].
  destruct (proj1 pages_interpolate_verbatim None
              {| GetPortfolio.share_id := Some (js "id");
                 GetPortfolio.portfolio_data :=
                   {| personalInfo := Some Personal.empty;
                      summary := Some (js "<script>alert(1)</script>");
                      skills := Some [js "<b>Go</b>"]; experience := None;
                      projects := None |};
                 GetPortfolio.profile_picture_url := None;
                 GetPortfolio.selected_theme := None |}
              Personal.empty _ eq_refl eq_refl)
    as (_ & Hsummary & Hskill & _).
  split; [apply Hsummary; reflexivity | apply Hskill; left; reflexivity].
Defined.

(** ** The address the server announces *)

Lemma firstExternal_find (addresses : list Network.Address) :
  Network.firstExternal addresses
  = Network.address <$> find Network.isExternalIPv4 addresses.
Proof.
  induction addresses as [|a rest IH]; [reflexivity|]. cbn [Network.firstExternal find].
  destruct (Network.isExternalIPv4 a); [reflexivity | exact IH].
Qed.

Lemma find_app_split {A} (f : A -> bool) (l l' : list A) :
  find f (l ++ l') = match find f l with Some x => Some x | None => find f l' end.
Proof.
  induction l as [|x l IH]; [reflexivity|]. cbn [app find].
  destruct (f x); [reflexivity | exact IH].
Qed.

(** X21. getLocalIpAddress returns the address of the first entry of the
    network interfaces, in the order they are enumerated, that is IPv4
    and not internal, and 127.0.0.1 when there is none. *)
Theorem local_ip_is_first_external (interfaces : list (jsstring * list Network.Address)) :
  Network.getLocalIpAddress interfaces
  = match find Network.isExternalIPv4 (concat (map snd interfaces)) with
    | Some a => Network.address a
    | None => js "127.0.0.1"
    end.
Proof.
  induction interfaces as [|[name addresses] rest IH]; [reflexivity|].
  cbn [Network.getLocalIpAddress map concat snd].
  rewrite find_app_split, firstExternal_find.
  destruct (find Network.isExternalIPv4 addresses); [reflexivity | exact IH].
Qed.

(** ** The image route *)

Lemma lastSplit_through (sep m x acc : jsstring) (best : option (jsstring * jsstring)) :
  exists best',
    Image.lastSplit sep acc (m ++ x) best = Image.lastSplit sep (rev m ++ acc) x best'.
Proof.
  revert acc best. induction m as [|c m IH]; intros acc best; [exists best; reflexivity|].
  cbn [app Image.lastSplit rev]. rewrite <- app_assoc. apply IH.
Qed.

Lemma lastSplit_without_semicolon (sep sep' r acc : jsstring)
    (best : option (jsstring * jsstring)) :
  sep = 59 :: sep' ->
  Str.lacks 59 r = true ->
  Image.lastSplit sep acc r best = best.
Proof.
  intros ->. revert acc best. induction r as [|c r IH]; intros acc best H; [reflexivity|].
  cbn [Str.lacks forallb] in H. apply andb_prop in H as [Hc Hr].
  apply negb_true_iff in Hc.
  cbn [Image.lastSplit]. rewrite (IH _ _ Hr).
  cbn [Str.startsWith]. rewrite N.eqb_sym, Hc. cbn [andb].
  destruct acc; [reflexivity|]. destruct (drop _ _); reflexivity.
Qed.

(** A data URL built from a type and a text without semicolon is cut back
    into the two. *)
Lemma matchDataUrl_built (mime data : jsstring) :
  mime <> [] -> data <> [] ->
  existsb Image.isLineTerminator mime = false ->
  existsb Image.isLineTerminator data = false ->
  Str.lacks 59 data = true ->
  Image.matchDataUrl (js "data:" ++ mime ++ js ";base64," ++ data) = Some (mime, data).
Proof.
  intros Hm Hd Lm Ld Hs. unfold Image.matchDataUrl.
  rewrite startsWith_app.
  change (drop 5 (js "data:" ++ mime ++ js ";base64," ++ data))
    with (mime ++ js ";base64," ++ data).
  rewrite !existsb_app, Lm, Ld. change (existsb Image.isLineTerminator (js ";base64,")) with false.
  cbn [orb].
  destruct (lastSplit_through (js ";base64,") mime (js ";base64," ++ data) [] None)
    as [best ->].
  rewrite app_nil_r.
  destruct (rev mime) as [|c acc] eqn:Er.
  { apply (f_equal (@rev N)) in Er. rewrite rev_involutive in Er. contradiction. }
  change (js ";base64," ++ data) with (59 :: js "base64," ++ data).
  cbn [Image.lastSplit].
  rewrite (lastSplit_without_semicolon (js ";base64,") (js "base64,")).
  - change (59 :: js "base64," ++ data) with (js ";base64," ++ data).
    change (length (js ";base64,")) with 8%nat.
    change (drop 8 (js ";base64," ++ data)) with data.
    rewrite startsWith_app. destruct data as [|d data]; [contradiction|].
    rewrite <- Er, rev_involutive. reflexivity.
  - reflexivity.
  - rewrite lacks_app, Hs. reflexivity.
Qed.

Lemma header_safe_has_no_line_terminator (s : jsstring) :
  existsb Image.invalidHeaderChar s = false -> existsb Image.isLineTerminator s = false.
Proof.
  induction s as [|c s IH]; [reflexivity|]. cbn [existsb]. intros H.
  apply orb_false_elim in H as [Hc Hs]. rewrite (IH Hs), orb_false_r.
  unfold Image.invalidHeaderChar in Hc. apply negb_false_iff in Hc.
  unfold Image.isLineTerminator.
  destruct (c =? 10) eqn:E1; [apply N.eqb_eq in E1; subst; discriminate|].
  destruct (c =? 13) eqn:E2; [apply N.eqb_eq in E2; subst; discriminate|].
  destruct (c =? 8232) eqn:E3; [apply N.eqb_eq in E3; subst; discriminate|].
  destruct (c =? 8233) eqn:E4; [apply N.eqb_eq in E4; subst; discriminate|].
  reflexivity.
Qed.

(** X22. A photo uploaded with a portfolio is served back by the image
    route: after POST /api/create-manual-portfolio with a photo, GET
    /api/portfolio-image/:id answers with the photo's media type and the
    bytes decoded from the base64 text that was stored, provided the
    type is a non-empty header value and the base64 text is non-empty
    and free of semicolons and line breaks. *)
Theorem uploaded_photo_is_served fromBase64 b64 body file id now w pd theme pd' placeholder :
  id <> js "__proto__" ->
  Val.get body (js "portfolioData") = Ok pd ->
  Val.get body (js "theme") = Ok theme ->
  Server.normalizeSocial pd = Ok pd' ->
  Server.placeholderPhoto pd' = Ok placeholder ->
  Server.mimetype file <> [] ->
  existsb Image.invalidHeaderChar (Server.mimetype file) = false ->
  b64 (Server.buffer file) <> [] ->
  existsb Image.isLineTerminator (b64 (Server.buffer file)) = false ->
  Str.lacks 59 (b64 (Server.buffer file)) = true ->
  Image.portfolioImage fromBase64
    (portfolios (snd (Server.createManualPortfolio b64 body (Some file) id now w))) id
  = Image.Picture (Server.mimetype file) (fromBase64 (b64 (Server.buffer file))).
Proof.
  intros Hid H1 H2 H3 H4 Hm Hh Hd Hl Hs.
  rewrite (server_manual_stores b64 body (Some file) id now w pd theme pd' placeholder
             H1 H2 H3 H4).
  cbn [snd portfolios]. unfold Image.portfolioImage.
  rewrite store_set_truthy by exact Hid.
  cbn [Val.truthy negb]. unfold Server.photoUrlOf.
  change (Val.get (VObj ?props) (js "profilePictureUrl")) with (Ok (Val.lookup props (js "profilePictureUrl"))).
  set (url := js "data:" ++ Server.mimetype file ++ js ";base64," ++ b64 (Server.buffer file)).
  change (Val.lookup _ (js "profilePictureUrl")) with (VStr url).
  cbv beta iota.
  assert (Val.truthy (VStr url) = true) as -> by reflexivity.
  assert (Str.startsWith url (js "data:") = true) as -> by apply startsWith_app.
  subst url.
  rewrite (matchDataUrl_built _ _ Hm Hd (header_safe_has_no_line_terminator _ Hh) Hl Hs).
  rewrite Hh. reflexivity.
Qed.

Lemma uploaded_photo_is_served_witness :
  Image.portfolioImage (fun _ => [137; 80; 78])
    (portfolios
       (snd (Server.createManualPortfolio Scenario.base64
               (VObj [ (js "portfolioData", VObj [(js "personalInfo", VObj [])]);
                       (js "theme", Themes.object Themes.dataGreen) ])
               (Some {| Server.mimetype := js "image/png"; Server.buffer := [137; 80; 78] |})
               (js "id") 7 Scenario.start)))
    (js "id")
  = Image.Picture (js "image/png") [137; 80; 78].
Proof.
  apply (uploaded_photo_is_served (fun _ => [137; 80; 78]) Scenario.base64
           (VObj [ (js "portfolioData", VObj [(js "personalInfo", VObj [])]);
                   (js "theme", Themes.object Themes.dataGreen) ])
           {| Server.mimetype := js "image/png"; Server.buffer := [137; 80; 78] |}
           (js "id") 7 Scenario.start
           (VObj [(js "personalInfo", VObj [])]) (Themes.object Themes.dataGreen)
           (VObj [(js "personalInfo", VObj [])])
           (js "https://placehold.co/150x150/222/fff?text=P"));
    first [discriminate | reflexivity].
Defined.

(** X23. On a store whose prototype was never replaced, the image route
    answers 404 for an id that is not stored, unless the id names a
    member of Object.prototype (constructor, toString, __proto__, ...):
    for those it redirects to the placeholder picture, the inherited
    member passing for a portfolio without picture. *)
Theorem image_route_unknown_ids fromBase64 (s : Store) (id : jsstring) :
  records s !! id = None ->
  prototype s = None ->
  Image.portfolioImage fromBase64 s id
  = if Val.inherited id then Image.Redirect Image.placeholderUrl else Image.NotFound.
Proof.
  intros Hr Hp. unfold Image.portfolioImage, Store.get, Store.fromPrototype.
  rewrite Hr, Hp. destruct (Val.inherited id); reflexivity.
Qed.

Lemma image_route_unknown_ids_witness :
  Image.portfolioImage (fun _ => []) Store.empty (js "constructor")
  = Image.Redirect Image.placeholderUrl.
Proof.
  apply (image_route_unknown_ids (fun _ => []) Store.empty (js "constructor")); reflexivity.
Defined.

(** ** The typed templates are the templates on stored values

    On a record shaped as the data model shapes it, the routes that read
    stored values do what the routes on typed records do. *)

Lemma collect_oks {A} (l : list (result A)) (l' : list A) :
  Forall2 (fun r a => r = Ok a) l l' -> Stored.collect l = Ok l'.
Proof.
  induction 1 as [|r a l l' -> _ IH]; [reflexivity|].
  cbn [Stored.collect]. rewrite IH. reflexivity.
Qed.

Lemma pieces_oks (l : list (result jsstring)) (l' : list jsstring) :
  Forall2 (fun r s => r = Ok s) l l' -> Stored.pieces l = Ok (concat l').
Proof.
  intros H. unfold Stored.pieces. rewrite (collect_oks l l' H). reflexivity.
Qed.

Section Typed.

Variable numberToString : number -> jsstring.
Variable dateToString : N -> jsstring.

Lemma toString_ofText (o : option jsstring) :
  Stored.toString numberToString dateToString (AsValue.ofText o) = Ok (text o).
Proof. destruct o; reflexivity. Qed.

Lemma truthy_ofText (o : option jsstring) :
  Val.truthy (AsValue.ofText o) = present o.
Proof. destruct o as [[|c s]|]; reflexivity. Qed.

Lemma shown_typed (r : result value) (o : option jsstring) :
  r = Ok (AsValue.ofText o) ->
  Stored.shown numberToString dateToString r = Ok (text o).
Proof. intros ->. apply toString_ofText. Qed.

Lemma shown_string (r : result value) (s : jsstring) :
  r = Ok (VStr s) -> Stored.shown numberToString dateToString r = Ok s.
Proof. intros ->. reflexivity. Qed.

Lemma replaced_string (r : result value) (a b s : jsstring) :
  r = Ok (VStr s) -> Stored.replaced r a b = Ok (Str.replaceFirst a b s).
Proof. intros ->. reflexivity. Qed.

Lemma orText_typed (r : result value) (o : option jsstring) (d : jsstring) :
  r = Ok (AsValue.ofText o) ->
  Stored.orText numberToString dateToString r d = Ok (orElse o d).
Proof.
  intros ->. unfold Stored.orText, orElse. cbn [Stored.andThen].
  rewrite truthy_ofText. destruct (present o); [apply toString_ofText | reflexivity].
Qed.

Lemma whenever_typed (r : result value) (o : option jsstring)
    (t : result jsstring) (s d : jsstring) :
  r = Ok (AsValue.ofText o) -> t = Ok s ->
  Stored.whenever r t d = Ok (if present o then s else d).
Proof.
  intros -> ->. unfold Stored.whenever. cbn [Stored.andThen].
  rewrite truthy_ofText. destruct (present o); reflexivity.
Qed.

Lemma each_typed {A} (emb : A -> value) (r : result value) (o : option (list A))
    (f : value -> result jsstring) (g : A -> jsstring) :
  r = Ok (AsValue.ofSequence emb o) ->
  (forall x, f (emb x) = Ok (g x)) ->
  Stored.each r f = Ok (concat (map g (items o))).
Proof.
  intros -> Hf. unfold Stored.each. cbn [Stored.andThen].
  destruct o as [l|]; cbn [AsValue.ofSequence items];
    [|reflexivity].
  unfold Stored.elements. cbn [Val.truthy Val.own Stored.andThen].
  rewrite (collect_oks (map f (map emb l)) (map g l)); [reflexivity|].
  induction l as [|x l IH]; constructor; [apply Hf | exact IH].
Qed.

Lemma listing_typed {A} (emb : A -> value) (r : result value) (o : option (list A))
    (f : value -> result jsstring) (g : A -> jsstring) (d : jsstring) :
  r = Ok (AsValue.ofSequence emb o) ->
  (forall x, f (emb x) = Ok (g x)) ->
  Stored.orDefaultOf (Stored.each r f) d = Ok (orDefault (concat (map g (items o))) d).
Proof.
  intros Hr Hf. rewrite (each_typed emb r o f g Hr Hf). reflexivity.
Qed.

End Typed.

(** One piece of a template on stored values against the piece of the
    typed template; [side] settles what a piece reads. *)
Ltac typed_piece side :=
  lazymatch goal with
  | |- Ok _ = Ok _ => reflexivity
  | |- Stored.shown _ _ _ = Ok (text _) => apply shown_typed; side
  | |- Stored.shown _ _ _ = Ok _ => apply shown_string; side
  | |- Stored.replaced _ _ _ = Ok _ => apply replaced_string; side
  | |- Stored.orText _ _ _ _ = Ok _ => apply orText_typed; side
  | |- Stored.whenever _ _ _ = Ok _ =>
      apply whenever_typed; [side | typed_pieces side]
  | |- Stored.orDefaultOf (Stored.each _ _) _ = Ok _ =>
      eapply listing_typed; [side | intros ?; typed_pieces side]
  | |- Stored.each _ _ = Ok _ =>
      eapply each_typed; [side | intros ?; typed_pieces side]
  end
with typed_pieces side :=
  lazymatch goal with
  | |- Stored.pieces _ = Ok (concat _) =>
      apply pieces_oks;
      repeat (apply List.Forall2_cons; [typed_piece side|]);
      apply List.Forall2_nil
  end.

Ltac by_reading := first [assumption | reflexivity].

Lemma stored_page_typed nts dts portfolioUrl imageUrl portfolio v info :
  AsValue.readsPersonal v info ->
  Stored.portfolioHtml nts dts portfolioUrl imageUrl (AsValue.ofPortfolio portfolio) v
  = Ok (Page.portfolioHtml portfolioUrl imageUrl portfolio info).
Proof.
  intros (Hn & He & Hp & Hw & Hl & Hg).
  unfold Stored.portfolioHtml, Page.portfolioHtml.
  typed_pieces by_reading.
Qed.

Lemma reads_ofPersonal (info : Personal.t) :
  AsValue.readsPersonal (AsValue.ofPersonal info) info.
Proof. repeat split; reflexivity. Qed.

Lemma reads_empty : AsValue.readsPersonal (VObj []) Personal.empty.
Proof. repeat split; reflexivity. Qed.

Lemma stored_placeholder_typed nts dts v info :
  AsValue.readsPersonal v info ->
  Stored.placeholderImage nts dts v = Page.placeholderImage info.
Proof.
  intros (Hn & _). unfold Stored.placeholderImage, Page.placeholderImage.
  rewrite (orText_typed nts dts _ _ (js "Portfolio") Hn). reflexivity.
Qed.

(** The body of the [try] of GET /portfolio/:id. *)
Lemma stored_render_typed nts dts protocol host id portfolio :
  Stored.renderPortfolio nts dts protocol host id (AsValue.ofPortfolio portfolio)
  = Page.renderPortfolio protocol host id portfolio.
Proof.
  unfold Stored.renderPortfolio, Page.renderPortfolio.
  change (Stored.read (AsValue.ofPortfolio portfolio) [js "data"; js "personalInfo"])
    with (@Ok value (match personalInfo (Page.data portfolio) with
                     | Some info => AsValue.ofPersonal info
                     | None => VUndefined
                     end)).
  change (Stored.member (AsValue.ofPortfolio portfolio) (js "profilePictureUrl"))
    with (@Ok value (AsValue.ofText (Page.profilePictureUrl portfolio))).
  cbn [Stored.andThen]. rewrite truthy_ofText.
  set (info := match personalInfo (Page.data portfolio) with
               | Some i => i
               | None => Personal.empty
               end).
  set (v := if Val.truthy _ then _ else VObj []).
  assert (Hv : AsValue.readsPersonal v info).
  { subst v info. destruct (personalInfo (Page.data portfolio)) as [i|].
    - apply reads_ofPersonal.
    - apply reads_empty. }
  rewrite (stored_placeholder_typed nts dts v info Hv).
  assert (forall imageUrl : result jsstring,
             Stored.andThen imageUrl (fun imageUrl =>
               Stored.portfolioHtml nts dts
                 (protocol ++ js "://" ++ host ++ js "/portfolio/" ++ id)
                 imageUrl (AsValue.ofPortfolio portfolio) v)
             = match imageUrl with
               | Throw e => Throw e
               | Ok imageUrl =>
                   Ok (Page.portfolioHtml
                         (protocol ++ js "://" ++ host ++ js "/portfolio/" ++ id)
                         imageUrl portfolio info)
               end) as Hpage.
  { intros [imageUrl|e]; [|reflexivity]. cbn [Stored.andThen].
    exact (stored_page_typed nts dts _ imageUrl portfolio v info Hv). }
  destruct (Page.profilePictureUrl portfolio) as [[|c url]|];
    cbn [present AsValue.ofText text]; apply Hpage.
Qed.

(** GET /portfolio/:id on a store that holds the typed record, or
    nothing, under the id. *)
Lemma stored_view_typed nts dts protocol host id portfolios stored :
  match stored with
  | Some portfolio => Store.get portfolios id = AsValue.ofPortfolio portfolio
  | None => Val.truthy (Store.get portfolios id) = false
  end ->
  Stored.getPortfolio nts dts protocol host id portfolios
  = Page.getPortfolio protocol host id stored.
Proof.
  intros H. unfold Stored.getPortfolio, Page.getPortfolio.
  destruct (Page.isUuid id); cbn [negb]; [|reflexivity].
  destruct stored as [portfolio|]; rewrite H; [|reflexivity].
  cbn [AsValue.ofPortfolio Val.truthy negb].
  fold (AsValue.ofPortfolio portfolio). rewrite stored_render_typed. reflexivity.
Qed.

Lemma stored_row_typed nts dts envURL row info :
  Stored.template nts dts envURL (AsValue.ofRow row) (AsValue.ofPersonal info)
    (AsValue.ofText (summary (GetPortfolio.portfolio_data row)))
    (AsValue.ofSequence VStr (skills (GetPortfolio.portfolio_data row)))
    (AsValue.ofSequence AsValue.ofExperience (experience (GetPortfolio.portfolio_data row)))
    (AsValue.ofSequence AsValue.ofProject (projects (GetPortfolio.portfolio_data row)))
    (AsValue.ofText (GetPortfolio.profile_picture_url row))
    (GetPortfolio.getThemeStyles (GetPortfolio.selected_theme row))
  = Ok (GetPortfolio.template envURL row (GetPortfolio.portfolio_data row) info
          (GetPortfolio.getThemeStyles (GetPortfolio.selected_theme row))).
Proof.
  unfold Stored.template, GetPortfolio.template.
  typed_pieces by_reading.
Qed.

Lemma themeName_ofText (o : option jsstring) :
  Stored.themeName (AsValue.ofText o) = o.
Proof. destruct o; reflexivity. Qed.

(** [generatePortfolioHTML] of get-portfolio.js. *)
Lemma stored_html_typed nts dts envURL row :
  Stored.generatePortfolioHTML nts dts envURL (AsValue.ofRow row)
  = GetPortfolio.generatePortfolioHTML envURL row.
Proof.
  unfold Stored.generatePortfolioHTML, GetPortfolio.generatePortfolioHTML.
  change (Stored.member (AsValue.ofRow row) (js "portfolio_data"))
    with (@Ok value (AsValue.ofProfile (GetPortfolio.portfolio_data row))).
  change (Stored.member (AsValue.ofRow row) (js "profile_picture_url"))
    with (@Ok value (AsValue.ofText (GetPortfolio.profile_picture_url row))).
  change (Stored.member (AsValue.ofRow row) (js "selected_theme"))
    with (@Ok value (AsValue.ofText (GetPortfolio.selected_theme row))).
  cbn [Stored.andThen].
  set (pd := GetPortfolio.portfolio_data row).
  change (Stored.member (AsValue.ofProfile pd) (js "personalInfo"))
    with (@Ok value (match personalInfo pd with
                     | Some info => AsValue.ofPersonal info
                     | None => VUndefined
                     end)).
  change (Stored.member (AsValue.ofProfile pd) (js "summary"))
    with (@Ok value (AsValue.ofText (summary pd))).
  change (Stored.member (AsValue.ofProfile pd) (js "skills"))
    with (@Ok value (AsValue.ofSequence VStr (skills pd))).
  change (Stored.member (AsValue.ofProfile pd) (js "experience"))
    with (@Ok value (AsValue.ofSequence AsValue.ofExperience (experience pd))).
  change (Stored.member (AsValue.ofProfile pd) (js "projects"))
    with (@Ok value (AsValue.ofSequence AsValue.ofProject (projects pd))).
  cbn [Stored.andThen]. rewrite themeName_ofText. cbv zeta.
  destruct (personalInfo pd) as [info|].
  - subst pd. apply stored_row_typed.
  - reflexivity.
Qed.

(** ** get-portfolio.js *)

(** Closes a case of a handler in which the facts at hand contradict
    what [select] resolved to. *)
Ltac settle_status select :=
  intros;
  repeat match goal with
         | H : ex _ |- _ => destruct H
         | H : _ /\ _ |- _ => destruct H
         end;
  try discriminate;
  repeat match goal with
         | H : Some _ = Some _ |- _ => injection H as H; subst
         end;
  repeat match goal with
         | E : select ?x = _, H : select ?x = _ |- _ => rewrite E in H
         end;
  try discriminate;
  repeat match goal with
         | H : Ok (_, _) = Ok (_, _) |- _ => injection H as ? ?; subst
         end;
  repeat match goal with
         | H : _ \/ _ |- _ => destruct H
         end;
  congruence.

(** X24. get-portfolio.js answers 200, with the page, exactly when the
    request carries query parameters, the query resolves to a row
    without an error, and generatePortfolioHTML returns for that row; it
    answers 404 exactly when the query resolves with an error or without
    a row; in every other case it answers 500: no query parameters, a
    rejected query, or a row for which generatePortfolioHTML throws, as
    it does for every row whose portfolio_data or personalInfo is
    absent.  For a row shaped as the data model shapes it,
    generatePortfolioHTML returns exactly when personalInfo is
    present. *)
Theorem get_portfolio_statuses numberToString dateToString select envURL query :
  let resp := Stored.handler numberToString dateToString select envURL query in
  (status resp = 200%nat
   <-> exists shareId data error html,
       query = Some shareId /\ select shareId = Ok (data, error)
       /\ Val.truthy error = false /\ Val.truthy data = true
       /\ Stored.generatePortfolioHTML numberToString dateToString envURL data = Ok html
       /\ payload resp = HtmlOf html)
  /\ (status resp = 404%nat
      <-> exists shareId data error,
          query = Some shareId /\ select shareId = Ok (data, error)
          /\ (Val.truthy error = true \/ Val.truthy data = false))
  /\ (status resp = 200%nat \/ status resp = 404%nat \/ status resp = 500%nat)
  /\ (forall shareId data error pd,
         query = Some shareId -> select shareId = Ok (data, error) ->
         Val.truthy error = false -> Val.truthy data = true ->
         Stored.member data (js "portfolio_data") = Ok pd ->
         Stored.absent pd
         \/ (exists info,
                Stored.member pd (js "personalInfo") = Ok info /\ Stored.absent info) ->
         resp = {| status := 500; payload := HtmlOf GetPortfolio.serverErrorPage |})
  /\ (forall row,
         (exists html,
             Stored.generatePortfolioHTML numberToString dateToString envURL
               (AsValue.ofRow row) = Ok html)
         <-> personalInfo (GetPortfolio.portfolio_data row) <> None).
Proof.
  cbv zeta.
  assert (forall row,
             (exists html,
                 Stored.generatePortfolioHTML numberToString dateToString envURL
                   (AsValue.ofRow row) = Ok html)
             <-> personalInfo (GetPortfolio.portfolio_data row) <> None) as Htyped.
  { intros row. rewrite stored_html_typed. unfold GetPortfolio.generatePortfolioHTML.
    destruct (personalInfo (GetPortfolio.portfolio_data row)) as [info|].
    - split; [discriminate | eauto].
    - split; [intros [html H]; discriminate H | congruence]. }
  match goal with
  | |- ?A /\ ?B /\ ?C /\ ?D /\ _ =>
      assert (A /\ B /\ C /\ D) as (H1 & H2 & H3 & H4);
        [clear Htyped | exact (conj H1 (conj H2 (conj H3 (conj H4 Htyped))))]
  end.
  unfold Stored.handler.
  destruct query as [shareId|]; cbn [status payload];
    [|repeat split; try discriminate; auto; settle_status select].
  destruct (select shareId) as [[data error]|e] eqn:E; cbn [status payload];
    [|repeat split; try discriminate; auto; settle_status select].
  destruct (Val.truthy error) eqn:Ee; cbn [orb].
  { repeat split; try discriminate; auto; try solve [settle_status select].
    intros _. exists shareId, data, error. auto. }
  destruct (Val.truthy data) eqn:Ed; cbn [negb].
  2:{ repeat split; try discriminate; auto; try solve [settle_status select].
      intros _. exists shareId, data, error. auto. }
  destruct (Stored.generatePortfolioHTML numberToString dateToString envURL data)
    as [html|e] eqn:G; cbn [status payload].
  - repeat split; try discriminate; auto; try solve [settle_status select].
    + intros _. exists shareId, data, error, html. repeat split; assumption || reflexivity.
    + intros s' d er pd [= <-] H _ _ Hm Hpd. rewrite E in H. injection H as <- <-.
      destruct (stored_row_needs_data numberToString dateToString envURL data pd Hm Hpd)
        as [e He].
      rewrite He in G. discriminate.
  - repeat split; try discriminate; auto; solve [settle_status select].
Qed.

Lemma get_portfolio_statuses_witness :
  Stored.handler Scenario.showNumber Scenario.showDate
    (fun _ => Ok (VObj [ (js "share_id", VStr (js "0b0e7a2c-4f7e-4c1b-9a59-2f1d3c5e7a90"));
                         (js "portfolio_data", VObj [(js "summary", VStr (js "Engineer"))]);
                         (js "profile_picture_url", VNull);
                         (js "selected_theme", VNull) ], VNull))
    (Some (js "https://forge.example"))
    (Some (Some (js "0b0e7a2c-4f7e-4c1b-9a59-2f1d3c5e7a90")))
  = {| status := 500; payload := HtmlOf GetPortfolio.serverErrorPage |}.
Proof.
  eapply (proj1 (proj2 (proj2 (proj2
            (get_portfolio_statuses Scenario.showNumber Scenario.showDate _ _ _))))).
  - reflexivity.
  - reflexivity.
  - reflexivity.
  - reflexivity.
  - reflexivity.
  - right. exists VUndefined. split; [reflexivity | left; reflexivity].
Defined.

(** ** The theme tables *)

Lemma default_themes_agree (k : jsstring) :
  k <> js "buttonStyle" ->
  Val.get (Themes.object Themes.professionalBlue) k
  = Val.get (Themes.object Themes.professionalBlue') k.
Proof.
  intros Hk. unfold Themes.object, Val.get, Val.lookup. cbn [Val.own].
  repeat match goal with
         | |- context [Str.eqb ?a k] =>
             destruct (Str.eqb a k) eqn:?;
               [first [ reflexivity
                      | exfalso; apply Hk; symmetry; apply eqb_eq; assumption ]|]
         end.
  reflexivity.
Qed.

Lemma selected_themes_agree (label k : jsstring) :
  k <> js "buttonStyle" ->
  Val.get (Themes.select Themes.themes (VStr label)) k
  = Val.get (Themes.select Themes.themes' (VStr label)) k.
Proof.
  intros Hk.
  unfold Themes.select, Val.propertyKey, Val.lookup, Themes.themes, Themes.themes',
    Themes.table.
  cbn [Val.own].
  destruct (Str.eqb (js "Software Developer") label); [reflexivity|].
  destruct (Str.eqb (js "Graphic Designer") label); [reflexivity|].
  destruct (Str.eqb (js "Data Scientist") label); [reflexivity|].
  change (Str.eqb (js "Software Developer") (js "Default")) with false.
  change (Str.eqb (js "Graphic Designer") (js "Default")) with false.
  change (Str.eqb (js "Data Scientist") (js "Default")) with false.
  change (Str.eqb (js "Default") (js "Default")) with true.
  cbv iota.
  destruct (Str.eqb (js "Default") label).
  - cbn [Val.truthy Themes.object]. cbv iota. apply default_themes_agree. exact Hk.
  - destruct (Val.inherited label); [reflexivity|].
    cbn [Val.truthy]. cbv iota. apply default_themes_agree. exact Hk.
Qed.

Lemma other_entries_agree (label : jsstring) :
  label <> js "Default" ->
  Val.own ThemeTables.generatePortfolio label = Val.own ThemeTables.server label.
Proof.
  intros Hl. unfold ThemeTables.generatePortfolio, ThemeTables.server. cbn [Val.own].
  destruct (Str.eqb (js "Software Developer") label); [reflexivity|].
  destruct (Str.eqb (js "Graphic Designer") label); [reflexivity|].
  destruct (Str.eqb (js "Data Scientist") label); [reflexivity|].
  destruct (Str.eqb (js "Default") label) eqn:E; [|reflexivity].
  apply eqb_eq in E. congruence.
Qed.

Lemma default_entries_agree (k : jsstring) :
  k <> js "buttonStyle" ->
  match Val.own ThemeTables.generatePortfolio (js "Default"),
        Val.own ThemeTables.server (js "Default") with
  | Some (VObj d'), Some (VObj d) => Val.own d' k = Val.own d k
  | _, _ => False
  end.
Proof.
  intros Hk.
  change (Val.own ThemeTables.generatePortfolio (js "Default"))
    with (Some (Themes.object Themes.professionalBlue')).
  change (Val.own ThemeTables.server (js "Default"))
    with (Some (Themes.object Themes.professionalBlue)).
  unfold Themes.object. cbn [Val.own].
  repeat match goal with
         | |- context [Str.eqb ?a k] =>
             destruct (Str.eqb a k) eqn:?;
               [first [ reflexivity
                      | exfalso; apply Hk; symmetry; apply eqb_eq; assumption ]|]
         end.
  reflexivity.
Qed.

(** X25. The theme tables of generate-portfolio.js and of server.js,
    each written out from its own file, have the same keys and the same
    property names in the same order, the same entry under every key
    other than Default, and Default entries that agree on every property
    other than buttonStyle, where server.js has 'bg-indigo-600
    hover:bg-indigo-700' and generate-portfolio.js 'bg-indigo-700
    hover:bg-indigo-800'.  The table of the Netlify generate function is
    that of server.js.  So whatever the label, every property of the
    selected theme other than buttonStyle reads the same from both. *)
Theorem theme_tables_agree_but_for_button :
  ThemeTables.server = Themes.themes
  /\ ThemeTables.netlify = ThemeTables.server
  /\ ThemeTables.generatePortfolio = Themes.themes'
  /\ map fst ThemeTables.generatePortfolio = map fst ThemeTables.server
  /\ (forall label, label <> js "Default" ->
      Val.own ThemeTables.generatePortfolio label = Val.own ThemeTables.server label)
  /\ (exists d d',
      Val.own ThemeTables.server (js "Default") = Some (VObj d)
      /\ Val.own ThemeTables.generatePortfolio (js "Default") = Some (VObj d')
      /\ map fst d' = map fst d
      /\ (forall k, k <> js "buttonStyle" -> Val.own d' k = Val.own d k)
      /\ Val.own d (js "buttonStyle") = Some (VStr (js "bg-indigo-600 hover:bg-indigo-700"))
      /\ Val.own d' (js "buttonStyle") = Some (VStr (js "bg-indigo-700 hover:bg-indigo-800")))
  /\ (forall label k, k <> js "buttonStyle" ->
      Val.get (Themes.select ThemeTables.server (VStr label)) k
      = Val.get (Themes.select ThemeTables.generatePortfolio (VStr label)) k).
Proof.
  split; [reflexivity|]. split; [reflexivity|]. split; [reflexivity|].
  split; [reflexivity|]. split; [exact other_entries_agree|]. split.
  - eexists. eexists. split; [reflexivity|]. split; [reflexivity|].
    split; [reflexivity|]. split; [|split; reflexivity].
    intros k Hk. exact (default_entries_agree k Hk).
  - exact selected_themes_agree.
Qed.

Lemma theme_tables_agree_but_for_button_witness :
  Val.get (Themes.select ThemeTables.server (VStr (js "Teacher"))) (js "primaryColor")
  = Val.get (Themes.select ThemeTables.generatePortfolio (VStr (js "Teacher")))
      (js "primaryColor")
  /\ Val.own ThemeTables.generatePortfolio (js "Data Scientist")
     = Val.own ThemeTables.server (js "Data Scientist").
Proof.
  split.
  - apply (proj2 (proj2 (proj2 (proj2 (proj2 (proj2 theme_tables_agree_but_for_button)))))
             (js "Teacher") (js "primaryColor")).
    discriminate.
  - apply (proj1 (proj2 (proj2 (proj2 (proj2 theme_tables_agree_but_for_button))))
             (js "Data Scientist")).
    discriminate.
Defined.

(** ** Requests that are turned away *)

(** X26. server.js makes no model call for a PDF without text: when the
    text pdf-parse extracts is empty or consists of white space only,
    POST /api/generate-from-resume answers 400 and leaves the store and
    the call count as they were. *)
Theorem server_rejects_blank_resume gen pdf b64 file photo id now w resumeText :
  pdf (Server.buffer file) = Ok resumeText ->
  forallb Str.isWhiteSpace resumeText = true ->
  Server.generateFromResume gen pdf b64 (Some file) photo id now w
  = (Ok {| status := 400;
           payload := errorJson (js "Could not extract text from the PDF. The file may be corrupted or scanned as an image.") |},
     w).
Proof.
  intros Hp Hb. apply (server_empty_resume_fails_fast gen pdf b64 file photo id now w resumeText Hp).
  apply trim_empty_iff_blank. exact Hb.
Qed.

Lemma server_rejects_blank_resume_witness :
  Server.generateFromResume (Scenario.replies []) (Scenario.pdfWithText (js "  "))
    Scenario.base64 (Some {| Server.mimetype := js "application/pdf"; Server.buffer := [] |})
    None (js "id") 7 Scenario.start
  = (Ok {| status := 400;
           payload := errorJson (js "Could not extract text from the PDF. The file may be corrupted or scanned as an image.") |},
     Scenario.start).
Proof.
  apply (server_rejects_blank_resume (Scenario.replies []) (Scenario.pdfWithText (js "  "))
           Scenario.base64 {| Server.mimetype := js "application/pdf"; Server.buffer := [] |}
           None (js "id") 7 Scenario.start (js "  ")); reflexivity.
Defined.

(** X27. The Netlify generate function cannot save a manual portfolio
    that comes without a theme: reading the name of an absent or null
    theme fails, the request is answered 500 and no row is inserted. *)
Theorem netlify_manual_needs_theme gen table event id w body theme :
  Netlify.method event = VStr (js "POST") ->
  Json.parse (Netlify.eventBody event) = Ok body ->
  Val.get body (js "type") = Ok (VStr (js "manual")) ->
  Val.get body (js "theme") = Ok theme ->
  theme = VUndefined \/ theme = VNull ->
  Netlify.handler gen table event id w
  = (Ok {| status := 500; payload := errorJson (js "Internal server error") |}, w).
Proof.
  intros Hm Hb Ht Hth Habsent.
  unfold Netlify.handler, Netlify.save, tryCatch, bind, lift, ret.
  rewrite Hm, Hb, Ht, Hth.
  change (Netlify.isString (VStr (js "POST")) (js "GET")) with false.
  change (Netlify.isString (VStr (js "POST")) (js "POST")) with true.
  change (Netlify.isString (VStr (js "manual")) (js "manual")) with true.
  cbn [negb].
  assert (exists x, Val.get body (js "portfolioData") = Ok x) as [pd ->].
  { destruct body; try discriminate; eexists; reflexivity. }
  assert (exists x, Val.get body (js "profilePictureUrl") = Ok x) as [pic ->].
  { destruct body; try discriminate; eexists; reflexivity. }
  destruct Habsent as [-> | ->]; reflexivity.
Qed.

Lemma netlify_manual_needs_theme_witness :
  Netlify.handler (Scenario.replies []) Scenario.accepting
    {| Netlify.method := VStr (js "POST");
       Netlify.eventBody :=
         js "{" ++ Scenario.q "type" ++ js ":" ++ Scenario.q "manual" ++ js ","
         ++ Scenario.q "portfolioData" ++ js ":{}}" |}
    (js "id") Scenario.start
  = (Ok {| status := 500; payload := errorJson (js "Internal server error") |},
     Scenario.start).
Proof.
  apply (netlify_manual_needs_theme (Scenario.replies []) Scenario.accepting
           {| Netlify.method := VStr (js "POST");
              Netlify.eventBody :=
                js "{" ++ Scenario.q "type" ++ js ":" ++ Scenario.q "manual" ++ js ","
                ++ Scenario.q "portfolioData" ++ js ":{}}" |}
           (js "id") Scenario.start
           (VObj [(js "type", VStr (js "manual")); (js "portfolioData", VObj [])])
           VUndefined);
    first [reflexivity | vm_compute; reflexivity | left; reflexivity].
Defined.

(** ** The preview image of a page *)

Lemma page_holds_image_url portfolioUrl imageUrl portfolio info :
  Str.includes (Page.portfolioHtml portfolioUrl imageUrl portfolio info) imageUrl = true.
Proof.
  unfold Page.portfolioHtml. find_nth ltac:(apply includes_refl).
Qed.

(** X28. The preview image a page of server.js names is never the
    uploaded photo.  For a picture that is a data: URL the page names a
    placeholder built from the name; for any other picture it names the
    image route, and the image route, which serves data: URLs only,
    answers that request with a redirect to the placeholder. *)
Theorem preview_image_is_never_the_photo protocol host id portfolio url html :
  Page.profilePictureUrl portfolio = Some url ->
  url <> [] ->
  Page.renderPortfolio protocol host id portfolio = Ok html ->
  let info := match personalInfo (Page.data portfolio) with
              | Some info => info
              | None => Personal.empty
              end in
  (Str.startsWith url (js "data:") = true ->
   exists name,
     Uri.encodeURIComponent (orElse (Personal.name info) (js "Portfolio")) = Ok name
     /\ html
        = Page.portfolioHtml (protocol ++ js "://" ++ host ++ js "/portfolio/" ++ id)
            (js "https://via.placeholder.com/1200x627/4F46E5/FFFFFF?text=" ++ name)
            portfolio info)
  /\ (Str.startsWith url (js "data:") = false ->
      Str.includes html (protocol ++ js "://" ++ host ++ js "/api/portfolio-image/" ++ id)
      = true
      /\ forall fromBase64 store props,
          records store !! id = Some (VObj props) ->
          Val.own props (js "profilePictureUrl") = Some (VStr url) ->
          Image.portfolioImage fromBase64 store id = Image.Redirect Image.placeholderUrl).
Proof.
  intros Hpic Hne. unfold Page.renderPortfolio. rewrite Hpic.
  destruct url as [|c url]; [contradiction|]. cbn [present text].
  destruct (Str.startsWith (c :: url) (js "data:")) eqn:Ed; intros H; cbv zeta; split;
    try discriminate.
  - intros _. unfold Page.placeholderImage, Uri.prepend in H.
    destruct (Uri.encodeURIComponent _) as [name|]; [|discriminate].
    injection H as <-. exists name. split; reflexivity.
  - intros _. injection H as <-. split; [apply page_holds_image_url|].
    intros fromBase64 store props Hr Hp.
    unfold Image.portfolioImage, Store.get. rewrite Hr.
    cbn [Val.truthy negb Val.get]. unfold Val.lookup. rewrite Hp.
    cbn [Val.truthy]. rewrite Ed. reflexivity.
Qed.

Lemma preview_image_is_never_the_photo_witness :
  Str.includes
    (Page.portfolioHtml (js "https://forge.example/portfolio/0b0e7a2c-4f7e-4c1b-9a59-2f1d3c5e7a90")
       (js "https://forge.example/api/portfolio-image/0b0e7a2c-4f7e-4c1b-9a59-2f1d3c5e7a90")
       Scenario.storedNameOnly
       {| Personal.name := Some (js "Ada"); Personal.email := None;
          Personal.phone := None; Personal.website := None;
          Personal.linkedin := None; Personal.github := None |})
    (js "https://forge.example/api/portfolio-image/0b0e7a2c-4f7e-4c1b-9a59-2f1d3c5e7a90")
  = true.
Proof.
  apply (proj2 (preview_image_is_never_the_photo (js "https") (js "forge.example")
                  (js "0b0e7a2c-4f7e-4c1b-9a59-2f1d3c5e7a90") Scenario.storedNameOnly
                  (js "https://placehold.co/150x150/222/fff?text=A") _
                  eq_refl ltac:(discriminate) eq_refl)).
  reflexivity.
Defined.

(** ** The pipelines end to end *)

Lemma prompt_is_built (skills summary : value) :
  Conv.toStringThrows summary = false ->
  Conv.toStringThrows skills = false ->
  Conv.interpolate (if Val.truthy summary then summary else VStr []) = Ok tt
  /\ Conv.interpolate (if Val.isArray skills then skills else VArr [] []) = Ok tt.
Proof.
  intros Hts Htk. unfold Conv.interpolate. split.
  - destruct (Val.truthy summary); [rewrite Hts|]; reflexivity.
  - destruct (Val.isArray skills); [rewrite Htk|]; reflexivity.
Qed.

Lemma server_classifier_run gen parsedData w skills summary label :
  Val.get parsedData (js "skills") = Ok skills ->
  Val.get parsedData (js "summary") = Ok summary ->
  Conv.toStringThrows summary = false ->
  Conv.toStringThrows skills = false ->
  gen (modelCalls w) = Text label ->
  Server.classifyProfessionAndSelectTheme gen parsedData w
  = (Ok (Themes.select Themes.themes (VStr (Str.trim label))),
     {| modelCalls := S (modelCalls w); portfolios := portfolios w; rows := rows w |}).
Proof.
  intros Hs Hm Hts Htk Hg. destruct (prompt_is_built skills summary Hts Htk) as [P1 P2].
  unfold Server.classifyProfessionAndSelectTheme, bind, lift, tryCatch, callModel, ret.
  rewrite Hs, Hm, P1, P2, Hg. reflexivity.
Qed.

Lemma netlify_classifier_run gen parsedData w skills summary label :
  Val.get parsedData (js "skills") = Ok skills ->
  Val.get parsedData (js "summary") = Ok summary ->
  Conv.toStringThrows summary = false ->
  Conv.toStringThrows skills = false ->
  gen (modelCalls w) = Text label ->
  Netlify.classifyProfessionAndSelectTheme gen parsedData w
  = (Ok (Themes.select Themes.themes (VStr (Str.trim label))),
     {| modelCalls := S (modelCalls w); portfolios := portfolios w; rows := rows w |}).
Proof.
  intros Hs Hm Hts Htk Hg. destruct (prompt_is_built skills summary Hts Htk) as [P1 P2].
  unfold Netlify.classifyProfessionAndSelectTheme, bind, lift, tryCatch, callModel, ret.
  rewrite Hs, Hm, P1, P2, Hg. reflexivity.
Qed.

Lemma server_extractor_run gen resumeText w text parsed :
  gen (modelCalls w) = Text text ->
  Server.parseModelText text = Ok parsed ->
  Server.parseResumeWithAI gen resumeText w
  = (Ok parsed,
     {| modelCalls := S (modelCalls w); portfolios := portfolios w; rows := rows w |}).
Proof.
  intros Hg Hp. unfold Server.parseResumeWithAI, tryCatch, bind, lift, callModel.
  rewrite Hg, Hp. reflexivity.
Qed.

Lemma netlify_extractor_run gen resumeText w text parsed :
  Conv.interpolate resumeText = Ok tt ->
  gen (modelCalls w) = Text text ->
  Server.parseModelText text = Ok parsed ->
  Netlify.parseResumeWithAI gen resumeText w
  = (Ok parsed,
     {| modelCalls := S (modelCalls w); portfolios := portfolios w; rows := rows w |}).
Proof.
  intros Hi Hg Hp. unfold Netlify.parseResumeWithAI, tryCatch, bind, lift, callModel.
  rewrite Hi, Hg, Hp. reflexivity.
Qed.

(** X29. The resume pipeline of server.js end to end.  When the PDF has
    text, the first reply cleans to JSON and the second is a label, the
    request is answered 200 after two model calls, and the record stored
    under the new id holds the extracted data with its social links
    normalized, the theme the trimmed label selects, the uploaded photo
    as a data: URL (the placeholder picture without one) and the
    creation time; the answer reports the same data, theme and picture. *)
Theorem server_generate_success gen pdf b64 file photo id now w
    resumeText text parsed skills summary label normalized placeholder :
  pdf (Server.buffer file) = Ok resumeText ->
  Str.trim resumeText <> [] ->
  gen (modelCalls w) = Text text ->
  Server.parseModelText text = Ok parsed ->
  Val.get parsed (js "skills") = Ok skills ->
  Val.get parsed (js "summary") = Ok summary ->
  Conv.toStringThrows summary = false ->
  Conv.toStringThrows skills = false ->
  gen (S (modelCalls w)) = Text label ->
  Server.normalizeSocial parsed = Ok normalized ->
  Server.placeholderPhoto normalized = Ok placeholder ->
  let theme := Themes.select Themes.themes (VStr (Str.trim label)) in
  let picture := VStr (Server.photoUrlOf b64 placeholder photo) in
  Server.generateFromResume gen pdf b64 (Some file) photo id now w
  = (Ok {| status := 200;
           payload := JsonOf (VObj [ (js "portfolioId", VStr id);
                                     (js "portfolioData", normalized);
                                     (js "theme", theme);
                                     (js "profilePictureUrl", picture) ]) |},
     {| modelCalls := S (S (modelCalls w));
        portfolios :=
          Store.set (portfolios w) id
            (VObj [ (js "data", normalized); (js "theme", theme);
                    (js "profilePictureUrl", picture); (js "createdAt", VDate now) ]);
        rows := rows w |}).
Proof.
  intros Hpdf Ht Hg Hp Hs Hm Hts Htk Hl Hn Hph. cbv zeta.
  unfold Server.generateFromResume, tryCatch, bind. unfold lift at 1. rewrite Hpdf.
  destruct (Str.trim resumeText) eqn:E; [contradiction|].
  unfold bind. rewrite (server_extractor_run gen resumeText w text parsed Hg Hp).
  rewrite (server_classifier_run gen parsed
             {| modelCalls := S (modelCalls w); portfolios := portfolios w; rows := rows w |}
             skills summary label Hs Hm Hts Htk Hl).
  unfold lift. rewrite Hn, Hph.
  unfold Server.storePortfolio, bind, getPortfolios, putPortfolios, ret.
  reflexivity.
Qed.

Lemma server_generate_success_witness :
  Server.generateFromResume
    (Scenario.replies
       [ Text (js "{" ++ Scenario.q "personalInfo" ++ js ":{" ++ Scenario.q "github"
               ++ js ":" ++ Scenario.q "ada" ++ js "}}");
         Text (js "Data Scientist") ])
    (Scenario.pdfWithText (js "Ada, statistician")) Scenario.base64
    (Some {| Server.mimetype := js "application/pdf"; Server.buffer := [] |})
    None (js "id") 7 Scenario.start
  = (Ok {| status := 200;
           payload :=
             JsonOf (VObj [ (js "portfolioId", VStr (js "id"));
                            (js "portfolioData",
                             VObj [(js "personalInfo",
                                    VObj [(js "github", VStr (js "https://github.com/ada"))])]);
                            (js "theme", Themes.object Themes.dataGreen);
                            (js "profilePictureUrl",
                             VStr (js "https://placehold.co/150x150/222/fff?text=P")) ]) |},
     {| modelCalls := 2;
        portfolios :=
          Store.set Store.empty (js "id")
            (VObj [ (js "data",
                     VObj [(js "personalInfo",
                            VObj [(js "github", VStr (js "https://github.com/ada"))])]);
                    (js "theme", Themes.object Themes.dataGreen);
                    (js "profilePictureUrl",
                     VStr (js "https://placehold.co/150x150/222/fff?text=P"));
                    (js "createdAt", VDate 7) ]);
        rows := [] |}).
Proof.
  apply (server_generate_success
           (Scenario.replies
              [ Text (js "{" ++ Scenario.q "personalInfo" ++ js ":{" ++ Scenario.q "github"
                      ++ js ":" ++ Scenario.q "ada" ++ js "}}");
                Text (js "Data Scientist") ])
           (Scenario.pdfWithText (js "Ada, statistician")) Scenario.base64
           {| Server.mimetype := js "application/pdf"; Server.buffer := [] |}
           None (js "id") 7 Scenario.start
           (js "Ada, statistician")
           (js "{" ++ Scenario.q "personalInfo" ++ js ":{" ++ Scenario.q "github"
            ++ js ":" ++ Scenario.q "ada" ++ js "}}")
           (VObj [(js "personalInfo", VObj [(js "github", VStr (js "ada"))])])
           VUndefined VUndefined (js "Data Scientist")
           (VObj [(js "personalInfo",
                   VObj [(js "github", VStr (js "https://github.com/ada"))])])
           (js "https://placehold.co/150x150/222/fff?text=P"));
    first [reflexivity | discriminate | vm_compute; reflexivity | vm_compute; discriminate].
Defined.

(** X30. The AI pipeline of the Netlify generate function end to end.
    When the first reply cleans to JSON and the second is a label, and
    the table accepts the row, the request is answered 200 after two
    model calls and one row is inserted: it holds the extracted data as
    JSON.parse returned it (the social links are not normalized here),
    the picture of the request or the empty string, and the name of the
    theme the trimmed label selects. *)
Theorem netlify_ai_success gen table event id w
    body resumeText pic text parsed skills summary label themeName stored :
  Netlify.method event = VStr (js "POST") ->
  Json.parse (Netlify.eventBody event) = Ok body ->
  Val.get body (js "type") = Ok (VStr (js "ai")) ->
  Val.get body (js "resumeText") = Ok resumeText ->
  Val.get body (js "profilePictureUrl") = Ok pic ->
  Conv.interpolate (Netlify.orEmpty resumeText) = Ok tt ->
  gen (modelCalls w) = Text text ->
  Server.parseModelText text = Ok parsed ->
  Val.get parsed (js "skills") = Ok skills ->
  Val.get parsed (js "summary") = Ok summary ->
  Conv.toStringThrows summary = false ->
  Conv.toStringThrows skills = false ->
  gen (S (modelCalls w)) = Text label ->
  let theme := Themes.select Themes.themes (VStr (Str.trim label)) in
  let row := VObj [ (js "share_id", VStr id); (js "portfolio_data", parsed);
                    (js "profile_picture_url", Netlify.orEmpty pic);
                    (js "selected_theme", themeName) ] in
  Val.get theme (js "name") = Ok themeName ->
  table row = inr stored ->
  Netlify.handler gen table event id w
  = (Ok {| status := 200;
           payload := JsonOf (VObj [ (js "portfolioId", VStr id);
                                     (js "portfolioData", parsed);
                                     (js "theme", theme);
                                     (js "profilePictureUrl", Netlify.orEmpty pic) ]) |},
     {| modelCalls := S (S (modelCalls w)); portfolios := portfolios w;
        rows := rows w ++ [row] |}).
Proof.
  intros Hmeth Hb Hty Hr Hpic Hi Hg Hp Hs Hm Hts Htk Hl theme row Hname Htab.
  unfold Netlify.handler, tryCatch, bind. unfold lift at 1.
  rewrite Hmeth, Hb.
  change (Netlify.isString (VStr (js "POST")) (js "GET")) with false.
  change (Netlify.isString (VStr (js "POST")) (js "POST")) with true.
  cbn [negb]. unfold lift. rewrite Hty, Hr, Hpic.
  assert (exists x, Val.get body (js "portfolioData") = Ok x) as [pd ->]
    by (destruct body; try discriminate; eexists; reflexivity).
  assert (exists x, Val.get body (js "theme") = Ok x) as [th ->]
    by (destruct body; try discriminate; eexists; reflexivity).
  change (Netlify.isString (VStr (js "ai")) (js "manual")) with false.
  change (Netlify.isString (VStr (js "ai")) (js "ai")) with true.
  cbv beta iota.
  rewrite (netlify_extractor_run gen _ w text parsed Hi Hg Hp).
  rewrite (netlify_classifier_run gen parsed
             {| modelCalls := S (modelCalls w); portfolios := portfolios w; rows := rows w |}
             skills summary label Hs Hm Hts Htk Hl).
  unfold Netlify.save, bind, lift, insertRow, ret.
  fold theme. rewrite Hname. fold row. rewrite Htab. reflexivity.
Qed.

Lemma netlify_ai_success_witness :
  Netlify.handler
    (Scenario.replies
       [ Text (js "{" ++ Scenario.q "personalInfo" ++ js ":{" ++ Scenario.q "github"
               ++ js ":" ++ Scenario.q "ada" ++ js "}}");
         Text (js "Data Scientist") ])
    Scenario.accepting
    {| Netlify.method := VStr (js "POST");
       Netlify.eventBody :=
         js "{" ++ Scenario.q "type" ++ js ":" ++ Scenario.q "ai" ++ js ","
         ++ Scenario.q "resumeText" ++ js ":" ++ Scenario.q "cv" ++ js "}" |}
    (js "id") Scenario.start
  = (Ok {| status := 200;
           payload :=
             JsonOf (VObj [ (js "portfolioId", VStr (js "id"));
                            (js "portfolioData",
                             VObj [(js "personalInfo", VObj [(js "github", VStr (js "ada"))])]);
                            (js "theme", Themes.object Themes.dataGreen);
                            (js "profilePictureUrl", VStr []) ]) |},
     {| modelCalls := 2; portfolios := Store.empty;
        rows := [ VObj [ (js "share_id", VStr (js "id"));
                         (js "portfolio_data",
                          VObj [(js "personalInfo", VObj [(js "github", VStr (js "ada"))])]);
                         (js "profile_picture_url", VStr []);
                         (js "selected_theme", VStr (js "Data Green")) ] ] |}).
Proof.
  apply (netlify_ai_success
           (Scenario.replies
              [ Text (js "{" ++ Scenario.q "personalInfo" ++ js ":{" ++ Scenario.q "github"
                      ++ js ":" ++ Scenario.q "ada" ++ js "}}");
                Text (js "Data Scientist") ])
           Scenario.accepting
           {| Netlify.method := VStr (js "POST");
              Netlify.eventBody :=
                js "{" ++ Scenario.q "type" ++ js ":" ++ Scenario.q "ai" ++ js ","
                ++ Scenario.q "resumeText" ++ js ":" ++ Scenario.q "cv" ++ js "}" |}
           (js "id") Scenario.start
           (VObj [(js "type", VStr (js "ai")); (js "resumeText", VStr (js "cv"))])
           (VStr (js "cv")) VUndefined
           (js "{" ++ Scenario.q "personalInfo" ++ js ":{" ++ Scenario.q "github"
            ++ js ":" ++ Scenario.q "ada" ++ js "}}")
           (VObj [(js "personalInfo", VObj [(js "github", VStr (js "ada"))])])
           VUndefined VUndefined (js "Data Scientist") (VStr (js "Data Green"))
           (VObj [ (js "share_id", VStr (js "id"));
                   (js "portfolio_data",
                    VObj [(js "personalInfo", VObj [(js "github", VStr (js "ada"))])]);
                   (js "profile_picture_url", VStr []);
                   (js "selected_theme", VStr (js "Data Green")) ]));
    first [reflexivity | vm_compute; reflexivity].
Defined.
